(** * gominetest: batch codec, login verification, session manager, handlers,
    players, items and plugins

    A shallow embedding of the networking core of the server.

    Definitions
    - [Cipher]: the byte-at-a-time CFB loops of [MinecraftPacketBatch.encrypt]
      and [MinecraftPacketBatch.decrypt];
    - [Batch]: [MinecraftPacketBatch.Decode] and [Encode] with their helpers,
      in a small state-and-panic monad over the batch;
    - [Manager]: the four maps of [SessionManager] as finite maps;
    - [Login]: [VerifyLoginRequest] and the handler of [NewLoginHandler];
    - [Players]: [Player.Tick] over a store of shared entities;
    - [PlayerMoves]: [Player.SyncMove];
    - [GoStrings]: the functions of Go's strings package that the code uses;
    - [Items]: item types, [NewType] and [GetAuxValue];
    - [Plugins]: [PluginManager.ValidateManifest];
    - [Handlers]: the command, resource pack and text handlers;
    - [BatchSpec], [BatchMoreSpec], [LoginSpec], [LoginMoreSpec]: the
      vocabulary of the statements;
    - [Fixtures], [MoreFixtures]: executable instances of the library
      interfaces, and concrete frames, sessions, chains and servers.

    Theorems
    - [CipherFacts], [BatchFacts], [ManagerFacts], [LoginFacts],
      [PlayersFacts];
    - [CipherMore], [ItemsFacts], [PluginsFacts], [BatchMore],
      [ManagerMore], [LoginMore], [HandlersFacts], [PlayerMovesFacts];
    - the [...Examples] modules that run them on concrete frames, chains,
      sessions and players.

    Bytes are integers ([Z]) in [0, 256); xor is [Z.lxor].  Go panics are
    modelled by [None] (or a [Panic] constructor where the state at the panic
    matters).  Calls into libraries whose code is not part of the repository
    (crypto/cipher, compress/zlib, crypto/ecdsa and x509, binutils) are
    fields of the records [Batch.Libs] and [Login.Crypto]. *)

From Stdlib Require Import ZArith Lia.
From stdpp Require Import base option list strings gmap.

Definition byte := Z.

(** ** The CFB byte loop *)
Module Cipher.

(** [cipher.Block]: the interface value stored in the encryption data.  Only
    [BlockSize] and [Encrypt] are used by CFB, in both directions. *)
Record Block := mkBlock {
  BlockSize : nat;
  Encrypt : list byte -> list byte
}.

(** [cipher.NewCFBEncrypter(block, iv)] (or [NewCFBDecrypter]) followed by
    [XORKeyStream] on a slice of one byte.  The constructor panics when
    [len(iv) != block.BlockSize()]; a fresh stream has no key stream left, so
    the block is encrypted once over (a copy of) the IV and the first byte of
    the result is xored into the source byte.  The direction only decides
    which byte the stream keeps as feedback, and the stream is dropped after
    one byte, so both directions compute the same function here.  A block of
    size zero gives no result either (the library loop cannot make progress). *)
Definition cfbXorByte (blk : Block) (iv : list byte) (src : byte) : option byte :=
  if decide (length iv = BlockSize blk /\ 0 < BlockSize blk)
  then Some (Z.lxor src (hd 0%Z (Encrypt blk iv)))
  else None.

(** [append(iv[1:], b)] *)
Definition shiftIV (iv : list byte) (b : byte) : list byte := drop 1 iv ++ [b].

(** The loop of [encrypt]:
    [for i := range d { cfb := NewCFBEncrypter(cipher, IV);
                        cfb.XORKeyStream(d[i:i+1], d[i:i+1]);
                        IV = append(IV[1:], d[i]) }]
    where [d[i]] is read after the xor, so the ciphertext byte is fed back.
    Returns the ciphertext and the IV left in the encryption data. *)
Fixpoint encryptBytes (blk : Block) (iv : list byte) (d : list byte)
  : option (list byte * list byte) :=
  match d with
  | [] => Some ([], iv)
  | p :: rest =>
      c ← cfbXorByte blk iv p;
      '(cs, iv') ← encryptBytes blk (shiftIV iv c) rest;
      Some (c :: cs, iv')
  end.

(** The loop of [decrypt]:
    [for i, b := range raw { cfb := NewCFBDecrypter(cipher, IV);
                             cfb.XORKeyStream(raw[i:i+1], raw[i:i+1]);
                             IV = append(IV[1:], b) }]
    where [b] was copied from [raw[i]] before the xor, so again the
    ciphertext byte is fed back. *)
Fixpoint decryptBytes (blk : Block) (iv : list byte) (raw : list byte)
  : option (list byte * list byte) :=
  match raw with
  | [] => Some ([], iv)
  | b :: rest =>
      p ← cfbXorByte blk iv b;
      '(ps, iv') ← decryptBytes blk (shiftIV iv b) rest;
      Some (p :: ps, iv')
  end.

(** Flipping bit [k] of a byte. *)
Definition flipBit (k : Z) (b : byte) : byte := Z.lxor b (Z.shiftl 1 k).

End Cipher.

(** ** Go's [strings] functions on byte strings

    A Go string is a sequence of bytes, as a Rocq [string] is.  The
    separators and cut sets used in the repository are single ASCII
    characters, for which these functions work byte by byte. *)
Module GoStrings.

Local Open Scope string_scope.

(** [strings.Split(s, sep)] for a one-character [sep]: the pieces between
    the separators, one more than there are separators. *)
Fixpoint Split (sep : Ascii.ascii) (s : string) : list string :=
  match s with
  | EmptyString => [""]
  | String c rest =>
      if decide (c = sep) then "" :: Split sep rest
      else match Split sep rest with
           | piece :: pieces => String c piece :: pieces
           | [] => [String c ""]
           end
  end.

(** [strings.Count(s, sep)] for a one-character [sep]. *)
Fixpoint Count (sep : Ascii.ascii) (s : string) : nat :=
  match s with
  | EmptyString => 0
  | String c rest => (if decide (c = sep) then 1 else 0) + Count sep rest
  end.

(** [strings.TrimLeft(s, cutset)] for a one-character [cutset]. *)
Fixpoint TrimLeft (cut : Ascii.ascii) (s : string) : string :=
  match s with
  | EmptyString => ""
  | String c rest => if decide (c = cut) then TrimLeft cut rest else s
  end.

(** [strings.TrimRight(s, cutset)] for a one-character [cutset]. *)
Fixpoint TrimRight (cut : Ascii.ascii) (s : string) : string :=
  match s with
  | EmptyString => ""
  | String c rest =>
      match TrimRight cut rest with
      | EmptyString => if decide (c = cut) then "" else String c ""
      | kept => String c kept
      end
  end.

(** [s[n:]] on a string: a panic ([None]) when [n] is past the end. *)
Fixpoint sliceFrom (n : nat) (s : string) : option string :=
  match n with
  | O => Some s
  | S n' =>
      match s with
      | EmptyString => None
      | String _ rest => sliceFrom n' rest
      end
  end.

Definition space : Ascii.ascii := Ascii.Ascii false false false false false true false false.
Definition slash : Ascii.ascii := Ascii.Ascii true true true true false true false false.
Definition dot : Ascii.ascii := Ascii.Ascii false true true true false true false false.
Definition underscore : Ascii.ascii := Ascii.Ascii true true true true true false true false.

End GoStrings.

(** ** Item types *)
Module Items.

Local Open Scope string_scope.

(** [type Type struct] of package items.  The two NBT function fields are
    always the package's [ParseNBT] and [EmitNBT] and are left out. *)
Record ItemType := mkType {
  name : string;
  stringId : string;
  breakable : bool;
  maxStackSize : Z
}.

(** The fields of [Stack] read by [GetAuxValue].  [Durability] is an
    [int16]; [Count] is the number its integer type holds. *)
Record Stack := mkStack {
  Count : Z;
  Durability : Z
}.

(** Conversion to [int16], and the value of an [int16] expression: the
    two's complement number of the low sixteen bits. *)
Definition int16 (x : Z) : Z := (x + 32768) mod 65536 - 32768.

Section WithTitle.
(** [strings.Title] *)
Context (Title : string -> string).

(** [NewType]; [None] is the panic of [stringId[10:]] on a string shorter
    than ten bytes. *)
Definition NewType (stringId : string) : option ItemType :=
  match GoStrings.sliceFrom 10 stringId with
  | None => None
  | Some tail =>
      let fragments := GoStrings.Split GoStrings.underscore tail in
      let name := fold_left (fun name frag => name ++ Title frag ++ " ") fragments "" in
      Some (mkType (GoStrings.TrimRight GoStrings.space name) stringId false 64)
  end.

Definition NewBreakable (stringId : string) : option ItemType :=
  match NewType stringId with
  | None => None
  | Some t => Some (mkType (name t) (Items.stringId t) true (maxStackSize t))
  end.

End WithTitle.

Definition GetName (t : ItemType) : string := name t.
Definition GetId (t : ItemType) : string := stringId t.
Definition IsBreakable (t : ItemType) : bool := breakable t.
Definition GetMaximumStackSize (t : ItemType) : Z := maxStackSize t.

(** [GetAuxValue]: [int32(((data & 0x7fff) << 8) | int16(stack.Count))].
    The operands are [int16]s, so the shift wraps at sixteen bits; the
    conversion of the result to [int32] keeps its value. *)
Definition GetAuxValue (t : ItemType) (stack : Stack) (data : Z) : Z :=
  let data := if IsBreakable t then Durability stack else data in
  Z.lor (int16 (Z.shiftl (Z.land data 32767) 8)) (int16 (Count stack)).

Definition Equals (t t2 : ItemType) : bool :=
  bool_decide (stringId t = stringId t2).

End Items.

(** ** The plugin manager: manifest validation *)
Module Plugins.

Local Open Scope string_scope.

Definition ApiVersion : string := "0.0.1".

(** What [ValidateManifest] reads of an [IManifest]. *)
Record IManifest := mkManifest {
  GetName : string;
  GetDescription : string;
  GetVersion : string;
  GetAPIVersion : string
}.

(** [type PluginManager struct]: the plugins by name; a plugin is kept as
    its address. *)
Record PluginManager := mkPluginManager {
  plugins : gmap string nat
}.

Definition IsPluginLoaded (name : string) (manager : PluginManager) : bool :=
  bool_decide (is_Some (plugins manager !! name)).

(** [GetPlugin]: [None] is nil. *)
Definition GetPlugin (name : string) (manager : PluginManager) : option nat :=
  if negb (IsPluginLoaded name manager) then None
  else plugins manager !! name.

(** [ValidateManifest]: [None] is the nil error, [Some msg] is
    [errors.New(msg)]. *)
Definition ValidateManifest (manager : PluginManager) (manifest : IManifest)
    (path : string) : option string :=
  if decide (GetName manifest = "")
  then Some ("Plugin manifest at " ++ path ++ " is missing a name.")
  else if IsPluginLoaded (GetName manifest) manager
  then Some ("Found duplicated plugin at " ++ path)
  else if decide (GetDescription manifest = "")
  then Some ("Plugin manifest at " ++ path ++ " is missing a description.")
  else
    let dotCount := GoStrings.Count GoStrings.dot (GetVersion manifest) in
    if decide (dotCount < 1)%nat
    then Some ("Plugin manifest at " ++ path ++ " is missing a valid version.")
    else
      let digits := GoStrings.Split GoStrings.dot (GetAPIVersion manifest) in
      if decide (length digits < 2)%nat
      then Some ("Plugin manifest at " ++ path ++ " is missing a valid API version.")
      else
        let currentDigits := GoStrings.Split GoStrings.dot ApiVersion in
        if decide (hd "" digits <> hd "" currentDigits)
        then Some ("Plugin manifest at " ++ path
                   ++ " has an incompatible greater API version. Got: "
                   ++ hd "" digits ++ ".~, Expected: " ++ hd "" currentDigits ++ ".~")
        else None.

End Plugins.

(** ** The batch codec *)
Module Batch.
Import Cipher.

(** [const McpeFlag = 0xFE] *)
Definition McpeFlag : byte := 254%Z.

(** [utils.EncryptionData], as far as the batch code reads and writes it.
    The two ciphers are [cipher.Block] interface values. *)
Record EncryptionData := mkEncryptionData {
  EncryptCipher : Block;
  DecryptCipher : Block;
  EncryptIV : list byte;
  DecryptIV : list byte;
  SharedSecret : list byte;
  SendCounter : Z
}.

(** The part of [MinecraftSession] a batch reaches through its [session]
    pointer: [GetEncryptionHandler().Data] (nil until the login handler sets
    it) and [adapter.packetManager.IsPacketRegistered]. *)
Record MinecraftSession := mkSession {
  Data : option EncryptionData;
  IsPacketRegistered : Z -> bool
}.

(** A packet as the batch sees it: [GetPacket(id)] followed by
    [SetBuffer(data)]. *)
Record Packet := mkPacket {
  PacketId : Z;
  PacketBuffer : list byte
}.

(** The embedded [*binutils.Stream]. *)
Record Stream := mkStream {
  Buffer : list byte;
  Offset : nat
}.

(** What reaches [text.DefaultLogger]. *)
Inductive LogEntry :=
| LogZlibError                      (* LogError(err) with a non-nil zlib error *)
| LogDebugHex (raw : list byte)     (* Debug(hex.EncodeToString(raw)) *)
| LogDebugPanic                     (* Debug(err) in the deferred recover *)
| LogDebugUnknownPacket (id : Z).   (* Debug("Unknown Minecraft packet with ID:", id) *)

Record MinecraftPacketBatch := mkBatch {
  stream : Stream;
  raw : list byte;
  packets : list Packet;
  session : option MinecraftSession;
  needsEncryption : bool;
  logged : list LogEntry
}.

(** Result of [zlib.NewReader] followed by [ioutil.ReadAll]: the header is
    refused, or reading yields the bytes read so far and possibly an error. *)
Inductive ZlibResult :=
| ZlibHeaderError
| ZlibRead (out : list byte) (failed : bool).

(** Library calls made by the batch code.  A stream read that panics (a
    slice out of range) is [None]. *)
Record Libs := mkLibs {
  sha256 : list byte -> list byte;
  zlib_inflate : list byte -> ZlibResult;
  zlib_compress : list byte -> list byte;
  GetByte : Stream -> option (byte * Stream);
  Feof : Stream -> bool;
  GetLengthPrefixedBytes : Stream -> option (list byte * Stream);
  PutLengthPrefixedBytes : list byte -> list byte;
  (* packet.EncodeHeader(); packet.Encode(); packet.GetBuffer() *)
  EncodedBuffer : Packet -> list byte
}.

(** Outcome of a method body: normal return, a panic leaving the batch in
    state [b], or a loop that the given fuel does not finish. *)
Inductive Res (A : Type) :=
| Ok (a : A) (b : MinecraftPacketBatch)
| Panic (b : MinecraftPacketBatch)
| OutOfFuel.
Arguments Ok {A} a b.
Arguments Panic {A} b.
Arguments OutOfFuel {A}.

Definition M (A : Type) := MinecraftPacketBatch -> Res A.
Definition ret {A} (a : A) : M A := fun b => Ok a b.
Definition bind {A B} (m : M A) (k : A -> M B) : M B :=
  fun b => match m b with
           | Ok a b' => k a b'
           | Panic b' => Panic b'
           | OutOfFuel => OutOfFuel
           end.
Definition panic {A} : M A := fun b => Panic b.
Definition get : M MinecraftPacketBatch := fun b => Ok b b.
Definition modify (f : MinecraftPacketBatch -> MinecraftPacketBatch) : M unit :=
  fun b => Ok tt (f b).

Notation "'do' x <~ m 'in' k" := (bind m (fun x => k))
  (at level 10, x name, m at level 100, k at level 200).
Notation "'run' m 'in' k" := (bind m (fun _ => k))
  (at level 10, m at level 100, k at level 200).

Definition setStream (s : Stream) (b : MinecraftPacketBatch) :=
  mkBatch s (raw b) (packets b) (session b) (needsEncryption b) (logged b).
Definition setRaw (r : list byte) (b : MinecraftPacketBatch) :=
  mkBatch (stream b) r (packets b) (session b) (needsEncryption b) (logged b).
Definition setPackets (p : list Packet) (b : MinecraftPacketBatch) :=
  mkBatch (stream b) (raw b) p (session b) (needsEncryption b) (logged b).
Definition setSession (s : option MinecraftSession) (b : MinecraftPacketBatch) :=
  mkBatch (stream b) (raw b) (packets b) s (needsEncryption b) (logged b).
Definition addLog (e : LogEntry) (b : MinecraftPacketBatch) :=
  mkBatch (stream b) (raw b) (packets b) (session b) (needsEncryption b) (logged b ++ [e]).

(** [NewMinecraftPacketBatch(session)], then [SetBuffer(payload)] by the
    caller that is about to decode. *)
Definition NewMinecraftPacketBatch (s : option MinecraftSession) (uses : bool)
  : MinecraftPacketBatch :=
  mkBatch (mkStream [] 0) [] [] s
          (match s with None => false | Some _ => uses end) [].

Definition SetBuffer (payload : list byte) (b : MinecraftPacketBatch) :=
  setStream (mkStream payload (Offset (stream b))) b.

(** Little-endian 64-bit encoding of the batch counter. *)
Definition le64 (n : Z) : list byte :=
  map (fun i => Z.land (Z.shiftr n (8 * Z.of_nat i)) 255)%Z (seq 0 8).

Section WithLibs.
Context (L : Libs).

(** Modelled from the spec: [EncryptionHandler.ComputeSendChecksum] lives in
    the utils package, which is not under src/.  The suffix is the first 8
    bytes of SHA-256(LE64(sendCounter) || body || sharedSecret), and the
    counter is incremented per batch. *)
Definition ComputeSendChecksum (data : EncryptionData) (d : list byte)
  : list byte * EncryptionData :=
  (take 8 (sha256 L (le64 (SendCounter data) ++ d ++ SharedSecret data)),
   mkEncryptionData (EncryptCipher data) (DecryptCipher data)
                    (EncryptIV data) (DecryptIV data)
                    (SharedSecret data) (SendCounter data + 1)%Z).

(** [func (batch *MinecraftPacketBatch) encrypt(d []byte) []byte] *)
Definition encrypt (d : list byte) : M (list byte) := fun b =>
  match session b with
  | None => Panic b
  | Some s =>
      match Data s with
      | None => Panic b
      | Some data =>
          let '(sum, data1) := ComputeSendChecksum data d in
          let b1 := setSession (Some (mkSession (Some data1) (IsPacketRegistered s))) b in
          match encryptBytes (EncryptCipher data1) (EncryptIV data1) (d ++ sum) with
          | None => Panic b1
          | Some (c, iv') =>
              Ok c (setSession
                      (Some (mkSession
                               (Some (mkEncryptionData
                                        (EncryptCipher data1) (DecryptCipher data1)
                                        iv' (DecryptIV data1)
                                        (SharedSecret data1) (SendCounter data1)))
                               (IsPacketRegistered s))) b)
          end
      end
  end.

(** [func (batch *MinecraftPacketBatch) decrypt()]: the loop runs in place
    over [batch.raw]. *)
Definition decrypt : M unit := fun b =>
  match session b with
  | None => Panic b
  | Some s =>
      match Data s with
      | None => match raw b with [] => Ok tt b | _ => Panic b end
      | Some data =>
          match decryptBytes (DecryptCipher data) (DecryptIV data) (raw b) with
          | None => Panic b
          | Some (p, iv') =>
              Ok tt (setRaw p
                      (setSession
                        (Some (mkSession
                                 (Some (mkEncryptionData
                                          (EncryptCipher data) (DecryptCipher data)
                                          (EncryptIV data) iv'
                                          (SharedSecret data) (SendCounter data)))
                                 (IsPacketRegistered s))) b))
          end
      end
  end.

(** [func (batch *MinecraftPacketBatch) decompress() error]; the result is
    [true] for a non-nil error.  ([zlibReader == nil] cannot hold once
    [err == nil].) *)
Definition decompress : M bool := fun b =>
  match zlib_inflate L (raw b) with
  | ZlibHeaderError =>
      Ok true (addLog (LogDebugHex (raw b)) (addLog LogZlibError b))
  | ZlibRead out failed => Ok failed (setRaw out b)
  end.

(** [func (batch *MinecraftPacketBatch) fetchPackets(packetData [][]byte)] *)
Fixpoint fetchPackets (packetData : list (list byte)) : M unit :=
  match packetData with
  | [] => ret tt
  | data :: rest =>
      match data with
      | [] => fetchPackets rest
      | packetId :: _ =>
          do b <~ get in
          match session b with
          | None => panic
          | Some s =>
              if IsPacketRegistered s packetId
              then run modify (fun b => setPackets (packets b ++ [mkPacket packetId data]) b) in
                   fetchPackets rest
              else run modify (addLog (LogDebugUnknownPacket packetId)) in
                   fetchPackets rest
          end
      end
  end.

(** [for !batch.Feof() { packetData = append(packetData, batch.GetLengthPrefixedBytes()) }] *)
Fixpoint readRecords (fuel : nat) (packetData : list (list byte)) : M (list (list byte)) :=
  match fuel with
  | O => fun _ => OutOfFuel
  | S fuel' =>
      do b <~ get in
      if Feof L (stream b) then ret packetData
      else match GetLengthPrefixedBytes L (stream b) with
           | None => panic
           | Some (rec, s') =>
               run modify (setStream s') in
               readRecords fuel' (packetData ++ [rec])
           end
  end.

(** Lines 566-570 of [Decode]:
    [batch.raw = batch.Buffer[batch.Offset:]; if batch.needsEncryption { batch.decrypt() }].
    The slice expression panics when the offset is past the buffer; [raw]
    shares its array with [Buffer], so the in-place decryption shows in
    [Buffer] as well. *)
Definition Decode_raw : M unit :=
  do b <~ get in
  let s1 := stream b in
  if decide (Offset s1 <= length (Buffer s1))
  then run modify (setRaw (drop (Offset s1) (Buffer s1))) in
       if needsEncryption b
       then run decrypt in
            modify (fun b' =>
              setStream (mkStream (take (Offset s1) (Buffer s1) ++ raw b') (Offset s1)) b')
       else ret tt
  else panic.

(** Lines 571-586 of [Decode]: inflate, then split and fetch the records. *)
Definition Decode_records (fuel : nat) : M unit :=
  do err <~ decompress in
  if err : bool then modify (addLog LogZlibError)
  else
    (* batch.ResetStream(); batch.SetBuffer(batch.raw) *)
    run modify (fun b' => setStream (mkStream (raw b') 0) b') in
    do packetData <~ readRecords fuel [] in
    fetchPackets packetData.

(** The body of [Decode], before the deferred function runs. *)
Definition Decode_body (fuel : nat) : M unit :=
  do b <~ get in
  match GetByte L (stream b) with
  | None => panic
  | Some (mcpeFlag, s1) =>
      run modify (setStream s1) in
      if decide (mcpeFlag = McpeFlag)
      then run Decode_raw in Decode_records fuel
      else ret tt
  end.

(** [defer func() { if err := recover(); err != nil { Debug(err) } }()] *)
Definition recover (m : M unit) : M unit := fun b =>
  match m b with
  | Panic b' => Ok tt (addLog LogDebugPanic b')
  | r => r
  end.

(** [func (batch *MinecraftPacketBatch) Decode()] *)
Definition Decode (fuel : nat) : M unit := recover (Decode_body fuel).

(** [func (batch *MinecraftPacketBatch) putPackets(stream *binutils.Stream)] *)
Definition putPackets (b : MinecraftPacketBatch) : list byte :=
  flat_map (fun p => PutLengthPrefixedBytes L (EncodedBuffer L p)) (packets b).

(** [func (batch *MinecraftPacketBatch) compress(stream *binutils.Stream) []byte] *)
Definition compress (s : list byte) : list byte := zlib_compress L s.

(** [func (batch *MinecraftPacketBatch) Encode()]: no deferred recover here.
    [ResetStream] and the [Put] calls leave the offset at the start. *)
Definition Encode : M unit :=
  run modify (setStream (mkStream [McpeFlag] 0)) in
  do b <~ get in
  let zlibData := compress (putPackets b) in
  do data <~ (if needsEncryption b then encrypt zlibData else ret zlibData) in
  modify (setStream (mkStream (McpeFlag :: data) 0)).

End WithLibs.
End Batch.

(** ** Vocabulary for statements about the batch codec *)
Module BatchSpec.
Import Cipher Batch.

(** The receiving end of session [s], encrypted, about to decode [frame]. *)
Definition receivingOn (s : MinecraftSession) (frame : list byte)
  : MinecraftPacketBatch :=
  SetBuffer frame (NewMinecraftPacketBatch (Some s) true).

(** What the caller gets out of a call: the packets of the batch after a
    normal return. *)
Definition yield (r : Res unit) : option (list Packet) :=
  match r with
  | Ok _ b => Some (packets b)
  | _ => None
  end.

(** The packets together with what was logged. *)
Definition report (r : Res unit) : option (list Packet * list LogEntry) :=
  match r with
  | Ok _ b => Some (packets b, logged b)
  | _ => None
  end.

(** The cipher discipline in the words of its description.  [keyByte blk iv]
    is the key-stream byte of a fresh CFB stream over [iv]: the first byte
    of the block cipher applied to the IV.  [ivAt iv c i] is the stored IV
    when byte [i] is processed: the initial IV, shifted left by one byte for
    every earlier byte with the ciphertext byte of that step appended.
    [rolled iv c] is the IV left once all of [c] has gone through. *)
Definition keyByte (blk : Block) (iv : list byte) : byte :=
  hd 0%Z (Encrypt blk iv).

Fixpoint ivAt (iv c : list byte) (i : nat) : list byte :=
  match i, c with
  | S i', x :: c' => ivAt (tl iv ++ [x]) c' i'
  | _, _ => iv
  end.

Definition rolled (iv c : list byte) : list byte := ivAt iv c (length c).

(** The one property of [binutils.Stream.GetByte] that statements about whole
    frames rely on: on a fresh stream it returns the first byte of a
    non-empty buffer and moves the offset to 1. *)
Definition readsFirstByte (L : Libs) : Prop :=
  forall m rest,
    GetByte L (mkStream (m :: rest) 0) = Some (m, mkStream (m :: rest) 1).








(** Two batch states that the record loop and [fetchPackets] cannot tell
    apart: same stream, packets and log, and the same packet registry behind
    the session pointer. *)
Definition agree (b1 b2 : MinecraftPacketBatch) : Prop :=
  stream b1 = stream b2 /\ packets b1 = packets b2 /\ logged b1 = logged b2 /\
  (IsPacketRegistered <$> session b1) = (IsPacketRegistered <$> session b2).

Definition agreeRes {A} (r1 r2 : Res A) : Prop :=
  match r1, r2 with
  | Ok a1 c1, Ok a2 c2 => a1 = a2 /\ agree c1 c2
  | Panic c1, Panic c2 => agree c1 c2
  | OutOfFuel, OutOfFuel => True
  | _, _ => False
  end.

(** The reader moves forward: a successful length-prefixed read leaves the
    offset further on, and a stream not at its end has bytes left. *)
Definition readerAdvances (L : Libs) : Prop :=
  (forall s rec s', GetLengthPrefixedBytes L s = Some (rec, s') ->
     Buffer s' = Buffer s /\ Offset s < Offset s') /\
  (forall s, Feof L s = false -> Offset s < length (Buffer s)).

End BatchSpec.

(** ** More vocabulary for the batch codec *)
Module BatchMoreSpec.
Import Cipher Batch BatchSpec.

(** What [fetchPackets] makes of one record: a packet if the record is not
    empty and its first byte is a registered id. *)
Definition recordPacket (reg : Z -> bool) (data : list byte) : option Packet :=
  match data with
  | [] => None
  | packetId :: _ => if reg packetId then Some (mkPacket packetId data) else None
  end.

(** ... and the debug line it writes for a record with an unknown id. *)
Definition recordUnknown (reg : Z -> bool) (data : list byte) : option LogEntry :=
  match data with
  | [] => None
  | packetId :: _ => if reg packetId then None else Some (LogDebugUnknownPacket packetId)
  end.

(** The records that the loop of [Decode] splits an inflated buffer into
    (the loop only looks at the stream). *)
Definition recordsOf (L : Libs) (fuel : nat) (payload : list byte)
  : option (list (list byte)) :=
  match readRecords L fuel [] (mkBatch (mkStream payload 0) [] [] None false []) with
  | Ok recs _ => Some recs
  | _ => None
  end.

(** The packet that the receiving end holds for a packet sent. *)
Definition received (L : Libs) (p : Packet) : Packet :=
  mkPacket (hd 0%Z (EncodedBuffer L p)) (EncodedBuffer L p).

(** The encoded form of a packet starts with an id that the receiving end
    has registered. *)
Definition knownTo (L : Libs) (s : MinecraftSession) (p : Packet) : Prop :=
  exists packetId rest,
    EncodedBuffer L p = packetId :: rest /\ IsPacketRegistered s packetId = true.

(** The sending end of session [s] holding [ps], with or without the cipher
    layer, and the plain receiving end. *)
Definition sendingOn (s : MinecraftSession) (uses : bool) (ps : list Packet)
  : MinecraftPacketBatch :=
  setPackets ps (NewMinecraftPacketBatch (Some s) uses).

Definition plainReceivingOn (s : MinecraftSession) (frame : list byte)
  : MinecraftPacketBatch :=
  SetBuffer frame (NewMinecraftPacketBatch (Some s) false).

(** The send IV and the receive IV held behind a batch. *)
Definition sendIV (b : MinecraftPacketBatch) : option (list byte) :=
  EncryptIV <$> (session b ≫= Data).
Definition recvIV (b : MinecraftPacketBatch) : option (list byte) :=
  DecryptIV <$> (session b ≫= Data).

(** Two views of a session that differ at most in the receive IV. *)
Definition sameButRecvIV (s s' : option MinecraftSession) : Prop :=
  match s, s' with
  | None, None => True
  | Some s, Some s' =>
      IsPacketRegistered s' = IsPacketRegistered s /\
      match Data s, Data s' with
      | None, None => True
      | Some d, Some d' =>
          EncryptCipher d' = EncryptCipher d /\ DecryptCipher d' = DecryptCipher d /\
          EncryptIV d' = EncryptIV d /\ SharedSecret d' = SharedSecret d /\
          SendCounter d' = SendCounter d
      | _, _ => False
      end
  | _, _ => False
  end.

End BatchMoreSpec.

(** ** The session manager *)
Module Manager.

(** [uuid.UUID] is a 16-byte array; it is kept as the number it spells. *)
Definition UUID := Z.

(** What the manager asks of a [*MinecraftSession]: the pointer itself (the
    value stored in the maps) and the four accessor results used as keys.
    [AddMinecraftSession] keys the name map by [session.GetName()], while
    [RemoveMinecraftSession] deletes [session.GetPlayer().GetName()], so both
    are kept.  The transport key is [fmt.Sprint(session.GetSession())]. *)
Record MinecraftSession := mkSession {
  Ptr : nat;
  GetName : string;
  GetPlayerName : string;
  GetUUID : UUID;
  GetXUID : string;
  GetSession : string
}.

#[global] Instance MinecraftSession_eq_dec : EqDecision MinecraftSession.
Proof. solve_decision. Defined.

(** [type SessionManager struct]; the mutex is not part of the state. *)
Record SessionManager := mkManager {
  nameMap : gmap string MinecraftSession;
  uuidMap : gmap UUID MinecraftSession;
  xuidMap : gmap string MinecraftSession;
  sessionMap : gmap string MinecraftSession
}.

Definition NewSessionManager : SessionManager := mkManager ∅ ∅ ∅ ∅.

Definition GetSessions (m : SessionManager) : gmap string MinecraftSession :=
  nameMap m.

Definition AddMinecraftSession (s : MinecraftSession) (m : SessionManager)
  : SessionManager :=
  mkManager (<[GetName s := s]> (nameMap m))
            (<[GetUUID s := s]> (uuidMap m))
            (<[GetXUID s := s]> (xuidMap m))
            (<[GetSession s := s]> (sessionMap m)).

(** The argument is a pointer; [nil] is [None]. *)
Definition RemoveMinecraftSession (s : option MinecraftSession) (m : SessionManager)
  : SessionManager :=
  match s with
  | None => m
  | Some s =>
      mkManager (delete (GetPlayerName s) (nameMap m))
                (delete (GetUUID s) (uuidMap m))
                (delete (GetXUID s) (xuidMap m))
                (delete (GetSession s) (sessionMap m))
  end.

Definition GetSessionCount (m : SessionManager) : nat := size (nameMap m).

Definition HasSession (name : string) (m : SessionManager) : bool :=
  bool_decide (is_Some (nameMap m !! name)).

(** [GetSession(name)] returns a session pointer and a bool: [Some s] is
    [(s, true)], [None] is [(nil, false)]. *)
Definition GetSessionByName (name : string) (m : SessionManager)
  : option MinecraftSession := nameMap m !! name.

Definition HasSessionWithRakNetSession (rak : string) (m : SessionManager) : bool :=
  bool_decide (is_Some (sessionMap m !! rak)).
Definition GetSessionByRakNetSession (rak : string) (m : SessionManager)
  : option MinecraftSession := sessionMap m !! rak.
Definition HasSessionWithXUID (xuid : string) (m : SessionManager) : bool :=
  bool_decide (is_Some (xuidMap m !! xuid)).
Definition GetSessionByXUID (xuid : string) (m : SessionManager)
  : option MinecraftSession := xuidMap m !! xuid.
Definition HasSessionWithUUID (u : UUID) (m : SessionManager) : bool :=
  bool_decide (is_Some (uuidMap m !! u)).
Definition GetSessionByUUID (u : UUID) (m : SessionManager)
  : option MinecraftSession := uuidMap m !! u.

(** A call on the manager. *)
Inductive Op :=
| Add (s : MinecraftSession)
| Remove (s : option MinecraftSession).

Definition step (m : SessionManager) (o : Op) : SessionManager :=
  match o with
  | Add s => AddMinecraftSession s m
  | Remove s => RemoveMinecraftSession s m
  end.

Definition run (ops : list Op) (m : SessionManager) : SessionManager :=
  foldl step m ops.

(** The live sessions: added and not removed since. *)
Definition without (s : MinecraftSession) (l : list MinecraftSession) :=
  filter (fun s' => s' <> s) l.

Definition liveStep (l : list MinecraftSession) (o : Op) : list MinecraftSession :=
  match o with
  | Add s => s :: without s l
  | Remove None => l
  | Remove (Some s) => without s l
  end.

Definition live (ops : list Op) : list MinecraftSession := foldl liveStep [] ops.

(** Every index holds exactly the live sessions, each under its own key. *)
Definition exact (l : list MinecraftSession) (m : SessionManager) : Prop :=
  forall s,
    (nameMap m !! GetName s = Some s <-> s ∈ l) /\
    (uuidMap m !! GetUUID s = Some s <-> s ∈ l) /\
    (xuidMap m !! GetXUID s = Some s <-> s ∈ l) /\
    (sessionMap m !! GetSession s = Some s <-> s ∈ l).

(** Nothing else is stored: an entry of an index is a live session filed
    under its own key. *)
Definition noStale (l : list MinecraftSession) (m : SessionManager) : Prop :=
  (forall k s, nameMap m !! k = Some s -> s ∈ l /\ GetName s = k) /\
  (forall k s, uuidMap m !! k = Some s -> s ∈ l /\ GetUUID s = k) /\
  (forall k s, xuidMap m !! k = Some s -> s ∈ l /\ GetXUID s = k) /\
  (forall k s, sessionMap m !! k = Some s -> s ∈ l /\ GetSession s = k).

(** Two sessions with no key in common. *)
Definition keysApart (s s' : MinecraftSession) : Prop :=
  GetName s <> GetName s' /\ GetUUID s <> GetUUID s' /\
  GetXUID s <> GetXUID s' /\ GetSession s <> GetSession s'.

(** No two live sessions share a key in any index. *)
Definition noSharedKey (l : list MinecraftSession) : Prop :=
  forall s s', s ∈ l -> s' ∈ l -> s <> s' -> keysApart s s'.

Definition coherent (l : list MinecraftSession) (m : SessionManager) : Prop :=
  exact l m /\ noStale l m /\ noSharedKey l.

(** The calling discipline under which the indices stay coherent: the two
    name accessors agree, a session is added only when its keys are unused
    by the live sessions, and a removed session is live or collides with no
    live session. *)
Definition admissible (l : list MinecraftSession) (o : Op) : Prop :=
  match o with
  | Add s => GetName s = GetPlayerName s /\ Forall (keysApart s) l
  | Remove None => True
  | Remove (Some s) =>
      GetName s = GetPlayerName s /\ (s ∈ l \/ Forall (keysApart s) l)
  end.

Fixpoint disciplined (l : list MinecraftSession) (ops : list Op) : Prop :=
  match ops with
  | [] => True
  | o :: rest => admissible l o /\ disciplined (liveStep l o) rest
  end.

End Manager.

(** ** Login: chain verification and the login handler *)
Module Login.
Import Manager.

Local Open Scope string_scope.

(** [types.Chain] with its header and payload, as [VerifyLoginRequest]
    reads them.  Times are Unix seconds ([int64]). *)
Record ChainHeader := mkHeader {
  X5u : string;
  HeaderRaw : string
}.

Record ChainPayload := mkPayload {
  ExpirationTime : Z;
  NotBefore : Z;
  IssuedAt : Z;
  IdentityPublicKey : string;
  PayloadRaw : string
}.

Record Chain := mkChain {
  Header : ChainHeader;
  Payload : ChainPayload;
  Signature : string
}.

(** [[]byte(s)] *)
Definition bytesOf (s : string) : list byte :=
  map (fun c => Z.of_N (Ascii.N_of_ascii c)) (String.list_ascii_of_string s).

(** [new(big.Int).SetBytes(b)]: big-endian, unsigned. *)
Definition SetBytes (b : list byte) : Z :=
  fold_left (fun acc x => acc * 256 + x)%Z b 0%Z.

(** [x509.ParsePKIXPublicKey]: an error, an ECDSA key, or a key of another
    algorithm (on which the type assertion to an ECDSA key panics). *)
Inductive ParseResult (K : Type) :=
| ParseError
| ParsedECDSA (k : K)
| ParsedOther.
Arguments ParseError {K}.
Arguments ParsedECDSA {K} k.
Arguments ParsedOther {K}.

(** The library calls and package constants [VerifyLoginRequest] depends on.
    [base64_decode] is [base64.RawStdEncoding.DecodeString]: the code only
    logs its error and goes on with the bytes.  [now i] is what
    [time.Now().Unix()] returns while the token at index [i] is checked. *)
Record Crypto := mkCrypto {
  PublicKey : Type;
  base64_decode : string -> list byte;
  ParsePKIXPublicKey : list byte -> ParseResult PublicKey;
  sha384 : list byte -> list byte;
  ecdsa_Verify : PublicKey -> list byte -> Z -> Z -> bool;
  MojangPublicKey : string;
  now : nat -> Z
}.

(** The three named results, or the panic of the type assertion. *)
Inductive VerifyResult (K : Type) :=
| Returned (successful authenticated : bool) (clientPublicKey : option K)
| AssertionPanic.
Arguments Returned {K} successful authenticated clientPublicKey.
Arguments AssertionPanic {K}.

Section WithCrypto.
Context (C : Crypto).

(** [chain.Payload.ExpirationTime <= t && chain.Payload.ExpirationTime != 0
     || chain.Payload.NotBefore > t
     || chain.Payload.IssuedAt > chain.Payload.ExpirationTime] *)
Definition timeRejected (p : ChainPayload) (t : Z) : bool :=
  ((ExpirationTime p <=? t)%Z && negb (ExpirationTime p =? 0)%Z)
  || (NotBefore p >? t)%Z
  || (IssuedAt p >? ExpirationTime p)%Z.

(** Lines 377-389: the key left after the loop is parsed as the client key. *)
Definition verifyFinish (publicKeyRaw : string) (authenticated : bool)
  : VerifyResult (PublicKey C) :=
  match ParsePKIXPublicKey C (base64_decode C publicKeyRaw) with
  | ParseError => Returned false authenticated None
  | ParsedOther => AssertionPanic
  | ParsedECDSA key => Returned true authenticated (Some key)
  end.

(** Lines 334-375: the loop over the chain, with the loop-carried
    [publicKeyRaw] and the named result [authenticated]; [i] counts the
    tokens for the clock.  A bare [return] yields the named results as they
    stand: [successful] still false, [clientPublicKey] still nil,
    [authenticated] whatever it was set to. *)
Fixpoint verifyLoop (i : nat) (publicKeyRaw : string) (authenticated : bool)
  (chains : list Chain) : VerifyResult (PublicKey C) :=
  match chains with
  | [] => verifyFinish publicKeyRaw authenticated
  | chain :: rest =>
      if decide (publicKeyRaw = "" /\ X5u (Header chain) = "")
      then Returned false authenticated None
      else
        let publicKeyRaw :=
          if decide (publicKeyRaw = "") then X5u (Header chain) else publicKeyRaw in
        let sig := bytesOf (Signature chain) in
        let d := bytesOf (HeaderRaw (Header chain) ++ "." ++ PayloadRaw (Payload chain)) in
        match ParsePKIXPublicKey C (base64_decode C publicKeyRaw) with
        | ParseError => Returned false authenticated None
        | ParsedOther => AssertionPanic
        | ParsedECDSA publicKey =>
            let r := SetBytes (take (length sig / 2) sig) in
            let s := SetBytes (drop (length sig / 2) sig) in
            if negb (ecdsa_Verify C publicKey (sha384 C d) r s)
            then Returned false authenticated None
            else
              let authenticated :=
                if decide (publicKeyRaw = MojangPublicKey C) then true else authenticated in
              if timeRejected (Payload chain) (now C i)
              then Returned false authenticated None
              else verifyLoop (S i) (IdentityPublicKey (Payload chain)) authenticated rest
        end
  end.

(** [func VerifyLoginRequest(chains []types.Chain, _ *Server)] *)
Definition VerifyLoginRequest (chains : list Chain) : VerifyResult (PublicKey C) :=
  verifyLoop 0 "" false chains.

(** [bedrock.LoginPacket], the fields the handler reads. *)
Record ClientData := mkClientData {
  GameVersion : string;
  DeviceOS : Z
}.

Record LoginPacket := mkLoginPacket {
  Username : string;
  Protocol : Z;
  Chains : list Chain;
  ClientUUID : UUID;
  ClientXUID : string;
  ClientId : Z;
  ClientDataOf : ClientData;
  Language : string;
  SkinId : string;
  SkinData : list byte;
  CapeData : list byte;
  GeometryName : string;
  GeometryData : string
}.

(** [packets.IPacket]: the handler only asks whether the packet is a
    [*bedrock.LoginPacket]. *)
Inductive IPacket :=
| IsLoginPacket (p : LoginPacket)
| OtherPacket (id : Z).

Record Config := mkConfig {
  XBOXLiveAuth : bool;
  UseEncryption : bool;
  ForceResourcePacks : bool
}.

Record Server := mkServer {
  ServerConfig : Config;
  ServerSessionManager : SessionManager
}.

(** [types.SessionData] as built on line 103. *)
Record SessionData := mkSessionData {
  sdClientUUID : UUID;
  sdClientXUID : string;
  sdClientId : Z;
  sdProtocolNumber : Z;
  sdGameVersion : string;
  sdLanguage : string;
  sdDeviceOS : Z
}.

(** [int32(x)] *)
Definition int32 (x : Z) : Z := ((x + 2 ^ 31) mod 2 ^ 32 - 2 ^ 31)%Z.

(** The calls the handler makes on the session, its player and the logger,
    in program order.  Their implementations belong to the net, players and
    text packages. *)
Inductive Call :=
| Kick (reason : string) (hideDisconnectScreen serverInitiated : bool)
| LogDebug (name message : string)
| SetData (d : SessionData)
| SetPlayer (uuid : UUID) (xuid : string) (platform : Z) (name : string)
| SetEncryptionData (clientPublicKey : option (PublicKey C))
| PlayerSetName (name : string)
| PlayerSetDisplayName (name : string)
| PlayerSetSkinId (id : string)
| PlayerSetSkinData (d : list byte)
| PlayerSetCapeData (d : list byte)
| PlayerSetGeometryName (name : string)
| PlayerSetGeometryData (d : string)
| SetXBOXLiveAuthenticated (b : bool)
| SendServerHandshake
| EnableEncryption
| SendPlayStatus (status : Z)
| SendResourcePackInfo (force : bool).

(** The session handed to the handler: its pointer and the printed form of
    its transport session. *)
Record SessionRef := mkSessionRef {
  refPtr : nat;
  refTransport : string
}.

(** Modelled from the spec: the accessors of [MinecraftSession] are in the
    net package, which is not under src/.  After [SetData] and [SetPlayer]
    the session answers with the name, UUID and XUID of the login packet
    (scenario S1: "session.name = Alice"), and its player carries the same
    name. *)
Definition loggedIn (r : SessionRef) (p : LoginPacket) : MinecraftSession :=
  mkSession (refPtr r) (Username p) (Username p) (ClientUUID p) (ClientXUID p)
            (refTransport r).

Record Outcome := mkOutcome {
  handled : bool;
  calls : list Call;
  managerAfter : SessionManager
}.

Section WithConstants.
(** [info.LatestProtocol] and [data.StatusLoginSuccess]. *)
Context (LatestProtocol : Z) (StatusLoginSuccess : Z).

(** The function given to [net.NewPacketHandler] by [NewLoginHandler].
    [None] is the panic of [VerifyLoginRequest] passing through. *)
Definition LoginHandler (server : Server) (packet : IPacket) (session : SessionRef)
  : option Outcome :=
  let mgr := ServerSessionManager server in
  match packet with
  | OtherPacket _ => Some (mkOutcome false [] mgr)
  | IsLoginPacket loginPacket =>
      match GetSessionByName (Username loginPacket) mgr with
      | Some _ => Some (mkOutcome false [] mgr)
      | None =>
          if (Protocol loginPacket >? LatestProtocol)%Z
          then Some (mkOutcome false [Kick "Outdated server." false true] mgr)
          else if (Protocol loginPacket <? LatestProtocol)%Z
          then Some (mkOutcome false [Kick "Outdated client." false true] mgr)
          else
            match VerifyLoginRequest (Chains loginPacket) with
            | AssertionPanic => None
            | Returned successful authenticated pubKey =>
                if negb successful
                then Some (mkOutcome true
                             [LogDebug (Username loginPacket)
                                       "has joined with invalid login data."] mgr)
                else if negb authenticated && XBOXLiveAuth (ServerConfig server)
                then Some (mkOutcome true
                             [LogDebug (Username loginPacket)
                                "has tried to join while not being logged into XBOX Live.";
                              Kick "XBOX Live account required." false false] mgr)
                else
                  let cd := ClientDataOf loginPacket in
                  Some (mkOutcome true
                    ([LogDebug (Username loginPacket)
                        (if authenticated
                         then "has joined while being logged into XBOX Live."
                         else "has joined while not being logged into XBOX Live.");
                      SetData (mkSessionData (ClientUUID loginPacket)
                                 (ClientXUID loginPacket) (ClientId loginPacket)
                                 (Protocol loginPacket) (GameVersion cd)
                                 (Language loginPacket) (DeviceOS cd));
                      SetPlayer (ClientUUID loginPacket) (ClientXUID loginPacket)
                                (int32 (DeviceOS cd)) (Username loginPacket);
                      SetEncryptionData pubKey;
                      PlayerSetName (Username loginPacket);
                      PlayerSetDisplayName (Username loginPacket);
                      PlayerSetSkinId (SkinId loginPacket);
                      PlayerSetSkinData (SkinData loginPacket);
                      PlayerSetCapeData (CapeData loginPacket);
                      PlayerSetGeometryName (GeometryName loginPacket);
                      PlayerSetGeometryData (GeometryData loginPacket);
                      SetXBOXLiveAuthenticated authenticated]
                     ++ (if UseEncryption (ServerConfig server)
                         then [SendServerHandshake; EnableEncryption]
                         else [SendPlayStatus StatusLoginSuccess;
                               SendResourcePackInfo
                                 (ForceResourcePacks (ServerConfig server))]))
                    (AddMinecraftSession (loggedIn session loginPacket) mgr))
            end
      end
  end.

(** The session was kicked: some call of the handler is a [Kick]. *)
Definition kicked (o : Outcome) : Prop :=
  exists reason hide srv, Kick reason hide srv ∈ calls o.

Definition kickedWith (reason : string) (o : Outcome) : Prop :=
  exists hide srv, Kick reason hide srv ∈ calls o.

End WithConstants.
End WithCrypto.

Arguments Kick {C} reason hideDisconnectScreen serverInitiated.
Arguments LogDebug {C} name message.
Arguments SetData {C} d.
Arguments SetPlayer {C} uuid xuid platform name.
Arguments SetEncryptionData {C} clientPublicKey.
Arguments PlayerSetName {C} name.
Arguments PlayerSetDisplayName {C} name.
Arguments PlayerSetSkinId {C} id.
Arguments PlayerSetSkinData {C} d.
Arguments PlayerSetCapeData {C} d.
Arguments PlayerSetGeometryName {C} name.
Arguments PlayerSetGeometryData {C} d.
Arguments SetXBOXLiveAuthenticated {C} b.
Arguments SendServerHandshake {C}.
Arguments EnableEncryption {C}.
Arguments SendPlayStatus {C} status.
Arguments SendResourcePackInfo {C} force.
Arguments mkOutcome {C} handled calls managerAfter.
Arguments handled {C} o.
Arguments calls {C} o.
Arguments managerAfter {C} o.
Arguments kicked {C} o.
Arguments kickedWith {C} reason o.

End Login.

(** ** Command, resource pack and text handlers *)
Module Handlers.
Import Manager GoStrings.

Local Open Scope string_scope.

(** [bedrock] packets, by the fields these handlers read. *)
Inductive IPacket :=
| CommandRequestPacket (CommandText : string)
| ResourcePackClientResponsePacket (Status : Z) (PackUUIDs : list string)
| TextPacket (TextType : Z) (Message : string) (PlatformChatId : string)
| OtherPacket (id : Z).

(** Constants of the data package. *)
Record Constants := mkConstants {
  StatusRefused : Z;
  StatusSendPacks : Z;
  StatusHaveAllPacks : Z;
  StatusCompleted : Z;
  TextChat : Z
}.

(** What the handlers ask of the server: a configuration flag, the command
    and pack managers' tests, and the session manager. *)
Record Server := mkServer {
  ForceResourcePacks : bool;
  IsCommandRegistered : string -> bool;
  IsPackLoaded : string -> bool;
  Sessions : SessionManager
}.

(** The session a packet came from. *)
Record Sender := mkSender {
  GetDisplayName : string;
  GetXUID : string
}.

(** [types.Text] as built by the text handler. *)
Record Text := mkText {
  TMessage : string;
  TPlatformChatId : string;
  TSourceXUID : string;
  TTextType : Z
}.

(** Calls made by the handlers, in program order. *)
Inductive Call :=
| SendMessage (message : string)
| Execute (command : string) (args : list string)
| SendResourcePackDataInfo (packUUID : string)
| SendResourcePackStack (force : bool)
| LoadSpawnChunk
| SendText (receiver : MinecraftSession) (t : Text)
| LogChat (line : string).

Section WithServer.
Context (K : Constants) (server : Server).

(** The loop of [NewCommandRequestHandler]:
    [for !IsCommandRegistered(commandName) {
       if i == len(args) { break }; commandName += " " + args[i]; i++ }].
    [rest] is [args[i:]]; the result is the name and [args[i:]] at the end. *)
Fixpoint resolve (commandName : string) (rest : list string) : string * list string :=
  if IsCommandRegistered server commandName then (commandName, rest)
  else match rest with
       | [] => (commandName, [])
       | arg :: rest' => resolve (commandName ++ " " ++ arg) rest'
       end.

(** [NewCommandRequestHandler].  [strings.Split] never returns an empty
    slice for a non-empty separator, so [args[0]] exists. *)
Definition CommandRequestHandler (packet : IPacket) : bool * list Call :=
  match packet with
  | CommandRequestPacket CommandText =>
      let args := Split space CommandText in
      let '(commandName, args') :=
        resolve (TrimLeft slash (hd "" args)) (tl args) in
      if negb (IsCommandRegistered server commandName)
      then (false, [SendMessage "Command could not be found."])
      else (true, [Execute commandName args'])
  | _ => (false, [])
  end.

(** The [StatusSendPacks] case of [NewResourcePackClientResponseHandler]:
    the loop returns false from the handler at the first pack that is not
    loaded. *)
Fixpoint sendPacks (packUUIDs : list string) : bool * list Call :=
  match packUUIDs with
  | [] => (true, [])
  | packUUID :: rest =>
      if negb (IsPackLoaded server packUUID) then (false, [])
      else let '(ok, calls) := sendPacks rest in
           (ok, SendResourcePackDataInfo packUUID :: calls)
  end.

(** [NewResourcePackClientResponseHandler].  [LoadSpawnChunk] stands for
    [LoadChunk(0, 0, callback)]. *)
Definition ResourcePackClientResponseHandler (packet : IPacket) : bool * list Call :=
  match packet with
  | ResourcePackClientResponsePacket Status PackUUIDs =>
      if decide (Status = StatusRefused K) then (false, [])
      else if decide (Status = StatusSendPacks K) then sendPacks PackUUIDs
      else if decide (Status = StatusHaveAllPacks K)
      then (true, [SendResourcePackStack (ForceResourcePacks server)])
      else if decide (Status = StatusCompleted K) then (true, [LoadSpawnChunk])
      else (true, [])
  | _ => (false, [])
  end.

(** [NewTextHandler].  The receivers are the values of the name map; Go
    leaves the order of a map range unspecified, here it is the order of
    [map_to_list]. *)
Definition TextHandler (packet : IPacket) (session : Sender) : bool * list Call :=
  match packet with
  | TextPacket TextType Message PlatformChatId =>
      if decide (TextType <> TextChat K) then (false, [])
      else
        let line := "<" ++ GetDisplayName session ++ "> " ++ Message in
        (true,
         (map (fun entry : string * MinecraftSession =>
                SendText entry.2
                         (mkText line PlatformChatId (GetXUID session) (TextChat K)))
              (map_to_list (GetSessions (Sessions server)))
          ++ [LogChat line])%list)
  | _ => (false, [])
  end.

(** The command name tried after [k] more arguments have been joined on. *)
Definition candidate (head : string) (tail : list string) (k : nat) : string :=
  fold_left (fun name arg => name ++ " " ++ arg) (take k tail) head.

End WithServer.
End Handlers.

(** ** Vocabulary for statements about chain verification *)
Module LoginSpec.
Import Manager Login.

Local Open Scope string_scope.

Section WithCrypto.
Context (C : Crypto).

(** The signature of [chain] verifies under the key spelled by [keyRaw]: the
    key parses as an ECDSA key and [ecdsa.Verify] accepts (r, s) for the
    SHA-384 digest of [header.raw + "." + payload.raw]. *)
Definition signatureOK (keyRaw : string) (chain : Chain) : bool :=
  let sig := bytesOf (Signature chain) in
  let d := bytesOf (HeaderRaw (Header chain) ++ "." ++ PayloadRaw (Payload chain)) in
  match ParsePKIXPublicKey C (base64_decode C keyRaw) with
  | ParsedECDSA publicKey =>
      ecdsa_Verify C publicKey (sha384 C d)
                   (SetBytes (take (length sig / 2) sig))
                   (SetBytes (drop (length sig / 2) sig))
  | _ => false
  end.

(** The token is signed by the Mojang root key. *)
Definition signedByMojang (chain : Chain) : Prop :=
  signatureOK (MojangPublicKey C) chain = true.

(** The key the chain designates for a token: the key carried over from the
    previous token, or the token's own [x5u] when nothing is carried. *)
Definition designated (carried : string) (chain : Chain) : string :=
  if decide (carried = "") then X5u (Header chain) else carried.

(** The token at position [i] passes: it has a designated key, its signature
    verifies under it, and its times are accepted. *)
Definition tokenPasses (i : nat) (carried : string) (chain : Chain) : bool :=
  bool_decide (designated carried chain <> "")
  && signatureOK (designated carried chain) chain
  && negb (timeRejected (Payload chain) (now C i)).

(** [checked i carried chains t k]: going through [chains] from position [i]
    with [carried] as the carried key, the verifier gets as far as token [t],
    every token before it having passed, and checks [t] under key [k]. *)
Inductive checked : nat -> string -> list Chain -> Chain -> string -> Prop :=
| checked_here i carried t rest :
    designated carried t <> "" ->
    checked i carried (t :: rest) t (designated carried t)
| checked_later i carried t0 rest t k :
    tokenPasses i carried t0 = true ->
    checked (S i) (IdentityPublicKey (Payload t0)) rest t k ->
    checked i carried (t0 :: rest) t k.

(** The flag a returning call hands back; a panicking call hands back
    nothing. *)
Definition authenticatedOf (r : VerifyResult (PublicKey C)) : option bool :=
  match r with
  | Returned _ authenticated _ => Some authenticated
  | AssertionPanic => None
  end.

End WithCrypto.
End LoginSpec.

(** ** More vocabulary for chain verification *)
Module LoginMoreSpec.
Import Manager Login LoginSpec.

Section WithCrypto.
Context (C : Crypto).

(** Every token of the chain passes, the first one at position [i] with
    [carried] as the carried key, each next one with the previous token's
    identityPublicKey. *)
Fixpoint passes (i : nat) (carried : string) (chains : list Chain) : bool :=
  match chains with
  | [] => true
  | t :: rest =>
      tokenPasses C i carried t
      && passes (S i) (IdentityPublicKey (Payload t)) rest
  end.

(** The key string left when the loop is over: the last token's
    identityPublicKey, or what was carried in if there is no token. *)
Definition finalKey (carried : string) (chains : list Chain) : string :=
  match last chains with
  | Some t => IdentityPublicKey (Payload t)
  | None => carried
  end.

(** The times of a token are in order at time [t]. *)
Definition timesInOrder (p : ChainPayload) (t : Z) : Prop :=
  (NotBefore p <= t)%Z /\ (IssuedAt p <= ExpirationTime p)%Z /\
  (ExpirationTime p = 0 \/ t < ExpirationTime p)%Z.

End WithCrypto.
End LoginMoreSpec.

(** ** Players: [Player.Tick] *)
Module Players.

(** A [float64], kept as its bit pattern: [Tick] only passes such values on. *)
Definition float64 := Z.

Record Vector := mkVector { X : float64; Y : float64; Zc : float64 }.
Record Rotation := mkRotation { Pitch : float64; Yaw : float64; HeadYaw : float64 }.

(** The part of [entities.Entity] that the player code touches.  [Player]
    embeds a pointer to it, so these fields are reached as [player.Position],
    [player.HasMovementUpdate] and so on, and are shared by every copy of the
    [Player] struct. *)
Record Entity := mkEntity {
  EPosition : Vector;
  ERotation : Rotation;
  OnGround : bool;
  HasMovementUpdate : bool;
  HasEntityDataUpdate : bool;
  RuntimeId : Z;
  RidingId : Z;
  Viewers : list nat
}.

(** [type Player struct]: the embedded [*entities.Entity] is an address in
    the store, the other fields are the struct's own. *)
Record Player := mkPlayer {
  EntityPtr : nat;
  uuid : Z;
  xuid : string;
  platform : Z;
  playerName : string;
  displayName : string;
  skinId : string;
  skinData : list byte;
  capeData : list byte;
  geometryName : string;
  geometryData : string
}.

(** The entities allocated so far, by address. *)
Abbreviation Store := (gmap nat Entity).

(** Packets sent to viewers. *)
Inductive Sent :=
| SendMovePlayer (viewer : nat) (runtimeId : Z) (position : Vector)
                 (rotation : Rotation) (mode : Z) (onGround : bool) (ridingId : Z)
| SendEntityData (viewer : nat) (runtimeId : Z).

Definition setHasEntityDataUpdate (v : bool) (e : Entity) : Entity :=
  mkEntity (EPosition e) (ERotation e) (OnGround e) (HasMovementUpdate e) v
           (RuntimeId e) (RidingId e) (Viewers e).

Definition setHasMovementUpdate (v : bool) (e : Entity) : Entity :=
  mkEntity (EPosition e) (ERotation e) (OnGround e) v (HasEntityDataUpdate e)
           (RuntimeId e) (RidingId e) (Viewers e).

(** [func (player *Player) BroadcastMovement()] *)
Definition BroadcastMovement (e : Entity) : list Sent :=
  map (fun viewer =>
         SendMovePlayer viewer (RuntimeId e) (EPosition e) (ERotation e) 0
                        (OnGround e) (RidingId e))
      (Viewers e).

Section WithEntities.
(** [Entity.BroadcastUpdatedEntityData], a method of the worlds library: it
    may update the entity and sends packets. *)
Context (BroadcastUpdatedEntityData : Entity -> Entity * list Sent).

(** [func (player Player) Tick()].  The receiver is a copy of the struct [p];
    the copy holds the same entity address.  The result is the caller's
    struct, the store and the packets sent; [None] is the nil dereference of
    an entity pointer that is not allocated. *)
Definition Tick (p : Player) (st : Store) : option (Player * Store * list Sent) :=
  match st !! EntityPtr p with
  | None => None
  | Some e =>
      let '(e1, sent1) :=
        if HasEntityDataUpdate e
        then let '(e', sent) := BroadcastUpdatedEntityData e in
             (setHasEntityDataUpdate false e', sent)
        else (e, []) in
      let e2 := if HasMovementUpdate e1 then setHasMovementUpdate false e1 else e1 in
      Some (p, <[EntityPtr p := e2]> st, sent1 ++ BroadcastMovement e2)
  end.

(** What a caller holding [p] reads through it after the call: the struct
    and the entity it points to. *)
Definition view (p : Player) (st : Store) : Player * option Entity :=
  (p, st !! EntityPtr p).

End WithEntities.
End Players.

(** ** Players: [Player.SyncMove] *)
Module PlayerMoves.
Import Players.

Section WithMod.
(** [math.Mod] and the constant 360, on bit patterns. *)
Context (Mod : float64 -> float64 -> float64) (f360 : float64).

(** [func (player *Player) SyncMove(x, y, z, pitch, yaw, headYaw, onGround)]:
    every field written belongs to the embedded entity.  [None] is the nil
    dereference of an entity pointer that is not allocated. *)
Definition SyncMove (p : Player) (x y z pitch yaw headYaw : float64)
    (onGround : bool) (st : Store) : option Store :=
  match st !! EntityPtr p with
  | None => None
  | Some e =>
      Some (<[EntityPtr p :=
               mkEntity (mkVector x y z)
                        (mkRotation (Mod pitch f360) (Mod yaw f360) headYaw)
                        onGround true (HasEntityDataUpdate e)
                        (RuntimeId e) (RidingId e) (Viewers e)]> st)
  end.

End WithMod.
End PlayerMoves.

(** ** Concrete instances of the library interfaces

    Small executable stand-ins for the libraries, used to run the model on
    concrete frames and chains: a keyed block function behind the
    [cipher.Block] interface, a zlib codec restricted to one final stored
    block, a bounds-checked varint stream reader, and a toy signature
    scheme. *)
Module Fixtures.
Import Cipher Batch.

Local Open Scope Z_scope.

(** A 16-byte block function: every output byte mixes the key with two
    input bytes. *)
Definition mixBlock (key : list byte) : Block :=
  mkBlock 16 (fun blk =>
    map (fun i => Z.lxor (nth i key 0)
                    (Z.land (nth i blk 0 + 3 * nth ((i + 5) mod 16)%nat blk 0) 255))
        (seq 0 16)).

(** A 32-byte digest made of running sums. *)
Definition sumHash (d : list byte) : list byte :=
  let s := fold_left (fun acc x => (acc * 31 + x + 7) mod 65521) d 1 in
  map (fun i => Z.land (Z.shiftr (s * (2 * Z.of_nat i + 1)) 3) 255) (seq 0 32).

Definition adler32 (d : list byte) : Z :=
  let '(a, b) := fold_left (fun '(a, b) x =>
                   let a' := (a + x) mod 65521 in (a', (b + a') mod 65521))
                   d (1, 0) in
  b * 65536 + a.

Definition be32 (n : Z) : list byte :=
  [Z.land (Z.shiftr n 24) 255; Z.land (Z.shiftr n 16) 255;
   Z.land (Z.shiftr n 8) 255; Z.land n 255].

(** A zlib stream holding [d] in one final stored block (RFC 1950/1951):
    header 78 01, block header 01, LEN, NLEN, the bytes, Adler-32. *)
Definition storedCompress (d : list byte) : list byte :=
  let n := Z.of_nat (length d) in
  [120; 1; 1; Z.land n 255; Z.shiftr n 8;
   Z.land (Z.lxor n 65535) 255; Z.shiftr (Z.lxor n 65535) 8]
  ++ d ++ be32 (adler32 d).

(** Inflation of such streams.  The header test is the one of
    [zlib.NewReader]; a reader stops at the end of the stream, so bytes after
    the Adler-32 are not looked at.  Block types other than a final stored
    block are reported as read errors by this instance. *)
Definition storedInflate (raw : list byte) : ZlibResult :=
  match raw with
  | cmf :: flg :: rest =>
      if decide (Z.land cmf 15 = 8 /\ Z.shiftr cmf 4 <= 7
                 /\ (cmf * 256 + flg) mod 31 = 0 /\ Z.land flg 32 = 0)
      then
        match rest with
        | hdr :: l0 :: l1 :: n0 :: n1 :: body =>
            let len := l0 + 256 * l1 in
            if decide (Z.land hdr 7 = 1 /\ Z.lxor len 65535 = n0 + 256 * n1)
            then
              let d := take (Z.to_nat len) body in
              let sum := take 4 (drop (Z.to_nat len) body) in
              if decide (length d = Z.to_nat len /\ sum = be32 (adler32 d))
              then ZlibRead d false
              else ZlibRead d true
            else ZlibRead [] true
        | _ => ZlibRead [] true
        end
      else ZlibHeaderError
  | _ => ZlibHeaderError
  end.

(** Stream reads in the manner of Go slices: reading past the end panics. *)
Definition getByte (s : Stream) : option (byte * Stream) :=
  match Buffer s !! Offset s with
  | Some b => Some (b, mkStream (Buffer s) (S (Offset s)))
  | None => None
  end.

Definition feof (s : Stream) : bool :=
  bool_decide (length (Buffer s) <= Offset s)%nat.

Fixpoint getUvarint (n : nat) (shift : Z) (acc : Z) (s : Stream)
  : option (Z * Stream) :=
  match n with
  | O => Some (acc, s)
  | S n' =>
      match getByte s with
      | None => None
      | Some (b, s') =>
          let acc' := Z.lor acc (Z.shiftl (Z.land b 127) shift) in
          if decide (Z.land b 128 = 0) then Some (acc', s')
          else getUvarint n' (shift + 7) acc' s'
      end
  end.

Definition getLengthPrefixedBytes (s : Stream) : option (list byte * Stream) :=
  match getUvarint 5 0 0 s with
  | None => None
  | Some (n, s') =>
      if decide (Offset s' + Z.to_nat n <= length (Buffer s'))%nat
      then Some (take (Z.to_nat n) (drop (Offset s') (Buffer s')),
                 mkStream (Buffer s') (Offset s' + Z.to_nat n))
      else None
  end.

Fixpoint putUvarint (n : nat) (v : Z) : list byte :=
  match n with
  | O => []
  | S n' => if decide (v < 128) then [v]
            else Z.lor (Z.land v 127) 128 :: putUvarint n' (Z.shiftr v 7)
  end.

Definition putLengthPrefixedBytes (d : list byte) : list byte :=
  putUvarint 5 (Z.of_nat (length d)) ++ d.

Definition libs : Libs :=
  mkLibs sumHash storedInflate storedCompress getByte feof
         getLengthPrefixedBytes putLengthPrefixedBytes PacketBuffer.

(** Two ends of one connection: same key, same IVs, same secret. *)
Definition key : list byte := map Z.of_nat (seq 40 16).
Definition iv0 : list byte := map Z.of_nat (seq 7 16).

Definition encData : EncryptionData :=
  mkEncryptionData (mixBlock key) (mixBlock key) iv0 iv0 [9; 8; 7] 0.

Definition registered (id : Z) : bool := (id =? 1) || (id =? 2).

Definition peer : MinecraftSession := mkSession (Some encData) registered.

Definition hello : Packet := mkPacket 1 [1; 72; 105].

(** The frame the sending end produces for [[hello]]. *)
Definition sentFrame : list byte :=
  match Encode libs (setPackets [hello] (NewMinecraftPacketBatch (Some peer) true)) with
  | Ok _ b => Buffer (stream b)
  | _ => []
  end.

(** The same frame with bit [k] of the byte at index [i] flipped. *)
Definition flipAt (i : nat) (k : Z) (frame : list byte) : list byte :=
  match frame !! i with
  | Some x => <[i := flipBit k x]> frame
  | None => frame
  end.

(** The receiving end about to decode [frame]. *)
Definition receiving (frame : list byte) : MinecraftPacketBatch :=
  SetBuffer frame (NewMinecraftPacketBatch (Some peer) true).


(** The body of [sentFrame], split before its last byte, and what the
    receiving end decrypts it to. *)
Definition sentBody : list byte := drop 1 sentFrame.
Definition cipherInit : list byte := take (length sentBody - 1) sentBody.
Definition cipherLast : byte := nth (length sentBody - 1) sentBody 0.

Definition decrypted : list byte * list byte :=
  match decryptBytes (mixBlock key) iv0 sentBody with
  | Some r => r
  | None => ([], [])
  end.
Definition plainInit : list byte := take (length sentBody - 1) decrypted.1.
Definition plainLast : byte := nth (length sentBody - 1) decrypted.1 0.
Definition ivEnd : list byte := decrypted.2.





(** A 17-byte buffer, one byte more than a block. *)
Definition seventeen : list byte := map Z.of_nat (seq 100 17).

(** *** Sessions for the manager *)

Definition alice : Manager.MinecraftSession :=
  Manager.mkSession 1 "Alice" "Alice" 11 "2535400000000001" "&{10.0.0.1 19132}".
Definition carol : Manager.MinecraftSession :=
  Manager.mkSession 3 "Carol" "Carol" 33 "2535400000000003" "&{10.0.0.3 19132}".
(** Two players that are not signed in to XBOX Live: both have the empty XUID. *)
Definition dave : Manager.MinecraftSession :=
  Manager.mkSession 4 "Dave" "Dave" 44 "" "&{10.0.0.4 19132}".
Definition erin : Manager.MinecraftSession :=
  Manager.mkSession 5 "Erin" "Erin" 55 "" "&{10.0.0.5 19132}".

(** *** A toy signature scheme for chains

    Keys are spelled by their bytes; a key starting with 'R' stands for a
    key of another algorithm, the empty key and keys starting with '!' do not
    parse.  A signature is two characters: the first byte of the signing key
    and a one-byte digest of the signed text. *)
Definition digest1 (d : list byte) : list byte :=
  [Z.land (fold_left (fun acc x => acc * 3 + x) d 5) 127].

Definition parseKey (b : list byte) : Login.ParseResult (list byte) :=
  match b with
  | [] => Login.ParseError
  | x :: _ => if decide (x = 82) then Login.ParsedOther
              else if decide (x = 33) then Login.ParseError
              else Login.ParsedECDSA b
  end.

Definition crypto : Login.Crypto :=
  Login.mkCrypto (list byte) Login.bytesOf parseKey digest1
    (fun k h r s => (r =? hd 0 k) && (s =? hd 0 h))
    "MojangRootKey" (fun _ => 1000).

Definition charOf (b : byte) : string :=
  String (Ascii.ascii_of_N (Z.to_N b)) EmptyString.

(** The signature of [header.raw + "." + payload.raw] made with [signer]. *)
Definition sign (signer hraw praw : string) : string :=
  (charOf (hd 0 (Login.bytesOf signer))
   ++ charOf (hd 0 (digest1 (Login.bytesOf (hraw ++ "." ++ praw)))))%string.

(** A token without time limits, advertising [x5u], signed with [signer],
    handing over to [next]. *)
Definition token (x5u signer next : string) : Login.Chain :=
  Login.mkChain (Login.mkHeader x5u "hdr")
                (Login.mkPayload 0 0 0 next "pld")
                (sign signer "hdr" "pld").

Definition latest : Z := 282.

Definition loginOf (name : string) (protocol : Z) (chains : list Login.Chain)
  : Login.LoginPacket :=
  Login.mkLoginPacket name protocol chains 77 "" 1
                      (Login.mkClientData "1.6.0" 7) "en_US" "Standard_Steve"
                      [] [] "geometry.humanoid" "".

Definition offline : Login.Config := Login.mkConfig false false false.

(** A server on which Alice is connected. *)
Definition serverWithAlice : Login.Server :=
  Login.mkServer offline
    (Manager.AddMinecraftSession alice Manager.NewSessionManager).

Definition emptyServer : Login.Server :=
  Login.mkServer offline Manager.NewSessionManager.

Definition newcomer : Login.SessionRef := Login.mkSessionRef 9 "&{10.0.0.9 19132}".

(** *** A player and its entity *)

Definition steveEntity : Players.Entity :=
  Players.mkEntity (Players.mkVector 0 7 0) (Players.mkRotation 0 0 0)
                   true true true 1 0 [2%nat; 3%nat].

Definition steve : Players.Player :=
  Players.mkPlayer 0 77 "" 7 "Steve" "Steve" "Standard_Steve" [] [] "geometry.humanoid" "".

Definition oneEntity : gmap nat Players.Entity := {[ 0%nat := steveEntity ]}.

(** The library method as a plain sender: one entity-data packet per viewer. *)
Definition broadcastData (e : Players.Entity) : Players.Entity * list Players.Sent :=
  (e, map (fun v => Players.SendEntityData v (Players.RuntimeId e)) (Players.Viewers e)).

End Fixtures.

(** ** More concrete instances: frames, sessions, chains, servers, items *)
Module MoreFixtures.
Import Cipher Batch Fixtures.

Local Open Scope Z_scope.

(** *** Cipher and batches *)

(** Another IV, and a block's worth of ciphertext. *)
Definition iv1 : list byte := map Z.of_nat (seq 60 16).
Definition window : list byte := map Z.of_nat (seq 200 16).

(** What the sending end makes of [seventeen], and the IV it is left with. *)
Definition seventeenSent : list byte * list byte :=
  match encryptBytes (mixBlock key) iv0 seventeen with
  | Some r => r
  | None => ([], [])
  end.

(** A session without encryption data, and the frame its sending end
    produces for [[hello]]. *)
Definition plainPeer : MinecraftSession := mkSession None registered.

Definition plainFrame : list byte :=
  match Encode libs (setPackets [hello] (NewMinecraftPacketBatch (Some plainPeer) false)) with
  | Ok _ b => Buffer (stream b)
  | _ => []
  end.

(** A batch made for a nil session, about to decode [frame]. *)
Definition nilReceiving (frame : list byte) : MinecraftPacketBatch :=
  SetBuffer frame (NewMinecraftPacketBatch None false).

(** The batch a call of [Decode] leaves behind. *)
Definition decoded (b : MinecraftPacketBatch) : MinecraftPacketBatch :=
  match Decode libs 10 b with
  | Ok _ b' => b'
  | _ => b
  end.

(** Records of four kinds: a packet with a registered id, an empty record,
    one with an unknown id, another registered one. *)
Definition mixedRecords : list (list byte) := [[1; 72; 105]; []; [9; 9]; [2; 0]]%Z.

(** *** Sessions *)

(** A session whose own name and whose player's name differ. *)
Definition frank : Manager.MinecraftSession :=
  Manager.mkSession 6 "Frank" "Franklin" 66 "2535400000000006" "&{10.0.0.6 19132}".

(** *** Chains and servers for the login handler *)

(** A token that its sender signed with the key it advertises. *)
Definition selfSigned : Login.Chain := token "SelfKey" "SelfKey" "ClientKey".

(** A token under the Mojang key that is not valid before time 2000 (the
    clock of [crypto] stands at 1000). *)
Definition tooEarly : Login.Chain :=
  Login.mkChain (Login.mkHeader "MojangRootKey" "hdr")
                (Login.mkPayload 0 2000 0 "ClientKey" "pld")
                (sign "MojangRootKey" "hdr" "pld").

(** A token that advertises a key of another algorithm. *)
Definition foreign : Login.Chain := token "RsaKey" "RsaKey" "ClientKey".

(** A server that requires XBOX Live, and one that encrypts. *)
Definition xboxServer : Login.Server :=
  Login.mkServer (Login.mkConfig true false false) Manager.NewSessionManager.

(** *** The other handlers *)

Definition commands (name : string) : bool :=
  bool_decide (name ∈ ["say"; "time set"]%string).

Definition loadedPacks (packUUID : string) : bool :=
  bool_decide (packUUID ∈ ["pack-a"; "pack-b"]%string).

Definition constants : Handlers.Constants := Handlers.mkConstants 1 2 3 4 1.

(** A server with two commands, two packs, and Alice and Carol online. *)
Definition lobby : Handlers.Server :=
  Handlers.mkServer false commands loadedPacks
    (Manager.run [Manager.Add alice; Manager.Add carol] Manager.NewSessionManager).

Definition chatter : Handlers.Sender :=
  Handlers.mkSender "Alice" "2535400000000001".

(** *** Items *)

(** [strings.Title] on ASCII words without separators: the first letter in
    upper case. *)
Definition title (s : string) : string :=
  match s with
  | EmptyString => EmptyString
  | String c rest =>
      let n := Ascii.nat_of_ascii c in
      String (if decide (97 <= n <= 122)%nat then Ascii.ascii_of_nat (n - 32) else c) rest
  end.

Definition sixtyFour : Items.Stack := Items.mkStack 64 300.

Definition emerald : Items.ItemType := Items.mkType "Emerald" "minecraft:emerald" false 64.
Definition shears : Items.ItemType := Items.mkType "Shears" "minecraft:shears" true 1.

(** *** Players *)

(** An entity with nothing pending, beside Steve's. *)
Definition alexEntity : Players.Entity :=
  Players.mkEntity (Players.mkVector 0 7 0) (Players.mkRotation 0 0 0)
                   true false false 2 0 [1%nat; 3%nat].

Definition alex : Players.Player :=
  Players.mkPlayer 1 78 "" 7 "Alex" "Alex" "Standard_Alex" [] [] "geometry.humanoid" "".

Definition twoEntities : gmap nat Players.Entity :=
  {[ 0%nat := steveEntity; 1%nat := alexEntity ]}.

(** A stand-in for [math.Mod] on the numbers that spell the floats. *)
Definition modBits (x m : Players.float64) : Players.float64 := Z.rem x m.

(** What a tick of Steve leaves behind. *)
Definition ticked : Players.Player * gmap nat Players.Entity * list Players.Sent :=
  match Players.Tick broadcastData steve oneEntity with
  | Some r => r
  | None => (steve, oneEntity, [])
  end.

End MoreFixtures.

(** ** Facts about the CFB byte loop *)
Module CipherFacts.
Import Cipher.

Lemma shiftIV_length iv b : 0 < length iv -> length (shiftIV iv b) = length iv.
Proof.
  unfold shiftIV. destruct iv as [|x iv]; simpl; [lia|].
  rewrite drop_0, length_app. simpl. lia.
Qed.

Lemma cfbXorByte_Some blk iv src :
  length iv = BlockSize blk -> 0 < BlockSize blk ->
  cfbXorByte blk iv src = Some (Z.lxor src (hd 0%Z (Encrypt blk iv))).
Proof.
  intros Hl Hp. unfold cfbXorByte. rewrite decide_True; [done | by split].
Qed.

Lemma cfbXorByte_involutive blk iv src c :
  cfbXorByte blk iv src = Some c -> cfbXorByte blk iv c = Some src.
Proof.
  unfold cfbXorByte. case_decide; [|done].
  intros [= <-]. f_equal.
  rewrite Z.lxor_assoc, Z.lxor_nilpotent, Z.lxor_0_r. done.
Qed.

Lemma flipBit_lxor k x ks : Z.lxor (flipBit k x) ks = flipBit k (Z.lxor x ks).
Proof.
  unfold flipBit. rewrite !Z.lxor_assoc. f_equal. apply Z.lxor_comm.
Qed.

(** The loops never panic once the IV has the block size. *)
Lemma encryptBytes_total blk d : forall iv,
  length iv = BlockSize blk -> 0 < BlockSize blk ->
  exists c iv', encryptBytes blk iv d = Some (c, iv')
                /\ length c = length d /\ length iv' = BlockSize blk.
Proof.
  induction d as [|p d IH]; intros iv Hl Hp; simpl.
  - by exists [], iv.
  - rewrite (cfbXorByte_Some _ _ _ Hl Hp). simpl.
    destruct (IH (shiftIV iv (Z.lxor p (hd 0%Z (Encrypt blk iv))))) as (c & iv' & -> & Hc & Hi);
      [rewrite shiftIV_length; lia | done |].
    simpl. eexists _, _. split; [done|]. simpl. by rewrite Hc.
Qed.

(** Decrypting what the encrypt loop produced, from the same IV, gives the
    input back and leaves the same IV. *)
Lemma decrypt_encrypt_bytes blk d : forall iv c iv',
  encryptBytes blk iv d = Some (c, iv') ->
  decryptBytes blk iv c = Some (d, iv').
Proof.
  induction d as [|p d IH]; intros iv c iv'; simpl.
  - by intros [= <- <-].
  - destruct (cfbXorByte blk iv p) as [c0|] eqn:Hc0; [|done]. simpl.
    destruct (encryptBytes blk (shiftIV iv c0) d) as [[cs iv1]|] eqn:He; [|done].
    simpl. intros [= <- <-]. simpl.
    rewrite (cfbXorByte_involutive _ _ _ _ Hc0). simpl.
    rewrite (IH _ _ _ He). done.
Qed.

(** The decrypt loop on a buffer extended by one byte. *)
Lemma decryptBytes_snoc blk raw : forall iv ps iv' b,
  decryptBytes blk iv raw = Some (ps, iv') ->
  decryptBytes blk iv (raw ++ [b]) =
    (p ← cfbXorByte blk iv' b; Some (ps ++ [p], shiftIV iv' b)).
Proof.
  induction raw as [|x raw IH]; intros iv ps iv' b; simpl.
  - intros [= <- <-]. by destruct (cfbXorByte blk iv b).
  - destruct (cfbXorByte blk iv x) as [p0|]; [|done]. simpl.
    destruct (decryptBytes blk (shiftIV iv x) raw) as [[ps0 iv0]|] eqn:Hd; [|done].
    simpl. intros [= <- <-]. rewrite (IH _ _ _ b Hd).
    by destruct (cfbXorByte blk iv0 b).
Qed.

Lemma decryptBytes_length blk raw : forall iv ps iv',
  decryptBytes blk iv raw = Some (ps, iv') -> length ps = length raw.
Proof.
  induction raw as [|x raw IH]; intros iv ps iv'; simpl.
  - by intros [= <- <-].
  - destruct (cfbXorByte blk iv x); [|done]. simpl.
    destruct (decryptBytes blk (shiftIV iv x) raw) as [[ps0 iv0]|] eqn:Hd; [|done].
    simpl. intros [= <- <-]. simpl. by rewrite (IH _ _ _ Hd).
Qed.

(** A panic of the decrypt loop can only come from the very first byte: the
    IV keeps its length, so the state at the panic is the initial state. *)
Lemma decryptBytes_None blk raw iv :
  decryptBytes blk iv raw = None ->
  raw <> [] /\ ~ (length iv = BlockSize blk /\ 0 < BlockSize blk).
Proof.
  intros Hn. split; [by intros ->|]. intros [Hl Hp].
  assert (forall r i, length i = BlockSize blk ->
            is_Some (decryptBytes blk i r)) as Htot.
  { induction r as [|x r IH]; intros i Hi; simpl; [done|].
    rewrite (cfbXorByte_Some _ _ _ Hi Hp). simpl.
    destruct (IH (shiftIV i x)) as [[ps i'] ->];
      [rewrite shiftIV_length; lia | done]. }
  destruct (Htot raw iv Hl) as [? Hs]. congruence.
Qed.

End CipherFacts.

(** ** More on the CFB byte loop: the rolling IV, streaming, resynchronisation *)
Module CipherMore.
Import Cipher CipherFacts.

Lemma shiftIV_drop iv b : iv <> [] -> shiftIV iv b = drop 1 (iv ++ [b]).
Proof. unfold shiftIV. by destruct iv. Qed.

Lemma cfbXorByte_Some_inv blk iv src c :
  cfbXorByte blk iv src = Some c -> length iv = BlockSize blk /\ 0 < BlockSize blk.
Proof. unfold cfbXorByte. by case_decide. Qed.

Lemma decryptBytes_iv blk raw : forall iv p iv',
  decryptBytes blk iv raw = Some (p, iv') -> iv' = drop (length raw) (iv ++ raw).
Proof.
  induction raw as [|b raw IH]; intros iv p iv'; simpl.
  - intros [= <- <-]. by rewrite app_nil_r.
  - destruct (cfbXorByte blk iv b) as [p0|] eqn:Hx; [|done]. simpl.
    destruct (decryptBytes blk (shiftIV iv b) raw) as [[ps iv1]|] eqn:Hd; [|done].
    simpl. intros [= <- <-]. apply IH in Hd. subst iv1.
    apply cfbXorByte_Some_inv in Hx as [Hl Hp].
    rewrite shiftIV_drop by (intros ->; simpl in Hl; lia).
    destruct iv as [|x iv]; [simpl in Hl; lia|]. simpl.
    by rewrite drop_0, <- app_assoc.
Qed.

Lemma encryptBytes_iv blk d : forall iv c iv',
  encryptBytes blk iv d = Some (c, iv') -> iv' = drop (length c) (iv ++ c).
Proof.
  intros iv c iv' He. apply decrypt_encrypt_bytes in He.
  by apply decryptBytes_iv in He.
Qed.

(** X2: The IV left behind by either loop is the tail of the old IV followed by
    the ciphertext: once a block's worth of bytes has gone through, it is
    just the last [BlockSize] ciphertext bytes. *)
Theorem rolling_iv_is_ciphertext_tail blk iv d c iv' p ivd :
  length iv = BlockSize blk ->
  encryptBytes blk iv d = Some (c, iv') ->
  decryptBytes blk iv c = Some (p, ivd) ->
  iv' = drop (length c) (iv ++ c) /\ ivd = iv' /\ length iv' = BlockSize blk /\
  (BlockSize blk <= length c -> iv' = drop (length c - BlockSize blk) c).
Proof.
  intros Hl He Hd.
  apply encryptBytes_iv in He. apply decryptBytes_iv in Hd.
  split; [done|]. split; [congruence|]. split.
  - rewrite He, length_drop, length_app. lia.
  - intros Hge. rewrite He, drop_app, <- Hl.
    rewrite drop_ge by lia. simpl. f_equal.
Qed.

Lemma decryptBytes_app blk r1 : forall iv r2,
  decryptBytes blk iv (r1 ++ r2) =
  '(p1, iv1) ← decryptBytes blk iv r1;
  '(p2, iv2) ← decryptBytes blk iv1 r2;
  Some (p1 ++ p2, iv2).
Proof.
  induction r1 as [|b r1 IH]; intros iv r2; simpl.
  - by destruct (decryptBytes blk iv r2) as [[p2 iv2]|].
  - destruct (cfbXorByte blk iv b) as [p0|]; [|done]. simpl.
    rewrite IH.
    destruct (decryptBytes blk (shiftIV iv b) r1) as [[p1 iv1]|]; [|done]. simpl.
    by destruct (decryptBytes blk iv1 r2) as [[p2 iv2]|].
Qed.

Lemma encryptBytes_app blk d1 : forall iv d2,
  encryptBytes blk iv (d1 ++ d2) =
  '(c1, iv1) ← encryptBytes blk iv d1;
  '(c2, iv2) ← encryptBytes blk iv1 d2;
  Some (c1 ++ c2, iv2).
Proof.
  induction d1 as [|b d1 IH]; intros iv d2; simpl.
  - by destruct (encryptBytes blk iv d2) as [[c2 iv2]|].
  - destruct (cfbXorByte blk iv b) as [c0|]; [|done]. simpl.
    rewrite IH.
    destruct (encryptBytes blk (shiftIV iv c0) d1) as [[c1 iv1]|]; [|done]. simpl.
    by destruct (encryptBytes blk iv1 d2) as [[c2 iv2]|].
Qed.

(** Running a loop over two buffers one after the other, the second from the
    IV the first one left, is the same as running it once over their
    concatenation: the cipher state carried between batches is the IV and
    nothing else. *)
Theorem cfb_streams_compose blk iv d1 d2 r1 r2 :
  encryptBytes blk iv (d1 ++ d2) =
    ('(c1, iv1) ← encryptBytes blk iv d1;
     '(c2, iv2) ← encryptBytes blk iv1 d2;
     Some (c1 ++ c2, iv2))
  /\ decryptBytes blk iv (r1 ++ r2) =
    ('(p1, iv1) ← decryptBytes blk iv r1;
     '(p2, iv2) ← decryptBytes blk iv1 r2;
     Some (p1 ++ p2, iv2)).
Proof. split; [apply encryptBytes_app | apply decryptBytes_app]. Qed.

Lemma decryptBytes_is_Some blk raw iv :
  length iv = BlockSize blk -> 0 < BlockSize blk ->
  exists p iv', decryptBytes blk iv raw = Some (p, iv') /\ length p = length raw.
Proof.
  intros Hl Hp. destruct (decryptBytes blk iv raw) as [[p iv']|] eqn:Hd.
  - exists p, iv'. split; [done|]. by eapply decryptBytes_length.
  - apply decryptBytes_None in Hd as [_ Hbad]. by destruct Hbad.
Qed.

(** X3: The decrypt loop resynchronises: whatever came before (other bytes,
    another IV), once [BlockSize] ciphertext bytes [w] have been fed, the
    bytes after them decrypt to the same plaintext [q].  So damage to the
    ciphertext reaches no further than one block past the damaged byte. *)
Theorem decrypt_resynchronises blk iv1 iv2 a1 a2 w c :
  0 < BlockSize blk ->
  length iv1 = BlockSize blk -> length iv2 = BlockSize blk ->
  length w = BlockSize blk ->
  exists p1 p2 q iv',
    decryptBytes blk iv1 (a1 ++ w ++ c) = Some (p1 ++ q, iv') /\
    decryptBytes blk iv2 (a2 ++ w ++ c) = Some (p2 ++ q, iv') /\
    length p1 = length (a1 ++ w) /\ length p2 = length (a2 ++ w) /\
    length q = length c /\
    decryptBytes blk w c = Some (q, iv').
Proof.
  intros Hp Hl1 Hl2 Hw.
  assert (forall iv a, length iv = BlockSize blk ->
            exists p, decryptBytes blk iv (a ++ w) = Some (p, w)
                      /\ length p = length (a ++ w)) as Hhead.
  { intros iv a Hl.
    destruct (decryptBytes_is_Some blk (a ++ w) iv Hl Hp) as (p & iv' & Hd & Hlen).
    exists p. split; [|done]. rewrite Hd. do 2 f_equal.
    apply decryptBytes_iv in Hd. rewrite Hd, length_app, app_assoc.
    rewrite drop_app_length'; [done|]. rewrite length_app. lia. }
  destruct (Hhead iv1 a1 Hl1) as (p1 & Hd1 & Hlen1).
  destruct (Hhead iv2 a2 Hl2) as (p2 & Hd2 & Hlen2).
  destruct (decryptBytes_is_Some blk c w Hw Hp) as (q & iv' & Hq & Hlq).
  exists p1, p2, q, iv'.
  rewrite (app_assoc a1 w c), (app_assoc a2 w c).
  rewrite (decryptBytes_app blk (a1 ++ w) iv1 c), (decryptBytes_app blk (a2 ++ w) iv2 c).
  rewrite Hd1, Hd2. simpl. rewrite Hq. simpl.
  by split_and!.
Qed.

End CipherMore.

(** ** Facts about item types *)
Module ItemsFacts.
Import Items.

Local Open Scope string_scope.

Lemma sliceFrom_None n : forall s,
  GoStrings.sliceFrom n s = None <-> (String.length s < n)%nat.
Proof.
  induction n as [|n IH]; intros s; simpl.
  - split; [done|lia].
  - destruct s as [|c s]; simpl; [split; [lia|done]|].
    rewrite IH. lia.
Qed.

Lemma sliceFrom_app n p rest :
  String.length p = n -> GoStrings.sliceFrom n (p ++ rest) = Some rest.
Proof. intros <-. induction p as [|c p IH]; simpl; done. Qed.

Lemma TrimRight_no_cut cut s : forall s',
  GoStrings.TrimRight cut s <> s' ++ String cut "".
Proof.
  induction s as [|c s IH]; intros s'; simpl.
  - by destruct s'.
  - destruct (GoStrings.TrimRight cut s) as [|k ks] eqn:Hk.
    + case_decide.
      * by destruct s'.
      * destruct s' as [|c' s'']; simpl; [by intros [= ?]|].
        intros [= _ Hs]. by destruct s''.
    + destruct s' as [|c' s'']; simpl; [by intros [= ?]|].
      intros [= _ Hs]. by apply (IH s'').
Qed.

Section WithTitle.
Context (Title : string -> string).

(** X25: [NewType] panics exactly on the string ids shorter than ten bytes; on
    every other id it returns a type, whatever the id starts with. *)
Theorem NewType_panics_iff_short id :
  NewType Title id = None <-> (String.length id < 10)%nat.
Proof.
  unfold NewType. rewrite <- sliceFrom_None.
  by destruct (GoStrings.sliceFrom 10 id).
Qed.

(** X26: The readable name of a new type is built from what follows the first
    ten bytes of the id only: the bytes themselves are never compared with
    the prefix they stand for, so two ids that differ in them get the same
    name.  The type keeps the id it was given, and its name never ends in a
    space. *)
Theorem NewType_name_ignores_prefix p q rest :
  String.length p = 10%nat -> String.length q = 10%nat ->
  exists t u,
    NewType Title (p ++ rest) = Some t /\
    NewType Title (q ++ rest) = Some u /\
    GetId t = p ++ rest /\ GetId u = q ++ rest /\
    GetName t = GetName u /\
    forall s, GetName t <> s ++ " ".
Proof.
  intros Hp Hq. unfold NewType.
  rewrite (sliceFrom_app 10 p rest Hp), (sliceFrom_app 10 q rest Hq).
  eexists _, _. split_and!; try done.
  intros s. apply TrimRight_no_cut.
Qed.

End WithTitle.

Local Open Scope Z_scope.

Lemma int16_small x : -32768 <= x < 32768 -> int16 x = x.
Proof. intros Hx. unfold int16. rewrite Z.mod_small; lia. Qed.

Lemma lor_disjoint_low d c :
  0 <= c < 256 -> Z.lor (d * 256) c = d * 256 + c.
Proof.
  intros Hc.
  assert (Z.land (d * 256) c = 0) as Hland.
  { apply Z.bits_inj'. intros n Hn. rewrite Z.land_spec, Z.bits_0.
    destruct (decide (n < 8)) as [Hlt|Hge].
    - replace (d * 256) with (d * 2 ^ 8) by lia.
      rewrite Z.mul_pow2_bits_low by lia. done.
    - assert (Z.testbit c n = false) as ->; [|by rewrite andb_false_r].
      destruct (decide (c = 0)) as [->|Hc0]; [apply Z.bits_0|].
      apply Z.bits_above_log2; [lia|].
      assert (Z.log2 c < 8); [|lia].
      apply Z.log2_lt_pow2; lia. }
  rewrite <- Z.lxor_lor by done.
  symmetry. apply Z.add_nocarry_lxor. done.
Qed.

(** X27: For the value the aux is computed from (the stack's durability for a
    breakable type, the data passed in otherwise) below 128 and a count
    below 256, the aux value is that value times 256 plus the count. *)
Theorem GetAuxValue_packs_data_and_count t stack data :
  let d := if IsBreakable t then Durability stack else data in
  0 <= d < 128 -> 0 <= Count stack < 256 ->
  GetAuxValue t stack data = d * 256 + Count stack.
Proof.
  intros d Hd Hc. unfold GetAuxValue. fold d.
  change 32767 with (Z.ones 15). rewrite Z.land_ones by lia.
  rewrite Z.mod_small by lia. rewrite Z.shiftl_mul_pow2 by lia.
  change (2 ^ 8) with 256.
  rewrite !int16_small by lia. by apply lor_disjoint_low.
Qed.

(** X28: The sixteen-bit shift keeps only the low eight bits of the data, and
    moves bit 7 into the sign: whenever that bit is set the aux value is
    negative, whatever the count. *)
Theorem GetAuxValue_negative_from_bit_7 t stack data :
  let d := if IsBreakable t then Durability stack else data in
  128 <= d mod 256 ->
  GetAuxValue t stack data < 0.
Proof.
  intros d Hd. unfold GetAuxValue. fold d.
  apply Z.lor_neg. left.
  change 32767 with (Z.ones 15). rewrite Z.land_ones by lia.
  rewrite Z.shiftl_mul_pow2 by lia. change (2 ^ 8) with 256.
  change (2 ^ 15) with 32768.
  unfold int16.
  assert (d mod 32768 = 256 * (d mod 32768 / 256) + d mod 256) as Hsplit.
  { assert ((d mod 32768) mod 256 = d mod 256) as Hlow.
    { apply Z.mod_mod_divide. exists 128. lia. }
    pose proof (Z.div_mod (d mod 32768) 256 ltac:(lia)) as Hdm. lia. }
  set (h := d mod 32768 / 256) in *.
  set (l := d mod 256) in *.
  assert (0 <= h < 128) as Hh.
  { pose proof (Z.mod_pos_bound d 32768 ltac:(lia)) as Hb.
    subst h. split; [apply Z.div_pos; lia|].
    apply Z.div_lt_upper_bound; lia. }
  assert (0 <= l < 256) as Hl by (subst l; apply Z.mod_pos_bound; lia).
  rewrite Hsplit.
  replace ((256 * h + l) * 256 + 32768) with ((l * 256 + 32768) + h * 65536) by lia.
  rewrite Z.mod_add by lia.
  replace (l * 256 + 32768) with ((l * 256 - 32768) + 1 * 65536) by lia.
  rewrite Z.mod_add by lia.
  rewrite Z.mod_small by lia. lia.
Qed.

End ItemsFacts.

(** ** Facts about manifest validation *)
Module PluginsFacts.
Import Plugins.

Local Open Scope string_scope.

Lemma Split_nonempty sep s : GoStrings.Split sep s <> [].
Proof.
  destruct s as [|c s]; simpl; [done|].
  case_decide; [done|]. by destruct (GoStrings.Split sep s).
Qed.

Lemma append_nil (x : string) : "" ++ x = x.
Proof. reflexivity. Qed.

Lemma append_cons c (a x : string) : String c a ++ x = String c (a ++ x).
Proof. reflexivity. Qed.

Lemma Count_pos sep s :
  (1 <= GoStrings.Count sep s)%nat <-> exists a b, s = a ++ String sep b.
Proof.
  induction s as [|c s IH]; simpl.
  - split; [lia|]. intros (a & b & Hab). by destruct a.
  - case_decide as Hc.
    + subst c. split; [|lia]. intros _. by exists "", s.
    + rewrite IH. split.
      * intros (a & b & ->). by exists (String c a), b.
      * intros (a & b & Hab). destruct a as [|c' a]; rewrite ?append_nil, ?append_cons in Hab.
        -- congruence.
        -- injection Hab as _ ->. by exists a, b.
Qed.

Lemma Split_major sep s major :
  (2 <= length (GoStrings.Split sep s))%nat /\ hd "" (GoStrings.Split sep s) = major
  <-> (forall a b, major <> a ++ String sep b) /\
      exists rest, s = major ++ String sep rest.
Proof.
  revert major. induction s as [|c s IH]; intros major; simpl.
  - split; [intros [? _]; lia|]. intros (_ & rest & Hr). by destruct major.
  - case_decide as Hc.
    + subst c. split.
      * intros [_ <-]. split; [intros a b; by destruct a|]. by exists s.
      * intros (Hfree & rest & Hr). destruct major as [|m major].
        -- split; [|done]. pose proof (Split_nonempty sep s).
           destruct (GoStrings.Split sep s); [done|simpl; lia].
        -- rewrite ?append_nil, ?append_cons in Hr. injection Hr as <- _. by destruct (Hfree "" major).
    + pose proof (Split_nonempty sep s) as Hne.
      destruct (GoStrings.Split sep s) as [|piece pieces] eqn:Hs; [done|].
      cbn [hd length]. split.
      * intros [Hlen <-].
        destruct (proj1 (IH piece) (conj Hlen eq_refl)) as (Hfree & rest & ->).
        split; [|by exists rest].
        intros a b Hab. destruct a as [|c' a]; rewrite ?append_nil, ?append_cons in Hab; [congruence|].
        injection Hab as _ Hab. by apply (Hfree a b).
      * intros (Hfree & rest & Hr). destruct major as [|m major]; rewrite ?append_nil, ?append_cons in Hr.
        -- congruence.
        -- injection Hr as <- ->.
           destruct (proj2 (IH major)) as [Hlen Hhd].
           { split; [|by exists rest]. intros a b ->. by apply (Hfree (String c a) b). }
           cbn [hd length] in *. by subst piece.
Qed.

(** X24: A manifest passes validation exactly when it has a name that no loaded
    plugin bears, a description, a version with a dot in it, and an API
    version that starts with [0.]: of the API version only the part before
    the first dot is compared with the server's, and nothing is required of
    what follows the dot.  The path plays no part in the verdict. *)
Theorem ValidateManifest_accepts_iff manager manifest path :
  ValidateManifest manager manifest path = None
  <-> GetName manifest <> ""
      /\ plugins manager !! GetName manifest = None
      /\ GetDescription manifest <> ""
      /\ (exists a b, GetVersion manifest = a ++ "." ++ b)
      /\ exists rest, GetAPIVersion manifest = "0." ++ rest.
Proof.
  unfold ValidateManifest, IsPluginLoaded.
  change (hd "" (GoStrings.Split GoStrings.dot ApiVersion)) with "0".
  pose proof (Count_pos GoStrings.dot (GetVersion manifest)) as Hcount.
  pose proof (Split_major GoStrings.dot (GetAPIVersion manifest) "0") as Hmajor.
  assert (forall a b, "0" <> a ++ String GoStrings.dot b) as Hfree.
  { intros [|c [|c' a]] b; simpl; intros [=]. }
  change ("." ++ ?b) with (String GoStrings.dot b) in *.
  split.
  - repeat case_decide; try case_bool_decide; try done.
    intros _. split_and!; try done.
    + by apply eq_None_not_Some.
    + apply Hcount. lia.
    + apply Hmajor. split; [lia|]. by destruct (decide (hd "" (GoStrings.Split GoStrings.dot (GetAPIVersion manifest)) = "0")).
  - intros (Hname & Hfresh & Hdesc & Hver & Hapi).
    apply Hcount in Hver. destruct (proj2 Hmajor (conj Hfree Hapi)) as [Hlen Hhd].
    rewrite decide_False by done.
    rewrite bool_decide_eq_false_2 by (rewrite Hfresh; by intros [? ?]).
    rewrite decide_False by done. rewrite decide_False by lia.
    rewrite decide_False by lia. rewrite decide_False; [done|]. intros H. by apply H.
Qed.

End PluginsFacts.

(** ** Facts about the batch codec *)
Module BatchFacts.
Import Cipher CipherFacts Batch BatchSpec.

(** *** The byte loops, step by step *)

Lemma shiftIV_tl iv x : shiftIV iv x = tl iv ++ [x].
Proof. unfold shiftIV. by destruct iv. Qed.

(** Every ciphertext byte is the plaintext byte xored with the key-stream
    byte of the IV of its step, and the IV left is the rolled one. *)
Lemma encryptBytes_steps blk p : forall iv c iv',
  encryptBytes blk iv p = Some (c, iv') ->
  iv' = rolled iv c /\
  forall i x y, p !! i = Some x -> c !! i = Some y ->
    y = Z.lxor x (keyByte blk (ivAt iv c i)).
Proof.
  induction p as [|x0 p IH]; intros iv c iv'; simpl.
  - intros [= <- <-]. split; [done|]. intros i x y Hx. by destruct i.
  - unfold cfbXorByte at 1. case_decide; [|done]. simpl.
    destruct (encryptBytes blk _ p) as [[cs iv1]|] eqn:He; [|done]. simpl.
    intros [= <- <-]. apply IH in He as [-> Hstep].
    rewrite shiftIV_tl in *. split; [done|].
    intros [|i] x y; simpl.
    + by intros [= <-] [= <-].
    + apply Hstep.
Qed.

Lemma decryptBytes_steps blk c : forall iv p iv',
  decryptBytes blk iv c = Some (p, iv') ->
  iv' = rolled iv c /\
  forall i x y, p !! i = Some x -> c !! i = Some y ->
    x = Z.lxor y (keyByte blk (ivAt iv c i)).
Proof.
  induction c as [|y0 c IH]; intros iv p iv'; simpl.
  - intros [= <- <-]. split; [done|]. intros i x y Hx. by destruct i.
  - unfold cfbXorByte at 1. case_decide; [|done]. simpl.
    destruct (decryptBytes blk _ c) as [[ps iv1]|] eqn:Hd; [|done]. simpl.
    intros [= <- <-]. apply IH in Hd as [-> Hstep].
    rewrite shiftIV_tl in *. split; [done|].
    intros [|i] x y; simpl.
    + by intros [= <-] [= <-].
    + apply Hstep.
Qed.

Section WithLibs.
Context (L : Libs).

(** C4 (amended): with the same block cipher (key) and the same IV at both
    ends, the two byte loops invert each other on every buffer [p], whatever
    its length (1, 15, 16, 17, 1024, ...).  Each handles one byte per fresh
    CFB stream over the stored IV: ciphertext byte [i] is plaintext byte [i]
    xored with the key-stream byte of the IV of step [i], in both
    directions, and that IV is the initial one shifted left [i] times with
    the first [i] ciphertext bytes appended; both ends are left with the IV
    rolled over the whole ciphertext.  The methods themselves do not return
    the plaintext alone: [encrypt] appends the checksum of [d] before its
    loop, and what [decrypt] leaves in [raw] is [d] followed by that
    suffix. *)
Theorem encrypt_decrypt_roundtrip
  (bs br : MinecraftPacketBatch) (ss sr : MinecraftSession)
  (ds dr : EncryptionData) (d : list byte) :
  session bs = Some ss -> Data ss = Some ds ->
  session br = Some sr -> Data sr = Some dr ->
  EncryptCipher ds = DecryptCipher dr ->
  EncryptIV ds = DecryptIV dr ->
  length (EncryptIV ds) = BlockSize (EncryptCipher ds) ->
  0 < BlockSize (EncryptCipher ds) ->
  (forall p, exists c,
      encryptBytes (EncryptCipher ds) (EncryptIV ds) p
        = Some (c, rolled (EncryptIV ds) c) /\
      decryptBytes (DecryptCipher dr) (DecryptIV dr) c
        = Some (p, rolled (DecryptIV dr) c) /\
      length c = length p /\
      forall i x y, p !! i = Some x -> c !! i = Some y ->
        y = Z.lxor x (keyByte (EncryptCipher ds) (ivAt (EncryptIV ds) c i)) /\
        x = Z.lxor y (keyByte (DecryptCipher dr) (ivAt (DecryptIV dr) c i))) /\
  exists c bs' br',
    encrypt L d bs = Ok c bs' /\
    decrypt (setRaw c br) = Ok tt br' /\
    raw br' = d ++ (ComputeSendChecksum L ds d).1 /\
    length c = length d + length (ComputeSendChecksum L ds d).1 /\
    EncryptIV <$> (session bs' ≫= Data) = Some (rolled (EncryptIV ds) c) /\
    DecryptIV <$> (session br' ≫= Data) = Some (rolled (DecryptIV dr) c).
Proof.
  intros Hss Hds Hsr Hdr Hkey Hiv Hlen Hpos.
  assert (forall p, exists c,
      encryptBytes (EncryptCipher ds) (EncryptIV ds) p
        = Some (c, rolled (EncryptIV ds) c) /\
      decryptBytes (DecryptCipher dr) (DecryptIV dr) c
        = Some (p, rolled (DecryptIV dr) c) /\
      length c = length p /\
      forall i x y, p !! i = Some x -> c !! i = Some y ->
        y = Z.lxor x (keyByte (EncryptCipher ds) (ivAt (EncryptIV ds) c i)) /\
        x = Z.lxor y (keyByte (DecryptCipher dr) (ivAt (DecryptIV dr) c i))) as Hloops.
  { intros p.
    destruct (encryptBytes_total (EncryptCipher ds) p (EncryptIV ds) Hlen Hpos)
      as (c & iv' & He & Hc & _).
    pose proof (decrypt_encrypt_bytes _ _ _ _ _ He) as Hd.
    destruct (encryptBytes_steps _ _ _ _ _ He) as [-> Hes].
    destruct (decryptBytes_steps _ _ _ _ _ Hd) as [_ Hds'].
    exists c. rewrite <- Hkey, <- Hiv. split_and!; try done.
    intros i x y Hx Hy. split; [by eapply Hes | by eapply Hds']. }
  split; [exact Hloops|].
  unfold encrypt, decrypt, ComputeSendChecksum. rewrite Hss, Hds.
  set (sum := take 8 _).
  destruct (Hloops (d ++ sum)) as (c & He & Hd & Hc & _).
  cbn [EncryptCipher EncryptIV DecryptCipher DecryptIV SharedSecret SendCounter fst].
  rewrite He.
  eexists c, _, _. split; [reflexivity|].
  cbn [setRaw setSession session raw Data]. rewrite Hsr, Hdr, Hd.
  split; [reflexivity|]. cbn [raw setRaw setSession session].
  split_and!; try done. by rewrite Hc, length_app.
Qed.

(** *** Frame lemmas for the parts of [Decode] *)

Lemma setStream_same (b : MinecraftPacketBatch) : setStream (stream b) b = b.
Proof. by destruct b. Qed.

Lemma decrypt_packets b b' : decrypt b = Ok tt b' ->
  packets b' = packets b /\ logged b' = logged b /\
  (IsPacketRegistered <$> session b') = (IsPacketRegistered <$> session b) /\
  needsEncryption b' = needsEncryption b.
Proof.
  unfold decrypt. destruct (session b) as [s|] eqn:Hs; [|done].
  destruct (Data s) as [data|].
  - destruct (decryptBytes _ _ _) as [[p iv']|]; [|done].
    by intros [= <-].
  - destruct (raw b); [|done]. intros [= <-]. by rewrite Hs.
Qed.

Lemma Decode_raw_packets b b' : Decode_raw b = Ok tt b' ->
  packets b' = packets b /\ logged b' = logged b /\
  (IsPacketRegistered <$> session b') = (IsPacketRegistered <$> session b).
Proof.
  unfold Decode_raw, bind, get, modify, ret, panic.
  case_decide; [|done].
  destruct (needsEncryption b).
  - destruct (decrypt _) as [[] c| |] eqn:Hd; [|done..].
    intros [= <-]. apply decrypt_packets in Hd as (? & ? & ? & ?). by simpl in *.
  - by intros [= <-].
Qed.

Lemma readRecords_packets fuel : forall acc b,
  match readRecords L fuel acc b with
  | Ok _ b' | Panic b' =>
      packets b' = packets b /\ logged b' = logged b /\ session b' = session b
  | OutOfFuel => True
  end.
Proof.
  induction fuel as [|fuel IH]; intros acc b; simpl; [done|].
  unfold bind, get, modify, ret, panic.
  destruct (Feof L (stream b)); [done|].
  destruct (GetLengthPrefixedBytes L (stream b)) as [[rec s']|]; [|done].
  specialize (IH (acc ++ [rec]) (setStream s' b)).
  by destruct (readRecords L fuel (acc ++ [rec]) (setStream s' b)).
Qed.

(** [fetchPackets] only ever appends to the packets. *)
Lemma fetchPackets_panic recs : forall b b',
  fetchPackets recs b = Panic b' -> session b = None /\ b' = b.
Proof.
  induction recs as [|data recs IH]; intros b b'; simpl; [done|].
  destruct data as [|packetId data]; [by apply IH|].
  unfold bind, get, modify, panic.
  destruct (session b) as [s|] eqn:Hs; [|by intros [= <-]].
  destruct (IsPacketRegistered s packetId); intros Hp; apply IH in Hp as [Hn _];
    simpl in Hn; congruence.
Qed.

(** *** Indistinguishable states stay indistinguishable *)

Lemma readRecords_agree fuel : forall acc b1 b2,
  agree b1 b2 -> agreeRes (readRecords L fuel acc b1) (readRecords L fuel acc b2).
Proof.
  induction fuel as [|fuel IH]; intros acc b1 b2 Hag; simpl; [done|].
  unfold bind, get, modify, ret, panic.
  destruct Hag as (Hst & Hpk & Hlg & Hreg). rewrite <- Hst.
  destruct (Feof L (stream b1)); [by repeat split|].
  destruct (GetLengthPrefixedBytes L (stream b1)) as [[rec s']|];
    [|by repeat split].
  apply IH. by repeat split.
Qed.

Lemma fetchPackets_agree recs : forall b1 b2,
  agree b1 b2 -> agreeRes (fetchPackets recs b1) (fetchPackets recs b2).
Proof.
  induction recs as [|data recs IH]; intros b1 b2 Hag; simpl; [done|].
  destruct data as [|packetId data]; [by apply IH|].
  unfold bind, get, modify, panic.
  pose proof Hag as (Hst & Hpk & Hlg & Hreg).
  destruct (session b1) as [s1|], (session b2) as [s2|]; simpl in Hreg;
    try done.
  injection Hreg as Hreg. rewrite <- Hreg.
  destruct (IsPacketRegistered s1 packetId); apply IH; repeat split; simpl;
    try done; first [congruence | apply Hag].
Qed.

(** *** [Decode] unfolded *)

Lemma Decode_records_unfold fuel b :
  Decode_records L fuel b =
  match zlib_inflate L (raw b) with
  | ZlibHeaderError =>
      Ok tt (addLog LogZlibError (addLog (LogDebugHex (raw b)) (addLog LogZlibError b)))
  | ZlibRead out true => Ok tt (addLog LogZlibError (setRaw out b))
  | ZlibRead out false =>
      bind (readRecords L fuel []) fetchPackets
           (setStream (mkStream out 0) (setRaw out b))
  end.
Proof.
  unfold Decode_records, decompress, bind, modify.
  destruct (zlib_inflate L (raw b)) as [|out failed]; [done|]. by destruct failed.
Qed.

Lemma Decode_unfold fuel b :
  Decode L fuel b =
  match GetByte L (stream b) with
  | None => Ok tt (addLog LogDebugPanic b)
  | Some (m, s1) =>
      if decide (m = McpeFlag)
      then recover (bind Decode_raw (fun _ => Decode_records L fuel)) (setStream s1 b)
      else Ok tt (setStream s1 b)
  end.
Proof.
  unfold Decode, recover, Decode_body, bind, get, modify, ret, panic.
  destruct (GetByte L (stream b)) as [[m s1]|]; [|done]. by case_decide.
Qed.

Lemma bind_agree {A B} (m1 m2 : M A) (k1 k2 : A -> M B) b1 b2 :
  agreeRes (m1 b1) (m2 b2) ->
  (forall a c1 c2, agree c1 c2 -> agreeRes (k1 a c1) (k2 a c2)) ->
  agreeRes (bind m1 k1 b1) (bind m2 k2 b2).
Proof.
  unfold bind. intros Hm Hk.
  destruct (m1 b1), (m2 b2); simpl in *; try done.
  destruct Hm as [-> Hag]. by apply Hk.
Qed.

Lemma recover_agree (m1 m2 : M unit) b1 b2 :
  agreeRes (m1 b1) (m2 b2) -> yield (recover m1 b1) = yield (recover m2 b2).
Proof.
  unfold recover. intros Hm.
  destruct (m1 b1), (m2 b2); simpl in *; try done.
  - destruct Hm as (_ & _ & -> & _). done.
  - destruct Hm as (_ & -> & _). done.
Qed.

(** After the body is in [raw], the outcome depends on it only through the
    result of inflation. *)
Lemma Decode_records_inflate fuel b1 b2 :
  packets b1 = packets b2 -> logged b1 = logged b2 ->
  (IsPacketRegistered <$> session b1) = (IsPacketRegistered <$> session b2) ->
  zlib_inflate L (raw b1) = zlib_inflate L (raw b2) ->
  yield (recover (Decode_records L fuel) b1) = yield (recover (Decode_records L fuel) b2).
Proof.
  intros Hpk Hlg Hreg Hz.
  unfold recover. rewrite !Decode_records_unfold, Hz.
  destruct (zlib_inflate L (raw b2)) as [|out failed]; [simpl; congruence|].
  destruct failed; [simpl; congruence|].
  apply (recover_agree (bind (readRecords L fuel []) fetchPackets)
                       (bind (readRecords L fuel []) fetchPackets)).
  apply bind_agree; [by apply readRecords_agree|].
  intros recs d1 d2 Hd. by apply fetchPackets_agree.
Qed.

(** [Decode] on an encrypted frame whose body decrypts to [p]. *)
Lemma Decode_on_frame fuel s data body p iv' :
  readsFirstByte L ->
  Data s = Some data ->
  decryptBytes (DecryptCipher data) (DecryptIV data) body = Some (p, iv') ->
  exists st,
    Decode L fuel (receivingOn s (McpeFlag :: body))
      = recover (Decode_records L fuel) st
    /\ raw st = p /\ packets st = [] /\ logged st = []
    /\ session st <> None
    /\ (IsPacketRegistered <$> session st) = Some (IsPacketRegistered s).
Proof.
  intros Hfirst Hdata Hdec.
  rewrite Decode_unfold.
  unfold receivingOn, NewMinecraftPacketBatch, SetBuffer.
  cbn [stream setStream Offset]. rewrite Hfirst, decide_True by done.
  unfold recover at 1, bind at 1, Decode_raw, bind at 1, get.
  cbn [stream setStream Offset Buffer raw packets session needsEncryption logged].
  rewrite decide_True by (simpl; lia).
  unfold bind at 1, modify at 1.
  cbn [stream setStream setRaw Offset Buffer raw packets session needsEncryption logged].
  unfold bind at 1, decrypt.
  cbn [stream setStream setRaw Offset Buffer raw packets session needsEncryption logged drop].
  eexists. split.
  { rewrite drop_0, Hdata, Hdec. unfold modify. reflexivity. }
  by repeat split.
Qed.

(** Flipping a bit of the last ciphertext byte flips the same bit of the last
    plaintext byte and touches nothing before it. *)
Lemma decryptBytes_flip_last blk iv c x k p y iv' :
  decryptBytes blk iv (c ++ [x]) = Some (p ++ [y], iv') ->
  exists iv'', decryptBytes blk iv (c ++ [flipBit k x]) = Some (p ++ [flipBit k y], iv'').
Proof.
  intros Hd.
  destruct (decryptBytes blk iv c) as [[p0 iv0]|] eqn:Hc.
  - rewrite (decryptBytes_snoc _ _ _ _ _ x Hc) in Hd.
    rewrite (decryptBytes_snoc _ _ _ _ _ (flipBit k x) Hc).
    unfold cfbXorByte in *. case_decide; [|done]. simpl in *.
    injection Hd as Hp _. apply app_inj_tail in Hp as [-> <-].
    eexists. by rewrite flipBit_lxor.
  - exfalso. apply decryptBytes_None in Hc as [_ Hbad].
    destruct c as [|c0 c]; simpl in Hd.
    + unfold cfbXorByte in Hd. by case_decide.
    + unfold cfbXorByte in Hd. by case_decide.
Qed.

(** C1 (amended): [Decode] compares no checksum.  Once the body is decrypted
    byte by byte, all of it, suffix included, goes to inflation, and only a
    failure there (or in record splitting) drops the batch.  Flipping a bit in
    the last byte of the encrypted body flips that bit in the last byte of the
    decrypted suffix and nothing else; whenever the inflater gives the same
    result on both bodies, as one that stops at the end of the zlib stream
    does, the flipped batch yields exactly the packets of the original. *)
Theorem Decode_accepts_suffix_flip fuel s data c x k p y iv' :
  readsFirstByte L ->
  Data s = Some data ->
  decryptBytes (DecryptCipher data) (DecryptIV data) (c ++ [x]) = Some (p ++ [y], iv') ->
  zlib_inflate L (p ++ [flipBit k y]) = zlib_inflate L (p ++ [y]) ->
  (exists iv'', decryptBytes (DecryptCipher data) (DecryptIV data) (c ++ [flipBit k x])
                = Some (p ++ [flipBit k y], iv''))
  /\ yield (Decode L fuel (receivingOn s (McpeFlag :: c ++ [flipBit k x])))
     = yield (Decode L fuel (receivingOn s (McpeFlag :: c ++ [x]))).
Proof.
  intros Hfirst Hdata Hdec Hz.
  destruct (decryptBytes_flip_last _ _ _ _ k _ _ _ Hdec) as [iv'' Hflip].
  split; [by exists iv''|].
  destruct (Decode_on_frame fuel _ _ _ _ _ Hfirst Hdata Hdec)
    as (st & -> & Hraw & Hpk & Hlg & _ & Hreg).
  destruct (Decode_on_frame fuel _ _ _ _ _ Hfirst Hdata Hflip)
    as (st' & -> & Hraw' & Hpk' & Hlg' & _ & Hreg').
  apply Decode_records_inflate; congruence.
Qed.

(** X1: [Decode] never lets a panic out. *)
Lemma Decode_no_panic fuel b b' : Decode L fuel b <> Panic b'.
Proof. unfold Decode, recover. by destruct (Decode_body L fuel b). Qed.

(** With a reader that moves forward, fuel beyond the bytes left is enough
    for the record loop. *)
Lemma readRecords_fuel : readerAdvances L -> forall fuel acc b,
  length (Buffer (stream b)) - Offset (stream b) < fuel ->
  readRecords L fuel acc b <> OutOfFuel.
Proof.
  intros [Hadv Heof]. induction fuel as [|fuel IH]; intros acc b Hlt; [lia|].
  simpl. unfold bind, get, modify, ret, panic.
  destruct (Feof L (stream b)) eqn:He; [done|].
  destruct (GetLengthPrefixedBytes L (stream b)) as [[rec s']|] eqn:Hg; [|done].
  apply Heof in He. apply Hadv in Hg as [Hb Ho].
  apply IH. simpl. rewrite Hb. lia.
Qed.



End WithLibs.
End BatchFacts.

(** ** More on the batch codec: record fetching, round trips, frames *)
Module BatchMore.
Import Cipher CipherFacts Batch BatchSpec BatchFacts BatchMoreSpec.

Section WithLibs.
Context (L : Libs).

Lemma fetchPackets_eq recs : forall b s,
  session b = Some s ->
  fetchPackets recs b =
  Ok tt (mkBatch (stream b) (raw b)
                 (packets b ++ omap (recordPacket (IsPacketRegistered s)) recs)
                 (session b) (needsEncryption b)
                 (logged b ++ omap (recordUnknown (IsPacketRegistered s)) recs)).
Proof.
  induction recs as [|data recs IH]; intros b s Hs; simpl.
  - rewrite !app_nil_r. by destruct b.
  - destruct data as [|packetId data]; [by apply IH|].
    unfold bind, get, modify. rewrite Hs. simpl.
    destruct (IsPacketRegistered s packetId) eqn:Hreg.
    + rewrite (IH _ s) by done. simpl. rewrite Hs. by rewrite <- app_assoc.
    + rewrite (IH _ s) by done. simpl. rewrite Hs. by rewrite <- app_assoc.
Qed.

(** X4: [fetchPackets] goes through all the records: the empty ones and the ones
    with an unknown id are passed over (the latter with a debug line each),
    the others are appended to the packets in their order, each with the
    whole record as its buffer.  An unknown id never aborts the batch. *)
Theorem fetchPackets_keeps_registered recs b s :
  session b = Some s ->
  exists b',
    fetchPackets recs b = Ok tt b'
    /\ packets b' = packets b ++ omap (recordPacket (IsPacketRegistered s)) recs
    /\ logged b' = logged b ++ omap (recordUnknown (IsPacketRegistered s)) recs
    /\ stream b' = stream b /\ raw b' = raw b /\ session b' = session b.
Proof.
  intros Hs. eexists. split; [by apply fetchPackets_eq|]. by split_and!.
Qed.

Lemma fetchPackets_nil_session recs : forall b,
  session b = None ->
  fetchPackets recs b = Ok tt b \/ fetchPackets recs b = Panic b.
Proof.
  induction recs as [|data recs IH]; intros b Hs; simpl; [by left|].
  destruct data as [|packetId data]; [by apply IH|].
  unfold bind, get, panic. rewrite Hs. by right.
Qed.

Lemma Decode_raw_cases b :
  (exists b1, Decode_raw b = Ok tt b1) \/ (exists b1, Decode_raw b = Panic b1).
Proof.
  unfold Decode_raw, bind, get, modify, ret, panic.
  case_decide; [|right; by eexists].
  destruct (needsEncryption b); [|left; by eexists].
  unfold decrypt. simpl.
  destruct (session b) as [s|]; [|right; by eexists].
  destruct (Data s) as [data|].
  - destruct (decryptBytes _ _ _) as [[p iv']|]; [left | right]; by eexists.
  - destruct (drop _ _); [left | right]; by eexists.
Qed.

Lemma Decode_raw_panic b b1 :
  Decode_raw b = Panic b1 ->
  packets b1 = packets b /\ session b1 = session b
  /\ needsEncryption b1 = needsEncryption b.
Proof.
  unfold Decode_raw, bind, get, modify, ret, panic.
  case_decide; [|by intros [= <-]].
  destruct (needsEncryption b) eqn:Hn; [|done].
  unfold decrypt. simpl.
  destruct (session b) as [s|] eqn:Hs; [|intros [= <-]; simpl; by rewrite Hs, Hn].
  destruct (Data s) as [data|].
  - destruct (decryptBytes _ _ _) as [[p iv']|]; [done|].
    intros [= <-]. simpl. by rewrite Hs, Hn.
  - destruct (drop _ _); [done|]. intros [= <-]. simpl. by rewrite Hs, Hn.
Qed.

Lemma Decode_raw_session b b1 :
  Decode_raw b = Ok tt b1 ->
  sameButRecvIV (session b) (session b1) /\
  (needsEncryption b = false -> session b1 = session b) /\
  needsEncryption b1 = needsEncryption b.
Proof.
  unfold Decode_raw, bind, get, modify, ret, panic.
  case_decide; [|done].
  destruct (needsEncryption b) eqn:Hn.
  - unfold decrypt. simpl.
    destruct (session b) as [s|] eqn:Hs; [|done].
    destruct (Data s) as [data|] eqn:Hd.
    + destruct (decryptBytes _ _ _) as [[p iv']|]; [|done].
      intros [= <-]. simpl. rewrite Hd. by split_and!.
    + destruct (drop _ _); [|done]. intros [= <-]. simpl. rewrite Hs. simpl.
      rewrite Hd. by split_and!.
  - intros [= <-]. simpl. split_and!; try done.
    destruct (session b) as [s|]; [|done]. simpl. split; [done|].
    by destruct (Data s).
Qed.

Lemma sameButRecvIV_refl s : sameButRecvIV s s.
Proof.
  destruct s as [s|]; [|done]. simpl. split; [done|]. by destruct (Data s).
Qed.

(** X5: The session behind a batch made for a nil session: [Decode] can never
    hand out a packet, because [fetchPackets] dereferences the session at
    the first record that is not empty. *)
Theorem Decode_nil_session_no_packets fuel b b' :
  session b = None ->
  Decode L fuel b = Ok tt b' ->
  packets b' = packets b /\ session b' = None.
Proof.
  intros Hs. rewrite Decode_unfold.
  destruct (GetByte L (stream b)) as [[m s1]|]; [|by intros [= <-]].
  case_decide; [|by intros [= <-]].
  unfold recover, bind.
  destruct (Decode_raw_cases (setStream s1 b)) as [[b1 Hr] | [b1 Hr]]; rewrite Hr.
  2:{ apply Decode_raw_panic in Hr as (Hp & Hs1 & _). intros [= <-]. simpl in *.
      split; congruence. }
  pose proof (Decode_raw_packets _ _ Hr) as (Hpk & _ & _).
  apply Decode_raw_session in Hr as (Hsame & _ & _). simpl in *.
  rewrite Hs in Hsame. destruct (session b1) as [?|] eqn:Hs1; [done|].
  rewrite Decode_records_unfold.
  destruct (zlib_inflate L (raw b1)) as [|out failed].
  { intros [= <-]. simpl. split; congruence. }
  destruct failed; [intros [= <-]; simpl; split; congruence|].
  unfold bind.
  pose proof (readRecords_packets L fuel [] (setStream (mkStream out 0) (setRaw out b1))) as Hfr.
  destruct (readRecords L fuel [] _) as [recs b2|b2|]; [| |done].
  - destruct Hfr as (Hp2 & _ & Hs2). simpl in *.
    destruct (fetchPackets_nil_session recs b2) as [-> | ->]; [congruence| |];
      intros [= <-]; simpl; split; congruence.
  - destruct Hfr as (Hp2 & _ & Hs2). simpl in *.
    intros [= <-]. simpl. split; congruence.
Qed.

Lemma fetchPackets_session recs b b' :
  fetchPackets recs b = Ok tt b' -> session b' = session b.
Proof.
  destruct (session b) as [s|] eqn:Hs.
  - rewrite (fetchPackets_eq recs b s Hs). by intros [= <-].
  - destruct (fetchPackets_nil_session recs b Hs) as [-> | ->]; [|done].
    intros [= <-]. done.
Qed.

(** X6: [Decode] leaves the session as it found it, but for the receive IV: the
    ciphers, the send IV, the secret and the registry are the same
    afterwards, and a batch that needs no decryption does not touch the
    session at all. *)
Theorem Decode_changes_only_recv_iv fuel b b' :
  Decode L fuel b = Ok tt b' ->
  sameButRecvIV (session b) (session b')
  /\ (needsEncryption b = false -> session b' = session b)
  /\ needsEncryption b' = needsEncryption b.
Proof.
  rewrite Decode_unfold.
  destruct (GetByte L (stream b)) as [[m s1]|];
    [|intros [= <-]; simpl; split_and!; [apply sameButRecvIV_refl | done..]].
  case_decide;
    [|intros [= <-]; simpl; split_and!; [apply sameButRecvIV_refl | done..]].
  unfold recover, bind.
  destruct (Decode_raw_cases (setStream s1 b)) as [[b1 Hr] | [b1 Hr]]; rewrite Hr.
  2:{ apply Decode_raw_panic in Hr as (_ & Hs1 & Hn1). intros [= <-].
      simpl in *. rewrite Hs1. split_and!; [apply sameButRecvIV_refl | done | done]. }
  apply Decode_raw_session in Hr as (Hsame & Hplain & Hne). simpl in *.
  assert (forall c, session c = session b1 -> needsEncryption c = needsEncryption b1 ->
            sameButRecvIV (session b) (session c)
            /\ (needsEncryption b = false -> session c = session b)
            /\ needsEncryption c = needsEncryption b) as Hfin.
  { intros c Hc Hnc. rewrite Hc, Hnc. split_and!; [done| |done].
    intros Hf. by apply Hplain. }
  rewrite Decode_records_unfold.
  destruct (zlib_inflate L (raw b1)) as [|out failed].
  { intros [= <-]. by apply Hfin. }
  destruct failed; [intros [= <-]; by apply Hfin|].
  unfold bind.
  pose proof (readRecords_packets L fuel [] (setStream (mkStream out 0) (setRaw out b1))) as Hfr.
  assert (forall fuel acc c,
            match readRecords L fuel acc c with
            | Ok _ c' | Panic c' => needsEncryption c' = needsEncryption c
            | OutOfFuel => True
            end) as Hne2.
  { clear. induction fuel as [|fuel IH]; intros acc c; simpl; [done|].
    unfold bind, get, modify, ret, panic.
    destruct (Feof L (stream c)); [done|].
    destruct (GetLengthPrefixedBytes L (stream c)) as [[rec s']|]; [|done].
    apply (IH (acc ++ [rec]) (setStream s' c)). }
  specialize (Hne2 fuel [] (setStream (mkStream out 0) (setRaw out b1))).
  destruct (readRecords L fuel [] _) as [recs b2|b2|]; [| |done].
  - destruct Hfr as (_ & _ & Hs2). simpl in *.
    destruct (fetchPackets recs b2) as [[] b3|b3|] eqn:Hf; [| |done].
    + intros [= <-]. apply Hfin.
      * apply fetchPackets_session in Hf. congruence.
      * destruct (session b2) as [s|] eqn:Hsb2.
        -- rewrite (fetchPackets_eq recs b2 s Hsb2) in Hf. injection Hf as <-. done.
        -- destruct (fetchPackets_nil_session recs b2 Hsb2) as [He | He];
             rewrite He in Hf; [injection Hf as <-; done | done].
    + apply fetchPackets_panic in Hf as [_ ->]. intros [= <-]. by apply Hfin.
  - destruct Hfr as (_ & _ & Hs2). simpl in *. intros [= <-]. by apply Hfin.
Qed.

Lemma readRecords_by_stream fuel : forall acc b1 b2,
  stream b1 = stream b2 ->
  match readRecords L fuel acc b1, readRecords L fuel acc b2 with
  | Ok r1 _, Ok r2 _ => r1 = r2
  | Panic _, Panic _ => True
  | OutOfFuel, OutOfFuel => True
  | _, _ => False
  end.
Proof.
  induction fuel as [|fuel IH]; intros acc b1 b2 Hst; simpl; [done|].
  unfold bind, get, modify, ret, panic. rewrite <- Hst.
  destruct (Feof L (stream b1)); [done|].
  destruct (GetLengthPrefixedBytes L (stream b1)) as [[rec s']|]; [|done].
  by apply IH.
Qed.

Lemma recordsOf_Some fuel payload recs b :
  recordsOf L fuel payload = Some recs ->
  stream b = mkStream payload 0 ->
  exists b2, readRecords L fuel [] b = Ok recs b2
             /\ packets b2 = packets b /\ logged b2 = logged b
             /\ session b2 = session b /\ needsEncryption b2 = needsEncryption b.
Proof.
  unfold recordsOf. intros Hrec Hst.
  pose proof (readRecords_by_stream fuel []
                (mkBatch (mkStream payload 0) [] [] None false []) b) as Hby.
  pose proof (readRecords_packets L fuel [] b) as Hfr.
  destruct (readRecords L fuel [] (mkBatch _ _ _ _ _ _)) as [r1 c1| |]; [|done..].
  injection Hrec as ->.
  destruct (readRecords L fuel [] b) as [r2 b2| |] eqn:Hr;
    [|by specialize (Hby (eq_sym Hst))..].
  specialize (Hby (eq_sym Hst)). subst r2. destruct Hfr as (? & ? & ?).
  exists b2. split_and!; try done.
  clear -Hr. revert Hr. generalize (@nil (list byte)). revert b.
  induction fuel as [|fuel IH]; intros b acc; simpl; [done|].
  unfold bind, get, modify, ret, panic.
  destruct (Feof L (stream b)); [by intros [= _ <-]|].
  destruct (GetLengthPrefixedBytes L (stream b)) as [[rec s']|]; [|done].
  intros Hr. by apply IH in Hr.
Qed.

Lemma omap_known s ps :
  Forall (knownTo L s) ps ->
  omap (recordPacket (IsPacketRegistered s)) (map (EncodedBuffer L) ps)
    = map (received L) ps
  /\ omap (recordUnknown (IsPacketRegistered s)) (map (EncodedBuffer L) ps) = [].
Proof.
  induction 1 as [|p ps (packetId & rest & Hbuf & Hreg) _ [IH1 IH2]]; [done|].
  simpl. unfold recordPacket at 1, recordUnknown at 1, received at 1.
  rewrite Hbuf, Hreg. simpl. split; [f_equal; exact IH1 | exact IH2].
Qed.

(** The records part of [Decode] on a body that inflates to [payload], when
    the record loop splits [payload] into the encoded packets [ps]. *)
Lemma Decode_records_roundtrip fuel st s ps payload :
  session st = Some s ->
  zlib_inflate L (raw st) = ZlibRead payload false ->
  recordsOf L fuel payload = Some (map (EncodedBuffer L) ps) ->
  Forall (knownTo L s) ps ->
  exists b', recover (Decode_records L fuel) st = Ok tt b'
             /\ packets b' = packets st ++ map (received L) ps
             /\ logged b' = logged st
             /\ session b' = session st.
Proof.
  intros Hs Hz Hrec Hknown. unfold recover.
  rewrite Decode_records_unfold, Hz. unfold bind.
  destruct (recordsOf_Some fuel payload _
              (setStream (mkStream payload 0) (setRaw payload st)) Hrec eq_refl)
    as (b2 & -> & Hp2 & Hl2 & Hs2 & _).
  simpl in *. rewrite Hs in Hs2.
  rewrite (fetchPackets_eq _ b2 s Hs2).
  destruct (omap_known s ps Hknown) as [-> ->].
  eexists. split; [done|]. simpl. rewrite app_nil_r. split_and!; congruence.
Qed.

Lemma encrypt_ok d b s ds c iv' :
  session b = Some s -> Data s = Some ds ->
  encryptBytes (EncryptCipher ds) (EncryptIV ds) (d ++ (ComputeSendChecksum L ds d).1)
    = Some (c, iv') ->
  encrypt L d b =
  Ok c (setSession
          (Some (mkSession
                   (Some (mkEncryptionData (EncryptCipher ds) (DecryptCipher ds)
                            iv' (DecryptIV ds) (SharedSecret ds)
                            (SendCounter ds + 1)%Z))
                   (IsPacketRegistered s))) b).
Proof.
  intros Hs Hds He. unfold encrypt. rewrite Hs, Hds.
  unfold ComputeSendChecksum in *.
  cbn [EncryptCipher EncryptIV DecryptCipher DecryptIV SharedSecret SendCounter fst] in *.
  by rewrite He.
Qed.

(** X7: A batch sent with the cipher layer comes out the same at the other end:
    with the same key and IV at both ends, and libraries under which the
    compressed payload followed by the checksum inflates back to the payload
    and the record loop splits the payload into the encoded packets,
    [Decode] of what [Encode] produced yields the packets in order, logs
    nothing, and leaves the receive IV equal to the sender's send IV, so the
    two ends stay in step for the next batch. *)
Theorem Encode_Decode_encrypted fuel ps ss sr ds dr :
  readsFirstByte L ->
  Data ss = Some ds -> Data sr = Some dr ->
  DecryptCipher dr = EncryptCipher ds ->
  DecryptIV dr = EncryptIV ds ->
  length (EncryptIV ds) = BlockSize (EncryptCipher ds) ->
  0 < BlockSize (EncryptCipher ds) ->
  zlib_inflate L
    (zlib_compress L (putPackets L (sendingOn ss true ps))
     ++ (ComputeSendChecksum L ds
           (zlib_compress L (putPackets L (sendingOn ss true ps)))).1)
    = ZlibRead (putPackets L (sendingOn ss true ps)) false ->
  recordsOf L fuel (putPackets L (sendingOn ss true ps))
    = Some (map (EncodedBuffer L) ps) ->
  Forall (knownTo L sr) ps ->
  exists bs' br',
    Encode L (sendingOn ss true ps) = Ok tt bs'
    /\ Decode L fuel (receivingOn sr (Buffer (stream bs'))) = Ok tt br'
    /\ packets br' = map (received L) ps
    /\ logged br' = []
    /\ is_Some (recvIV br') /\ recvIV br' = sendIV bs'.
Proof.
  intros Hfirst Hds Hdr Hkey Hiv Hlen Hpos Hz Hrec Hknown.
  set (z := zlib_compress L (putPackets L (sendingOn ss true ps))) in *.
  set (sum := (ComputeSendChecksum L ds z).1) in *.
  destruct (encryptBytes_total (EncryptCipher ds) (z ++ sum) (EncryptIV ds) Hlen Hpos)
    as (c & iv' & He & _ & _).
  pose proof (decrypt_encrypt_bytes _ _ _ _ _ He) as Hd.
  rewrite <- Hkey, <- Hiv in Hd.
  assert (Encode L (sendingOn ss true ps)
          = Ok tt (mkBatch (mkStream (McpeFlag :: c) 0) [] ps
                     (Some (mkSession
                              (Some (mkEncryptionData (EncryptCipher ds) (DecryptCipher ds)
                                       iv' (DecryptIV ds) (SharedSecret ds)
                                       (SendCounter ds + 1)%Z))
                              (IsPacketRegistered ss)))
                     true [])) as HE.
  { unfold Encode, bind, modify, get, compress.
    cbn [needsEncryption sendingOn setPackets setStream NewMinecraftPacketBatch].
    fold (sendingOn ss true ps). fold z.
    erewrite encrypt_ok; [reflexivity | reflexivity | exact Hds | exact He]. }
  set (st := mkBatch (mkStream (McpeFlag :: z ++ sum) 1) (z ++ sum) []
               (Some (mkSession
                        (Some (mkEncryptionData (EncryptCipher dr) (DecryptCipher dr)
                                 (EncryptIV dr) iv' (SharedSecret dr) (SendCounter dr)))
                        (IsPacketRegistered sr)))
               true []).
  destruct (Decode_records_roundtrip fuel st _ ps _ eq_refl Hz Hrec Hknown)
    as (b' & Hb' & Hp & Hl & Hs).
  rewrite HE. eexists _, b'. split; [reflexivity|]. simpl.
  rewrite Decode_unfold. unfold receivingOn, NewMinecraftPacketBatch, SetBuffer.
  simpl. rewrite Hfirst, decide_True by done.
  assert (forall k, recover (bind Decode_raw k)
                      (setStream (mkStream (McpeFlag :: c) 1)
                         (mkBatch (mkStream (McpeFlag :: c) 0) [] [] (Some sr) true []))
                    = recover (k tt) st) as Hraw.
  { intros k. unfold recover, bind at 1, Decode_raw, bind, get, modify. simpl.
    unfold decrypt. simpl. rewrite drop_0, Hdr, Hd. done. }
  rewrite Hraw. split; [exact Hb'|].
  unfold recvIV, sendIV. rewrite Hs. simpl.
  split_and!; done.
Qed.

(** X8: The same without the cipher layer: [Decode] of what [Encode] produced
    yields the packets in order, logs nothing and leaves the session as it
    was. *)
Theorem Encode_Decode_plain fuel ps ss sr :
  readsFirstByte L ->
  zlib_inflate L (zlib_compress L (putPackets L (sendingOn ss false ps)))
    = ZlibRead (putPackets L (sendingOn ss false ps)) false ->
  recordsOf L fuel (putPackets L (sendingOn ss false ps))
    = Some (map (EncodedBuffer L) ps) ->
  Forall (knownTo L sr) ps ->
  exists bs' br',
    Encode L (sendingOn ss false ps) = Ok tt bs'
    /\ session bs' = Some ss
    /\ Decode L fuel (plainReceivingOn sr (Buffer (stream bs'))) = Ok tt br'
    /\ packets br' = map (received L) ps
    /\ logged br' = []
    /\ session br' = Some sr.
Proof.
  intros Hfirst Hz Hrec Hknown.
  set (z := zlib_compress L (putPackets L (sendingOn ss false ps))) in *.
  assert (Encode L (sendingOn ss false ps)
          = Ok tt (mkBatch (mkStream (McpeFlag :: z) 0) [] ps (Some ss) false [])) as HE.
  { unfold Encode, bind, modify, get, compress, ret. simpl. by fold z. }
  set (st := mkBatch (mkStream (McpeFlag :: z) 1) z [] (Some sr) false []).
  destruct (Decode_records_roundtrip fuel st _ ps _ eq_refl Hz Hrec Hknown)
    as (b' & Hb' & Hp & Hl & Hs).
  rewrite HE. eexists _, b'. split; [reflexivity|]. split; [reflexivity|]. simpl.
  rewrite Decode_unfold. unfold plainReceivingOn, NewMinecraftPacketBatch, SetBuffer.
  simpl. rewrite Hfirst, decide_True by done.
  assert (forall k, recover (bind Decode_raw k)
                      (setStream (mkStream (McpeFlag :: z) 1)
                         (mkBatch (mkStream (McpeFlag :: z) 0) [] [] (Some sr) false []))
                    = recover (k tt) st) as Hraw.
  { intros k. unfold recover, bind at 1, Decode_raw, bind, get, modify, ret. simpl.
    by rewrite drop_0. }
  rewrite Hraw. by split_and!.
Qed.

Lemma fetchPackets_not_OutOfFuel recs : forall b, fetchPackets recs b <> OutOfFuel.
Proof.
  induction recs as [|data recs IH]; intros b; simpl; [done|].
  destruct data as [|packetId data]; [by apply IH|].
  unfold bind, get, modify, panic.
  destruct (session b) as [s|]; [|done].
  destruct (IsPacketRegistered s packetId); apply IH.
Qed.

(** X9: [Decode] returns: with a stream reader that moves forward on every read,
    the record loop ends, so for every batch there is an amount of fuel from
    which on the call returns normally. *)
Theorem Decode_returns b :
  readerAdvances L ->
  exists n, forall fuel, n <= fuel -> exists b', Decode L fuel b = Ok tt b'.
Proof.
  intros Hadv.
  destruct (GetByte L (stream b)) as [[m s1]|] eqn:Hg.
  2:{ exists 0. intros fuel _. rewrite Decode_unfold, Hg. by eexists. }
  destruct (decide (m = McpeFlag)) as [Hm|Hm].
  2:{ exists 0. intros fuel _. rewrite Decode_unfold, Hg, decide_False by done.
      by eexists. }
  destruct (Decode_raw_cases (setStream s1 b)) as [[b1 Hr] | [b1 Hr]].
  2:{ exists 0. intros fuel _. rewrite Decode_unfold, Hg, decide_True by done.
      unfold recover, bind. rewrite Hr. by eexists. }
  destruct (zlib_inflate L (raw b1)) as [|out failed] eqn:Hz.
  { exists 0. intros fuel _. rewrite Decode_unfold, Hg, decide_True by done.
    unfold recover, bind. rewrite Hr, Decode_records_unfold, Hz. by eexists. }
  destruct failed.
  { exists 0. intros fuel _. rewrite Decode_unfold, Hg, decide_True by done.
    unfold recover, bind. rewrite Hr, Decode_records_unfold, Hz. by eexists. }
  exists (S (length out)). intros fuel Hfuel.
  rewrite Decode_unfold, Hg, decide_True by done.
  unfold recover, bind at 1. rewrite Hr, Decode_records_unfold, Hz. unfold bind.
  pose proof (readRecords_fuel L Hadv fuel []
                (setStream (mkStream out 0) (setRaw out b1))) as Hne.
  destruct (readRecords L fuel [] _) as [recs b2|b2|];
    [| by eexists | exfalso; apply Hne; [simpl; lia | done]].
  pose proof (fetchPackets_not_OutOfFuel recs b2) as Hf.
  destruct (fetchPackets recs b2) as [[] b3|b3|]; [by eexists | by eexists | done].
Qed.

End WithLibs.
End BatchMore.

(** ** Facts about the session manager *)
Module ManagerFacts.
Import Manager.

Lemma elem_of_without s t l : t ∈ without s l <-> t ∈ l /\ t <> s.
Proof. unfold without. rewrite list_elem_of_filter. tauto. Qed.

Lemma keysApart_sym s t : keysApart s t -> keysApart t s.
Proof. unfold keysApart. intros (? & ? & ? & ?). by repeat split. Qed.

(** One index, keyed by [key]: storing [s] under its key keeps the index
    exact when no other live session has that key. *)
Lemma insert_index `{Countable K} (key : MinecraftSession -> K)
  (l : list MinecraftSession) (m : gmap K MinecraftSession) s :
  (forall t, m !! key t = Some t <-> t ∈ l) ->
  (forall k t, m !! k = Some t -> t ∈ l /\ key t = k) ->
  (forall t, t ∈ l -> t <> s -> key t <> key s) ->
  (forall t, <[key s := s]> m !! key t = Some t <-> t ∈ s :: without s l) /\
  (forall k t, <[key s := s]> m !! k = Some t -> t ∈ s :: without s l /\ key t = k).
Proof.
  intros Hex Hst Hfree. split.
  - intros t. rewrite elem_of_cons, elem_of_without, lookup_insert_Some, Hex.
    split.
    + intros [[_ <-] | [_ Ht]]; [by left|].
      destruct (decide (t = s)) as [->|]; [by left | by right].
    + intros [-> | [Ht Hne]]; [by left|]. right. split; [|done].
      intros Hk. by apply (Hfree t).
  - intros k t. rewrite lookup_insert_Some, elem_of_cons, elem_of_without.
    intros [[<- <-] | [Hk Hl]]; [by split; [left|]|].
    apply Hst in Hl as [Ht <-]. split; [|done].
    right. split; [done|]. by intros ->.
Qed.

(** Deleting the key of [s] keeps the index exact under the same condition. *)
Lemma delete_index `{Countable K} (key : MinecraftSession -> K)
  (l : list MinecraftSession) (m : gmap K MinecraftSession) s :
  (forall t, m !! key t = Some t <-> t ∈ l) ->
  (forall k t, m !! k = Some t -> t ∈ l /\ key t = k) ->
  (forall t, t ∈ l -> t <> s -> key t <> key s) ->
  (forall t, delete (key s) m !! key t = Some t <-> t ∈ without s l) /\
  (forall k t, delete (key s) m !! k = Some t -> t ∈ without s l /\ key t = k).
Proof.
  intros Hex Hst Hfree. split.
  - intros t. rewrite elem_of_without, lookup_delete_Some, Hex. split.
    + intros [Hk Ht]. split; [done|]. by intros ->.
    + intros [Ht Hne]. split; [|done]. intros Hk. by apply (Hfree t).
  - intros k t. rewrite lookup_delete_Some, elem_of_without.
    intros [Hk Hl]. apply Hst in Hl as [Ht <-]. split; [|done].
    split; [done|]. by intros ->.
Qed.

Lemma coherent_split l m :
  coherent l m <->
  ((forall t, nameMap m !! GetName t = Some t <-> t ∈ l) /\
   (forall k t, nameMap m !! k = Some t -> t ∈ l /\ GetName t = k)) /\
  ((forall t, uuidMap m !! GetUUID t = Some t <-> t ∈ l) /\
   (forall k t, uuidMap m !! k = Some t -> t ∈ l /\ GetUUID t = k)) /\
  ((forall t, xuidMap m !! GetXUID t = Some t <-> t ∈ l) /\
   (forall k t, xuidMap m !! k = Some t -> t ∈ l /\ GetXUID t = k)) /\
  ((forall t, sessionMap m !! GetSession t = Some t <-> t ∈ l) /\
   (forall k t, sessionMap m !! k = Some t -> t ∈ l /\ GetSession t = k)) /\
  noSharedKey l.
Proof.
  unfold coherent, exact, noStale. split.
  - intros (Hex & (H1 & H2 & H3 & H4) & Hns).
    split_and!; try done; intros t; apply (Hex t).
  - intros ((E1 & H1) & (E2 & H2) & (E3 & H3) & (E4 & H4) & Hns).
    by split_and!.
Qed.

(** The other live sessions are apart from a session that may be added or
    removed. *)
Lemma others_apart l s :
  noSharedKey l -> (s ∈ l \/ Forall (keysApart s) l) ->
  forall t, t ∈ l -> t <> s -> keysApart t s.
Proof.
  intros Hns [Hin | Hall] t Ht Hne.
  - by apply Hns.
  - apply keysApart_sym. rewrite Forall_forall in Hall. by apply Hall.
Qed.

Lemma coherent_empty : coherent [] NewSessionManager.
Proof.
  apply coherent_split. unfold NewSessionManager. simpl.
  split_and!; try (intros t; rewrite lookup_empty, elem_of_nil; by split);
    try (intros k t; by rewrite lookup_empty).
  intros a b Ha. by apply elem_of_nil in Ha.
Qed.

(** One admissible call keeps the indices coherent. *)
Lemma step_coherent l m o :
  coherent l m -> admissible l o -> coherent (liveStep l o) (step m o).
Proof.
  rewrite !coherent_split.
  intros ((E1 & H1) & (E2 & H2) & (E3 & H3) & (E4 & H4) & Hns) Hadm.
  destruct o as [s | [s|]]; simpl in *; [| |done].
  - destruct Hadm as [Hname Hall].
    pose proof (others_apart l s Hns (or_intror Hall)) as Hap.
    split; [apply insert_index; [done..|]; intros t Ht Hne; by apply (Hap t)|].
    split; [apply insert_index; [done..|]; intros t Ht Hne; by apply (Hap t)|].
    split; [apply insert_index; [done..|]; intros t Ht Hne; by apply (Hap t)|].
    split; [apply insert_index; [done..|]; intros t Ht Hne; by apply (Hap t)|].
    intros a b. rewrite !elem_of_cons, !elem_of_without.
    intros [-> | [Ha Hna]] [-> | [Hb Hnb]] Hab; [done | | | by apply Hns].
    + apply keysApart_sym. by apply Hap.
    + by apply Hap.
  - destruct Hadm as [Hname Hor].
    pose proof (others_apart l s Hns Hor) as Hap. rewrite <- Hname.
    split; [apply delete_index; [done..|]; intros t Ht Hne; by apply (Hap t)|].
    split; [apply delete_index; [done..|]; intros t Ht Hne; by apply (Hap t)|].
    split; [apply delete_index; [done..|]; intros t Ht Hne; by apply (Hap t)|].
    split; [apply delete_index; [done..|]; intros t Ht Hne; by apply (Hap t)|].
    intros a b. rewrite !elem_of_without. intros [Ha _] [Hb _]. by apply Hns.
Qed.

Lemma run_coherent ops : forall l m,
  coherent l m -> disciplined l ops ->
  coherent (foldl liveStep l ops) (run ops m).
Proof.
  induction ops as [|o ops IH]; intros l m Hc Hd; simpl in *; [done|].
  destruct Hd as [Hadm Hd]. apply IH; [|done]. by apply step_coherent.
Qed.

(** C3 (amended): after any sequence of [AddMinecraftSession] and
    [RemoveMinecraftSession] calls that keeps to the calling discipline --
    [GetName] and the player's name agree, a session is added only while none
    of its four keys is used by a live session, a removed session is live or
    shares no key with a live one -- each of the four indices holds exactly
    the live sessions under their keys and no two live sessions share a key. *)
Theorem disciplined_coherent ops :
  disciplined [] ops -> coherent (live ops) (run ops NewSessionManager).
Proof. intros Hd. apply run_coherent; [apply coherent_empty | done]. Qed.

End ManagerFacts.

(** ** More on the session manager: lookups, undoing, counting *)
Module ManagerMore.
Import Manager.

(** After [AddMinecraftSession(s)] each of the four lookups finds [s] under
    its key, whatever was stored there before, and every other key of every
    index still leads where it led. *)
Theorem Add_then_found s m :
  let m' := AddMinecraftSession s m in
  GetSessionByName (GetName s) m' = Some s
  /\ GetSessionByUUID (GetUUID s) m' = Some s
  /\ GetSessionByXUID (GetXUID s) m' = Some s
  /\ GetSessionByRakNetSession (GetSession s) m' = Some s
  /\ (forall name, name <> GetName s ->
        GetSessionByName name m' = GetSessionByName name m)
  /\ (forall u, u <> GetUUID s -> GetSessionByUUID u m' = GetSessionByUUID u m)
  /\ (forall x, x <> GetXUID s -> GetSessionByXUID x m' = GetSessionByXUID x m)
  /\ (forall r, r <> GetSession s ->
        GetSessionByRakNetSession r m' = GetSessionByRakNetSession r m).
Proof.
  unfold GetSessionByName, GetSessionByUUID, GetSessionByXUID,
    GetSessionByRakNetSession, AddMinecraftSession. simpl.
  split_and!; try apply lookup_insert_eq; intros k Hk; by rewrite lookup_insert_ne.
Qed.

(** X10: Removing a session right after adding it gives the manager back, provided
    none of its keys was in use and its two names agree. *)
Theorem Remove_undoes_Add s m :
  GetName s = GetPlayerName s ->
  nameMap m !! GetName s = None ->
  uuidMap m !! GetUUID s = None ->
  xuidMap m !! GetXUID s = None ->
  sessionMap m !! GetSession s = None ->
  RemoveMinecraftSession (Some s) (AddMinecraftSession s m) = m.
Proof.
  intros Hname H1 H2 H3 H4. destruct m as [nm um xm sm]. simpl in *.
  unfold AddMinecraftSession. simpl. rewrite <- Hname.
  rewrite !delete_insert_eq, !delete_id by done. done.
Qed.

(** X11: [AddMinecraftSession] files a session under [GetName()] but
    [RemoveMinecraftSession] deletes [GetPlayer().GetName()]: when the two
    differ, removing the session takes it out of the UUID, XUID and transport
    indices and leaves it in the name index, where [GetSession] still finds
    it and [GetSessionCount] still counts it. *)
Theorem Remove_misses_renamed s m :
  GetName s <> GetPlayerName s ->
  let m' := RemoveMinecraftSession (Some s) (AddMinecraftSession s m) in
  GetSessionByName (GetName s) m' = Some s
  /\ HasSession (GetName s) m' = true
  /\ GetSessionByUUID (GetUUID s) m' = None
  /\ GetSessionByXUID (GetXUID s) m' = None
  /\ GetSessionByRakNetSession (GetSession s) m' = None
  /\ 0 < GetSessionCount m'.
Proof.
  intros Hne. unfold GetSessionByName, GetSessionByUUID, GetSessionByXUID,
    GetSessionByRakNetSession, HasSession, GetSessionCount. simpl.
  assert (delete (GetPlayerName s) (<[GetName s:=s]> (nameMap m)) !! GetName s = Some s)
    as Hfound.
  { rewrite lookup_delete_ne by done. apply lookup_insert_eq. }
  split_and!; try apply lookup_delete_eq; try done.
  - rewrite Hfound. by apply bool_decide_eq_true.
  - destruct (decide (size (delete (GetPlayerName s) (<[GetName s:=s]> (nameMap m))) = 0))
      as [Hz|]; [|lia].
    apply map_size_empty_iff in Hz. rewrite Hz, lookup_empty in Hfound. done.
Qed.

(** X12: [GetSessionCount] is the size of the name index alone: adding a session
    raises it by one exactly when the name was free (a session stored under
    the same name is replaced, not counted twice), and removing lowers it by
    one exactly when the player's name was stored. *)
Theorem count_follows_names s m :
  GetSessionCount (AddMinecraftSession s m)
    = (if HasSession (GetName s) m then GetSessionCount m else S (GetSessionCount m))
  /\ GetSessionCount (RemoveMinecraftSession (Some s) m)
    = (if HasSession (GetPlayerName s) m then pred (GetSessionCount m)
       else GetSessionCount m)
  /\ GetSessionCount (RemoveMinecraftSession None m) = GetSessionCount m.
Proof.
  unfold GetSessionCount, HasSession. simpl.
  rewrite map_size_insert, map_size_delete. split_and!; [| |done].
  - by destruct (nameMap m !! GetName s).
  - by destruct (nameMap m !! GetPlayerName s).
Qed.

End ManagerMore.

(** ** Facts about login *)
Module LoginFacts.
Import Manager Login LoginSpec.

Local Open Scope string_scope.

Section WithCrypto.
Context (C : Crypto).

(** One turn of the loop, in the vocabulary of [LoginSpec]. *)
Lemma verifyLoop_cons i carried auth chain rest :
  verifyLoop C i carried auth (chain :: rest) =
  if decide (designated carried chain = "") then Returned false auth None
  else
    match ParsePKIXPublicKey C (base64_decode C (designated carried chain)) with
    | ParseError => Returned false auth None
    | ParsedOther => AssertionPanic
    | ParsedECDSA _ =>
        if negb (signatureOK C (designated carried chain) chain)
        then Returned false auth None
        else
          let auth' :=
            if decide (designated carried chain = MojangPublicKey C) then true else auth in
          if timeRejected (Payload chain) (now C i)
          then Returned false auth' None
          else verifyLoop C (S i) (IdentityPublicKey (Payload chain)) auth' rest
    end.
Proof.
  unfold designated, signatureOK. cbn [verifyLoop].
  destruct (decide (carried = "")) as [->|Hc].
  - destruct (decide (X5u (Header chain) = "")) as [Hx|Hx].
    + by rewrite decide_True.
    + rewrite decide_False by (intros [_ ?]; done).
      by destruct (ParsePKIXPublicKey C _).
  - rewrite decide_False by (intros [? _]; done).
    rewrite (decide_False (P := carried = "")) by done.
    by destruct (ParsePKIXPublicKey C _).
Qed.

Lemma tokenPasses_true i carried chain :
  tokenPasses C i carried chain = true <->
  designated carried chain <> "" /\
  signatureOK C (designated carried chain) chain = true /\
  timeRejected (Payload chain) (now C i) = false.
Proof.
  unfold tokenPasses. rewrite !andb_true_iff, bool_decide_eq_true, negb_true_iff.
  tauto.
Qed.

Lemma checked_cons_inv i carried t0 rest t k :
  checked C i carried (t0 :: rest) t k ->
  (t = t0 /\ k = designated carried t0 /\ designated carried t0 <> "") \/
  (tokenPasses C i carried t0 = true /\
   checked C (S i) (IdentityPublicKey (Payload t0)) rest t k).
Proof. inversion 1; subst; [by left | by right]. Qed.

Lemma checked_elem i carried chains t k :
  checked C i carried chains t k -> t ∈ chains.
Proof.
  induction 1; [apply list_elem_of_here | by apply list_elem_of_further].
Qed.

(** The flag returned is the flag carried in, or was raised by a token that
    the loop checked under the Mojang key. *)
Lemma verifyLoop_authenticated chains : forall i carried auth s a k,
  verifyLoop C i carried auth chains = Returned s a k ->
  (a = true <->
   auth = true \/
   exists t, checked C i carried chains t (MojangPublicKey C) /\ signedByMojang C t).
Proof.
  induction chains as [|chain rest IH]; intros i carried auth s a k.
  - simpl. unfold verifyFinish.
    destruct (ParsePKIXPublicKey C _); intros [= <- <- <-]; split; try tauto;
      intros [?|(t & Hch & _)]; try done; inversion Hch.
  - rewrite verifyLoop_cons.
    assert (forall P : Prop,
              (signatureOK C (designated carried chain) chain = true ->
               timeRejected (Payload chain) (now C i) = false -> False) ->
              (designated carried chain = MojangPublicKey C ->
               designated carried chain <> "" ->
               signatureOK C (designated carried chain) chain = true -> P) ->
              (exists t, checked C i carried (chain :: rest) t (MojangPublicKey C)
                         /\ signedByMojang C t) -> P) as Hstop.
    { intros P Hno Hhere (t & Hch & Hsig).
      apply checked_cons_inv in Hch as [(-> & Hk & Hne) | (Hpass & _)].
      - apply Hhere; [done | done |]. unfold signedByMojang in Hsig. congruence.
      - exfalso. apply tokenPasses_true in Hpass as (_ & ? & ?). by apply Hno. }
    case_decide as Hd.
    { intros [= <- <- <-]. split; [tauto|]. intros [?|Hex]; [done|].
      destruct Hex as (t & Hch & _).
      apply checked_cons_inv in Hch as [(_ & _ & Hne) | (Hpass & _)]; [done|].
      apply tokenPasses_true in Hpass as (? & _). done. }
    destruct (ParsePKIXPublicKey C (base64_decode C (designated carried chain)))
      as [|pk|] eqn:Hparse; [| |done].
    { intros [= <- <- <-]. split; [tauto|]. intros [?|Hex]; [done|].
      apply (Hstop _); [| |exact Hex].
      - unfold signatureOK. by rewrite Hparse.
      - unfold signatureOK. rewrite Hparse. done. }
    destruct (signatureOK C (designated carried chain) chain) eqn:Hsig; simpl.
    2:{ intros [= <- <- <-]. split; [tauto|]. intros [?|Hex]; [done|].
        apply (Hstop _); [done | done | exact Hex]. }
    destruct (timeRejected (Payload chain) (now C i)) eqn:Htime.
    { intros [= <- <- <-]. case_decide as Hm.
      - split; [|done]. intros _. right. exists chain. split.
        + rewrite <- Hm. by constructor.
        + unfold signedByMojang. by rewrite <- Hm.
      - split; [tauto|]. intros [?|Hex]; [done|].
        apply (Hstop _); [done | done | exact Hex]. }
    intros Hrest. apply IH in Hrest. rewrite Hrest. clear Hrest.
    split.
    + intros [Hauth | (t & Hch & Hs)].
      * case_decide as Hm; [|by left]. right. exists chain. split.
        -- rewrite <- Hm. by constructor.
        -- unfold signedByMojang. by rewrite <- Hm.
      * right. exists t. split; [|done]. apply checked_later; [|done].
        by apply tokenPasses_true.
    + intros [Hauth | (t & Hch & Hs)].
      * left. by case_decide.
      * apply checked_cons_inv in Hch as [(-> & Hk & Hne) | (Hpass & Hch)].
        -- left. rewrite decide_True; done.
        -- right. by exists t.
Qed.

(** In a call that returns success every token passed, so a token that was
    checked under a key verifies under it. *)
Lemma verifyLoop_success chains : forall i carried auth a k t key,
  verifyLoop C i carried auth chains = Returned true a k ->
  checked C i carried chains t key ->
  signatureOK C key t = true.
Proof.
  induction chains as [|chain rest IH]; intros i carried auth a k t key Hv Hch;
    [inversion Hch|].
  rewrite verifyLoop_cons in Hv.
  case_decide; [done|].
  destruct (ParsePKIXPublicKey C _); [done| |done].
  destruct (signatureOK C (designated carried chain) chain) eqn:Hsig; [|done].
  simpl in Hv. destruct (timeRejected _ _); [done|].
  apply checked_cons_inv in Hch as [(-> & -> & Hne) | (Hpass & Hch)]; [done|].
  by eapply IH.
Qed.

(** The call returns unless a key of another algorithm turns up. *)
Lemma VerifyLoginRequest_returns chains :
  (forall b, ParsePKIXPublicKey C b <> ParsedOther) ->
  exists s a k, VerifyLoginRequest C chains = Returned s a k.
Proof.
  intros Hno. unfold VerifyLoginRequest.
  generalize 0 "" false.
  induction chains as [|chain rest IH]; intros i carried auth.
  - simpl. unfold verifyFinish. specialize (Hno (base64_decode C carried)).
    destruct (ParsePKIXPublicKey C _); [by eexists _, _, _ .. | done].
  - rewrite verifyLoop_cons. case_decide; [by eexists _, _, _|].
    specialize (Hno (base64_decode C (designated carried chain))).
    destruct (ParsePKIXPublicKey C _); [by eexists _, _, _ | | done].
    destruct (negb _); [by eexists _, _, _|]. simpl.
    destruct (timeRejected _ _); [by eexists _, _, _|]. apply IH.
Qed.

(** C7 (amended): the flag returned by [VerifyLoginRequest] is true exactly
    when some token that the verifier reaches -- every earlier token having
    passed its signature and time checks -- is designated the Mojang key by
    the chain (its own x5u if it is first, else the previous token's
    identityPublicKey) and verifies under it.  Hence a chain none of whose
    tokens is signed by the Mojang key gives false, and a chain that verifies
    successfully and designates the Mojang key for one of its tokens gives
    true.  A token signed by the Mojang key that the verifier does not reach,
    or checks under another key, does not raise the flag. *)
Theorem authenticated_iff_checked_under_Mojang chains s a k :
  VerifyLoginRequest C chains = Returned s a k ->
  (a = true <->
   exists t, checked C 0 "" chains t (MojangPublicKey C) /\ signedByMojang C t)
  /\ ((forall t, t ∈ chains -> ~ signedByMojang C t) -> a = false)
  /\ (s = true -> (exists t, checked C 0 "" chains t (MojangPublicKey C)) -> a = true).
Proof.
  intros Hv. pose proof (verifyLoop_authenticated _ _ _ _ _ _ _ Hv) as Hiff.
  assert (a = true <->
          exists t, checked C 0 "" chains t (MojangPublicKey C) /\ signedByMojang C t)
    as Hiff'.
  { rewrite Hiff. split; [intros [?|?]; done | by right]. }
  split; [exact Hiff'|]. split.
  - intros Hnone. destruct a; [|done]. exfalso.
    destruct (proj1 Hiff' eq_refl) as (t & Hch & Hs).
    apply (Hnone t); [by eapply checked_elem | done].
  - intros -> (t & Hch). apply Hiff'. exists t. split; [done|].
    by eapply verifyLoop_success.
Qed.

(** C10: an empty chain list is rejected.  No token is processed, the key
    string left for the final parse is empty, its decoding does not parse as
    a public key, and the call returns success=false, authenticated=false and
    a nil client key. *)
Theorem empty_chain_rejected :
  ParsePKIXPublicKey C (base64_decode C "") = ParseError ->
  VerifyLoginRequest C [] = Returned false false None.
Proof.
  intros Hparse. unfold VerifyLoginRequest. simpl. unfold verifyFinish.
  by rewrite Hparse.
Qed.

Section WithConstants.
Context (LatestProtocol StatusLoginSuccess : Z).

(** C6: a login packet whose username is already a key of the name index is
    turned away without a trace: the handler returns false, makes no call on
    the session, and leaves the manager as it was, so the session count is
    unchanged and the name still leads to the original session. *)
Theorem duplicate_login_rejected server lp session :
  is_Some (GetSessionByName (Username lp) (ServerSessionManager server)) ->
  exists o,
    LoginHandler C LatestProtocol StatusLoginSuccess server (IsLoginPacket lp) session
      = Some o
    /\ handled o = false
    /\ calls o = []
    /\ managerAfter o = ServerSessionManager server
    /\ GetSessionCount (managerAfter o) = GetSessionCount (ServerSessionManager server)
    /\ GetSessionByName (Username lp) (managerAfter o)
       = GetSessionByName (Username lp) (ServerSessionManager server).
Proof.
  intros [orig Horig]. unfold LoginHandler. rewrite Horig.
  eexists. by split_and!.
Qed.

(** C5 (amended): for a login packet whose username is not yet connected and
    whose protocol number differs from [LatestProtocol], the handler kicks
    the session -- "Outdated server." when the client's number is greater,
    "Outdated client." when it is smaller -- returns false and adds no
    session to the manager. *)
Theorem protocol_mismatch_kicked server lp session :
  GetSessionByName (Username lp) (ServerSessionManager server) = None ->
  Protocol lp <> LatestProtocol ->
  LoginHandler C LatestProtocol StatusLoginSuccess server (IsLoginPacket lp) session
  = Some (mkOutcome false
            [Kick (if (Protocol lp >? LatestProtocol)%Z
                   then "Outdated server." else "Outdated client.") false true]
            (ServerSessionManager server)).
Proof.
  intros Hnew Hne. unfold LoginHandler. rewrite Hnew.
  destruct (Protocol lp >? LatestProtocol)%Z eqn:Hgt; [done|].
  destruct (Protocol lp <? LatestProtocol)%Z eqn:Hlt; [done|]. lia.
Qed.

(** C2 (what the code does): when [VerifyLoginRequest] reports failure for a
    login packet that got past the duplicate and protocol checks, the handler
    writes one debug line and returns true.  No [Kick] is called and the
    manager is untouched. *)
Theorem invalid_chain_not_kicked server lp session authenticated key :
  GetSessionByName (Username lp) (ServerSessionManager server) = None ->
  Protocol lp = LatestProtocol ->
  VerifyLoginRequest C (Chains lp) = Returned false authenticated key ->
  exists o,
    LoginHandler C LatestProtocol StatusLoginSuccess server (IsLoginPacket lp) session
      = Some o
    /\ handled o = true
    /\ calls o = [LogDebug (Username lp) "has joined with invalid login data."]
    /\ ~ kicked o
    /\ managerAfter o = ServerSessionManager server.
Proof.
  intros Hnew Hp Hv. unfold LoginHandler. rewrite Hnew, Hp, Hv.
  rewrite Z.gtb_ltb, Z.ltb_irrefl. simpl.
  eexists. split_and!; try done.
  intros (reason & hide & srv & Hin). simpl in Hin.
  apply list_elem_of_singleton in Hin. done.
Qed.

End WithConstants.
End WithCrypto.
End LoginFacts.

(** ** More on login: success, time limits, panics, what the handler adds *)
Module LoginMore.
Import Manager Login LoginSpec LoginFacts LoginMoreSpec.

Local Open Scope string_scope.

Section WithCrypto.
Context (C : Crypto).

Lemma timeRejected_false p t :
  timeRejected p t = false <-> timesInOrder p t.
Proof.
  unfold timeRejected, timesInOrder.
  rewrite !orb_false_iff, andb_false_iff, negb_false_iff.
  rewrite Z.leb_gt, Z.eqb_eq, !Z.gtb_ltb, !Z.ltb_ge. lia.
Qed.

Lemma finalKey_cons carried t rest :
  finalKey carried (t :: rest) = finalKey (IdentityPublicKey (Payload t)) rest.
Proof.
  unfold finalKey. rewrite last_cons. by destruct (last rest).
Qed.

Lemma verifyLoop_result chains : forall i carried auth s a k,
  verifyLoop C i carried auth chains = Returned s a k ->
  (s = true ->
   passes C i carried chains = true /\
   exists key, k = Some key /\
     ParsePKIXPublicKey C (base64_decode C (finalKey carried chains)) = ParsedECDSA key)
  /\ (s = false ->
      k = None /\
      (passes C i carried chains = false \/
       ParsePKIXPublicKey C (base64_decode C (finalKey carried chains)) = ParseError)).
Proof.
  induction chains as [|chain rest IH]; intros i carried auth s a k.
  - simpl. unfold verifyFinish, finalKey. simpl.
    destruct (ParsePKIXPublicKey C _) eqn:Hp; intros [= <- <- <-]; split; try done.
    + intros _. split; [done|]. by right.
    + intros _. split; [done|]. by eexists.
  - rewrite verifyLoop_cons, finalKey_cons. cbn [passes].
    destruct (tokenPasses C i carried chain) eqn:Hpass.
    + apply tokenPasses_true in Hpass as (Hd & Hsig & Htime).
      rewrite decide_False by done. rewrite Hsig, Htime. simpl.
      unfold signatureOK in Hsig.
      destruct (ParsePKIXPublicKey C (base64_decode C (designated carried chain)));
        [done| |done].
      intros Hrest. by apply IH in Hrest.
    + assert (forall a', Returned false a' None = Returned s a k ->
                (s = true -> false && passes C (S i) (IdentityPublicKey (Payload chain)) rest = true
                   /\ exists key, k = Some key /\
                        ParsePKIXPublicKey C
                          (base64_decode C (finalKey (IdentityPublicKey (Payload chain)) rest))
                        = ParsedECDSA key)
                /\ (s = false -> k = None /\
                      (false && passes C (S i) (IdentityPublicKey (Payload chain)) rest = false
                       \/ ParsePKIXPublicKey C
                            (base64_decode C (finalKey (IdentityPublicKey (Payload chain)) rest))
                          = ParseError))) as Hfail.
      { intros a' [= <- <- <-]. split; [done|]. intros _. split; [done|]. by left. }
      case_decide as Hd; [by apply Hfail|].
      destruct (ParsePKIXPublicKey C (base64_decode C (designated carried chain)))
        as [|pk|] eqn:Hparse; [by apply Hfail| |done].
      destruct (signatureOK C (designated carried chain) chain) eqn:Hsig; simpl;
        [|by apply Hfail].
      destruct (timeRejected (Payload chain) (now C i)) eqn:Htime; simpl;
        [by apply Hfail|].
      exfalso. assert (tokenPasses C i carried chain = true) as Hyes.
      { by apply tokenPasses_true. }
      congruence.
Qed.

(** X13: [VerifyLoginRequest] reports success exactly for a chain all of whose
    tokens pass -- each has a designated key, verifies under it and is within
    its time limits -- and whose last identityPublicKey parses as an ECDSA
    key; that key is then the client key.  Without success the client key is
    nil. *)
Theorem success_means_all_pass chains s a k :
  VerifyLoginRequest C chains = Returned s a k ->
  (s = true <->
   passes C 0 "" chains = true /\
   exists key,
     ParsePKIXPublicKey C (base64_decode C (finalKey "" chains)) = ParsedECDSA key)
  /\ (s = true ->
      exists key, k = Some key /\
        ParsePKIXPublicKey C (base64_decode C (finalKey "" chains)) = ParsedECDSA key)
  /\ (s = false -> k = None).
Proof.
  intros Hv. apply verifyLoop_result in Hv as [Ht Hf].
  split_and!.
  - split.
    + intros Hs. destruct (Ht Hs) as (Hp & key & _ & Hk). split; [done|]. by exists key.
    + intros (Hp & key & Hk). destruct s; [done|].
      destruct (Hf eq_refl) as (_ & [Hno | Hno]); congruence.
  - intros Hs. by destruct (Ht Hs) as (_ & ?).
  - intros Hs. by destruct (Hf Hs).
Qed.

Lemma passes_times chains : forall i carried n t,
  passes C i carried chains = true ->
  chains !! n = Some t ->
  timesInOrder (Payload t) (now C (i + n)).
Proof.
  induction chains as [|t0 rest IH]; intros i carried n t Hp Hn; [done|].
  simpl in Hp. apply andb_true_iff in Hp as [Hp0 Hp].
  destruct n as [|n]; simpl in Hn.
  - injection Hn as <-. apply tokenPasses_true in Hp0 as (_ & _ & Ht).
    rewrite Nat.add_0_r. by apply timeRejected_false.
  - replace (i + S n) with (S i + n) by lia. by eapply IH.
Qed.

(** X14: In a chain that verifies successfully every token is within its time
    limits when it is checked: notBefore is not in the future, issuedAt is no
    later than the expiry, and the expiry is either 0 or still ahead.  The
    issuedAt test has no exemption for expiry 0, so a token with expiry 0 is
    only accepted with an issuedAt that is not positive. *)
Theorem success_within_time_limits chains a k n t :
  VerifyLoginRequest C chains = Returned true a k ->
  chains !! n = Some t ->
  timesInOrder (Payload t) (now C n)
  /\ (ExpirationTime (Payload t) = 0%Z -> (IssuedAt (Payload t) <= 0)%Z).
Proof.
  intros Hv Hn. apply verifyLoop_result in Hv as [Ht _].
  destruct (Ht eq_refl) as (Hp & _).
  pose proof (passes_times _ _ _ _ _ Hp Hn) as Hin. simpl in Hin.
  split; [done|]. destruct Hin as (_ & Hia & _). lia.
Qed.

(** X15: The named result [authenticated] outlives a failure: when the first
    token is presented under the Mojang key and verifies, but is outside its
    time limits, the call returns successful=false together with
    authenticated=true (and a nil key). *)
Theorem authenticated_survives_failure t rest :
  X5u (Header t) = MojangPublicKey C ->
  MojangPublicKey C <> "" ->
  signedByMojang C t ->
  timeRejected (Payload t) (now C 0) = true ->
  VerifyLoginRequest C (t :: rest) = Returned false true None.
Proof.
  intros Hx Hne Hsig Htime. unfold VerifyLoginRequest.
  rewrite verifyLoop_cons.
  assert (designated "" t = MojangPublicKey C) as Hd by (by unfold designated).
  rewrite Hd, decide_False by done.
  unfold signedByMojang in Hsig. rewrite Hsig. simpl.
  unfold signatureOK in Hsig.
  destruct (ParsePKIXPublicKey C _); [done| |done].
  by rewrite decide_True, Htime.
Qed.

Section WithConstants.
Context (LatestProtocol StatusLoginSuccess : Z).

(** X16: A key of another algorithm in the first token makes the type assertion
    in [VerifyLoginRequest] panic, and the login handler, which has no
    recover, passes the panic on. *)
Theorem foreign_key_panics server lp session t rest :
  Chains lp = t :: rest ->
  designated "" t <> "" ->
  ParsePKIXPublicKey C (base64_decode C (designated "" t)) = ParsedOther ->
  GetSessionByName (Username lp) (ServerSessionManager server) = None ->
  Protocol lp = LatestProtocol ->
  VerifyLoginRequest C (Chains lp) = AssertionPanic
  /\ LoginHandler C LatestProtocol StatusLoginSuccess server (IsLoginPacket lp) session
     = None.
Proof.
  intros Hch Hd Hparse Hnew Hp.
  assert (VerifyLoginRequest C (Chains lp) = AssertionPanic) as Hv.
  { rewrite Hch. unfold VerifyLoginRequest. rewrite verifyLoop_cons.
    by rewrite decide_False, Hparse. }
  split; [done|]. unfold LoginHandler.
  rewrite Hnew, Hp, Hv, Z.gtb_ltb, Z.ltb_irrefl. done.
Qed.

(** X17: A chain that verifies but is not authenticated is kicked when the server
    requires XBOX Live: the handler logs, kicks with "XBOX Live account
    required.", returns true and adds no session. *)
Theorem xbox_required_kicked server lp session key :
  GetSessionByName (Username lp) (ServerSessionManager server) = None ->
  Protocol lp = LatestProtocol ->
  VerifyLoginRequest C (Chains lp) = Returned true false key ->
  XBOXLiveAuth (ServerConfig server) = true ->
  LoginHandler C LatestProtocol StatusLoginSuccess server (IsLoginPacket lp) session
  = Some (mkOutcome true
            [LogDebug (Username lp)
                      "has tried to join while not being logged into XBOX Live.";
             Kick "XBOX Live account required." false false]
            (ServerSessionManager server)).
Proof.
  intros Hnew Hp Hv Hx. unfold LoginHandler.
  rewrite Hnew, Hp, Hv, Hx, Z.gtb_ltb, Z.ltb_irrefl. done.
Qed.

(** X18: A login that gets through: the username is free, the protocol is the
    latest, the chain verifies, and it is authenticated or the server does
    not require XBOX Live.  Then the handler returns true without a kick,
    hands the verified client key to the encryption data, ends with the
    server handshake when encryption is on and with the login-success status
    and the resource pack info when it is off, and adds the session: the name
    leads to it, the count goes up by one, and a second login packet with the
    same username is turned away without a call. *)
Theorem login_accepted server lp session authenticated key (other : SessionRef) :
  GetSessionByName (Username lp) (ServerSessionManager server) = None ->
  Protocol lp = LatestProtocol ->
  VerifyLoginRequest C (Chains lp) = Returned true authenticated key ->
  authenticated = true \/ XBOXLiveAuth (ServerConfig server) = false ->
  exists o,
    LoginHandler C LatestProtocol StatusLoginSuccess server (IsLoginPacket lp) session
      = Some o
    /\ handled o = true
    /\ ~ kicked o
    /\ SetEncryptionData key ∈ calls o
    /\ SetXBOXLiveAuthenticated authenticated ∈ calls o
    /\ (exists before : list (Call C),
          calls o = (before ++
            (if UseEncryption (ServerConfig server)
             then [SendServerHandshake; EnableEncryption]
             else [SendPlayStatus StatusLoginSuccess;
                   SendResourcePackInfo (ForceResourcePacks (ServerConfig server))]))%list)
    /\ managerAfter o
       = AddMinecraftSession (loggedIn session lp) (ServerSessionManager server)
    /\ GetSessionByName (Username lp) (managerAfter o) = Some (loggedIn session lp)
    /\ GetSessionCount (managerAfter o) = S (GetSessionCount (ServerSessionManager server))
    /\ LoginHandler C LatestProtocol StatusLoginSuccess
         (mkServer (ServerConfig server) (managerAfter o)) (IsLoginPacket lp) other
       = Some (mkOutcome false [] (managerAfter o)).
Proof.
  intros Hnew Hp Hv Hauth. unfold LoginHandler at 1.
  rewrite Hnew, Hp, Hv, Z.gtb_ltb, Z.ltb_irrefl. simpl.
  assert (negb authenticated && XBOXLiveAuth (ServerConfig server) = false) as ->.
  { destruct Hauth as [-> | ->]; [done | by rewrite andb_false_r]. }
  eexists. split; [reflexivity|]. simpl.
  assert (GetSessionByName (Username lp)
            (AddMinecraftSession (loggedIn session lp) (ServerSessionManager server))
          = Some (loggedIn session lp)) as Hfound.
  { unfold GetSessionByName, AddMinecraftSession. simpl. apply lookup_insert_eq. }
  split_and!; try done.
  - intros (reason & hide & srv & Hin).
    destruct (UseEncryption (ServerConfig server)); simpl in Hin;
      rewrite !elem_of_cons, elem_of_nil in Hin;
      repeat (destruct Hin as [Hin|Hin]; [discriminate Hin|]); done.
  - do 3 apply list_elem_of_further. apply list_elem_of_here.
  - do 11 apply list_elem_of_further. apply list_elem_of_here.
  - match goal with |- exists before, ?l = _ => exists (take 12 l) end. reflexivity.
  - unfold GetSessionCount, AddMinecraftSession. simpl.
    by rewrite map_size_insert_None.
  - unfold LoginHandler. simpl. by rewrite Hfound.
Qed.

(** X19: Whatever the packet, the handler changes the manager in one way only:
    by adding the session under the packet's names after a successful
    verification at the latest protocol.  A session that was kicked, and a
    packet the handler did not handle, never get into the manager. *)
Theorem handler_adds_only_accepted server packet session o :
  LoginHandler C LatestProtocol StatusLoginSuccess server packet session = Some o ->
  (kicked o -> managerAfter o = ServerSessionManager server)
  /\ (handled o = false -> managerAfter o = ServerSessionManager server)
  /\ (managerAfter o = ServerSessionManager server
      \/ exists lp authenticated key,
           packet = IsLoginPacket lp
           /\ Protocol lp = LatestProtocol
           /\ VerifyLoginRequest C (Chains lp) = Returned true authenticated key
           /\ managerAfter o
              = AddMinecraftSession (loggedIn session lp) (ServerSessionManager server)).
Proof.
  unfold LoginHandler.
  destruct packet as [lp|id]; [|intros [= <-]; by split_and!; [..|left]].
  destruct (GetSessionByName _ _); [intros [= <-]; by split_and!; [..|left]|].
  destruct (Protocol lp >? LatestProtocol)%Z eqn:Hgt;
    [intros [= <-]; by split_and!; [..|left]|].
  destruct (Protocol lp <? LatestProtocol)%Z eqn:Hlt;
    [intros [= <-]; by split_and!; [..|left]|].
  destruct (VerifyLoginRequest C (Chains lp)) as [s a k|] eqn:Hv; [|done].
  destruct s; simpl; [|intros [= <-]; by split_and!; [..|left]].
  destruct (negb a && XBOXLiveAuth (ServerConfig server));
    [intros [= <-]; by split_and!; [..|left]|].
  intros [= <-]. simpl. split_and!.
  - intros (reason & hide & srv & Hin). exfalso.
    destruct (UseEncryption (ServerConfig server)); simpl in Hin;
      rewrite !elem_of_cons, elem_of_nil in Hin;
      repeat (destruct Hin as [Hin|Hin]; [discriminate Hin|]); done.
  - done.
  - right. exists lp, a, k. split_and!; try done. lia.
Qed.

End WithConstants.
End WithCrypto.
End LoginMore.

(** ** The command, resource pack and text handlers *)
Module HandlersFacts.
Import Manager GoStrings Handlers.

Local Open Scope string_scope.

Section WithServer.
Context (K : Constants) (server : Server).

Lemma candidate_S head arg tail k :
  candidate head (arg :: tail) (S k) = candidate (head ++ " " ++ arg) tail k.
Proof. reflexivity. Qed.

Lemma resolve_found tail : forall head k,
  (k <= length tail)%nat ->
  IsCommandRegistered server (candidate head tail k) = true ->
  (forall j, (j < k)%nat -> IsCommandRegistered server (candidate head tail j) = false) ->
  resolve server head tail = (candidate head tail k, drop k tail).
Proof.
  induction tail as [|arg tail IH]; intros head k Hk Hreg Hmin.
  - assert (k = 0)%nat as -> by (simpl in Hk; lia).
    cbn in *. by rewrite Hreg.
  - destruct k as [|k].
    + cbn in *. by rewrite Hreg.
    + pose proof (Hmin 0%nat ltac:(lia)) as H0. cbn in H0.
      cbn [resolve]. rewrite H0. rewrite candidate_S in Hreg |- *.
      cbn [drop]. apply IH; [simpl in Hk; lia|done|].
      intros j Hj. rewrite <- candidate_S. apply Hmin. lia.
Qed.

Lemma resolve_missing tail : forall head,
  (forall j, (j <= length tail)%nat ->
             IsCommandRegistered server (candidate head tail j) = false) ->
  resolve server head tail = (candidate head tail (length tail), []).
Proof.
  induction tail as [|arg tail IH]; intros head Hnone.
  - pose proof (Hnone 0%nat ltac:(simpl; lia)) as H0. cbn in *. by rewrite H0.
  - pose proof (Hnone 0%nat ltac:(simpl; lia)) as H0. cbn in H0.
    cbn [resolve]. rewrite H0. cbn [length]. rewrite candidate_S.
    apply IH. intros j Hj. rewrite <- candidate_S. apply Hnone. simpl. lia.
Qed.

(** X20: The command handler runs the shortest registered command name that the
    words of the request spell.  With the request split at single spaces
    and the slashes trimmed off the front of the first word, the names
    tried are the first word joined with [k] further words, for [k] from
    zero up.  The command executed is the first of these that is
    registered, and it gets the remaining words as arguments. *)
Theorem command_is_shortest_registered_prefix text k :
  let args := Split space text in
  let head := TrimLeft slash (hd "" args) in
  (k <= length (tl args))%nat ->
  IsCommandRegistered server (candidate head (tl args) k) = true ->
  (forall j, (j < k)%nat ->
             IsCommandRegistered server (candidate head (tl args) j) = false) ->
  CommandRequestHandler server (CommandRequestPacket text)
  = (true, [Execute (candidate head (tl args) k) (drop k (tl args))]).
Proof.
  intros args head Hk Hreg Hmin. unfold CommandRequestHandler.
  fold args. fold head. rewrite (resolve_found _ _ k) by done.
  by rewrite Hreg.
Qed.

(** X21: When none of the names the request spells is registered, the command
    handler executes nothing: it tells the sender that the command could
    not be found and reports the packet as not handled. *)
Theorem unknown_command_reported text :
  let args := Split space text in
  let head := TrimLeft slash (hd "" args) in
  (forall j, (j <= length (tl args))%nat ->
             IsCommandRegistered server (candidate head (tl args) j) = false) ->
  CommandRequestHandler server (CommandRequestPacket text)
  = (false, [SendMessage "Command could not be found."]).
Proof.
  intros args head Hnone. unfold CommandRequestHandler.
  fold args. fold head. rewrite resolve_missing by done.
  by rewrite (Hnone (length (tl args))).
Qed.

Lemma sendPacks_prefix uuids :
  exists n,
    (sendPacks server uuids).2 = map SendResourcePackDataInfo (take n uuids) /\
    Forall (fun u => IsPackLoaded server u = true) (take n uuids) /\
    (if (sendPacks server uuids).1 then n = length uuids
     else exists u, uuids !! n = Some u /\ IsPackLoaded server u = false).
Proof.
  induction uuids as [|u uuids (n & Hcalls & Hloaded & Hend)].
  - exists 0%nat. by split_and!.
  - cbn [sendPacks]. destruct (IsPackLoaded server u) eqn:Hu; cbn [negb].
    + exists (S n). destruct (sendPacks server uuids) as [ok calls].
      cbn [fst snd] in *. split_and!.
      * by rewrite Hcalls.
      * by constructor.
      * destruct ok; [by rewrite Hend|done].
    + exists 0%nat. split_and!; [done|constructor|]. by exists u.
Qed.

(** X22: A client that asks for packs is sent the data info of the requested
    packs in order up to the first one the server has not loaded, and
    nothing else.  The request counts as handled exactly when every pack
    was loaded; otherwise the packs before the missing one have already
    been announced when the handler gives up. *)
Theorem pack_request_stops_at_first_missing uuids :
  StatusSendPacks K <> StatusRefused K ->
  exists n,
    (ResourcePackClientResponseHandler K server
       (ResourcePackClientResponsePacket (StatusSendPacks K) uuids)).2
      = map SendResourcePackDataInfo (take n uuids) /\
    Forall (fun u => IsPackLoaded server u = true) (take n uuids) /\
    (if (ResourcePackClientResponseHandler K server
           (ResourcePackClientResponsePacket (StatusSendPacks K) uuids)).1
     then n = length uuids
     else exists u, uuids !! n = Some u /\ IsPackLoaded server u = false).
Proof.
  intros Hne. unfold ResourcePackClientResponseHandler.
  rewrite decide_False by done. rewrite decide_True by done.
  apply sendPacks_prefix.
Qed.

(** X23: A chat message is relayed to every live session exactly once, and to
    no one else, when the indices of the session manager are coherent with
    the live sessions.  Every receiver gets the same text, the sender's
    display name in angle brackets before the message, and the line is
    logged once after the last send. *)
Theorem chat_reaches_each_live_session_once l message chatId session :
  coherent l (Sessions server) ->
  exists receivers,
    NoDup receivers /\
    (forall s, s ∈ receivers <-> s ∈ l) /\
    TextHandler K server (TextPacket (TextChat K) message chatId) session
    = (true,
       (map (fun s => SendText s
               (mkText ("<" ++ GetDisplayName session ++ "> " ++ message)
                       chatId (Handlers.GetXUID session) (TextChat K)))
            receivers
        ++ [LogChat ("<" ++ GetDisplayName session ++ "> " ++ message)])%list).
Proof.
  intros (Hexact & Hstale & _).
  exists (map snd (map_to_list (GetSessions (Sessions server)))).
  destruct Hstale as (Hname & _). split_and!.
  - apply NoDup_fmap_2_strong; [|apply NoDup_map_to_list].
    intros [k1 s1] [k2 s2] H1 H2 Heq. cbn in Heq. subst s2.
    apply elem_of_map_to_list in H1, H2.
    destruct (Hname _ _ H1) as [_ <-]. by destruct (Hname _ _ H2) as [_ <-].
  - intros s. rewrite list_elem_of_fmap. split.
    + intros ([k s'] & -> & Hin). apply elem_of_map_to_list in Hin.
      by destruct (Hname _ _ Hin).
    + intros Hin. exists (Manager.GetName s, s). split; [done|].
      apply elem_of_map_to_list. by apply Hexact.
  - unfold TextHandler. rewrite decide_False by (intros H; by apply H).
    by rewrite map_map.
Qed.

(** Text that is not chat is never relayed: the handler sends nothing, logs
    nothing and reports the packet as not handled. *)
Theorem only_chat_is_relayed textType message chatId session :
  textType <> TextChat K ->
  TextHandler K server (TextPacket textType message chatId) session = (false, []).
Proof. intros Hne. unfold TextHandler. by rewrite decide_True. Qed.

End WithServer.
End HandlersFacts.

(** ** Facts about [Player.Tick] *)
Module PlayersFacts.
Import Players.

Section WithEntities.
Context (BroadcastUpdatedEntityData : Entity -> Entity * list Sent).

Lemma setHasMovementUpdate_same e :
  HasMovementUpdate e = false -> setHasMovementUpdate false e = e.
Proof. destruct e. simpl. by intros ->. Qed.

(** [Tick] returns whenever the entity pointer is allocated. *)
Lemma Tick_returns p st :
  is_Some (st !! EntityPtr p) -> is_Some (Tick BroadcastUpdatedEntityData p st).
Proof.
  intros [e He]. unfold Tick. rewrite He.
  destruct (HasEntityDataUpdate e); [destruct (BroadcastUpdatedEntityData e)|]; done.
Qed.

(** C8 (amended): [Tick] receives the [Player] struct by value, so the
    struct's own fields are the same for the caller afterwards; but the
    struct embeds a pointer to the entity, the two dirty flags live in that
    shared entity, and clearing them is visible to every holder of the
    player: after [Tick] both flags are false in the store.  Entity data is
    broadcast only when it was dirty.  With [e1] the entity as that broadcast
    left it (the entity itself when nothing was dirty), the entity stored
    afterwards is [e1] with the two flags cleared and nothing else changed,
    and after the entity-data packets every viewer of [e1] is sent one move
    packet with its position and rotation, whether or not the movement flag
    was set.  No other entity is touched. *)
Theorem Tick_clears_shared_flags p st p' st' sent :
  Tick BroadcastUpdatedEntityData p st = Some (p', st', sent) ->
  p' = p
  /\ (forall a, a <> EntityPtr p -> st' !! a = st !! a)
  /\ exists e e1 e' sent1,
       st !! EntityPtr p = Some e
       /\ (e1, sent1) = (if HasEntityDataUpdate e
                         then BroadcastUpdatedEntityData e else (e, []))
       /\ e' = mkEntity (EPosition e1) (ERotation e1) (OnGround e1) false false
                        (RuntimeId e1) (RidingId e1) (Viewers e1)
       /\ st' !! EntityPtr p = Some e'
       /\ HasEntityDataUpdate e' = false
       /\ HasMovementUpdate e' = false
       /\ sent = sent1 ++ BroadcastMovement e'
       /\ sent = sent1 ++
                 map (fun viewer =>
                        SendMovePlayer viewer (RuntimeId e1) (EPosition e1)
                          (ERotation e1) 0 (OnGround e1) (RidingId e1))
                     (Viewers e1)
       /\ (HasEntityDataUpdate e = false ->
           sent1 = [] /\ e' = setHasMovementUpdate false e)
       /\ (HasEntityDataUpdate e = true ->
           sent1 = (BroadcastUpdatedEntityData e).2).
Proof.
  unfold Tick. destruct (st !! EntityPtr p) as [e|] eqn:He; [|done].
  destruct (HasEntityDataUpdate e) eqn:Hd.
  - destruct (BroadcastUpdatedEntityData e) as [e0 sent0] eqn:Hb.
    intros [= <- <- <-]. split; [done|]. split.
    { intros a Ha. by rewrite lookup_insert_ne. }
    exists e, e0, (mkEntity (EPosition e0) (ERotation e0) (OnGround e0) false false
                       (RuntimeId e0) (RidingId e0) (Viewers e0)), sent0.
    set (e2 := if HasMovementUpdate e0 then _ else _).
    assert (e2 = mkEntity (EPosition e0) (ERotation e0) (OnGround e0) false false
                          (RuntimeId e0) (RidingId e0) (Viewers e0)) as ->.
    { subst e2. destruct e0 as [? ? ? [] ? ? ? ?]; reflexivity. }
    rewrite lookup_insert_eq, Hd, Hb. by split_and!.
  - intros [= <- <- <-]. split; [done|]. split.
    { intros a Ha. by rewrite lookup_insert_ne. }
    exists e, e, (mkEntity (EPosition e) (ERotation e) (OnGround e) false false
                      (RuntimeId e) (RidingId e) (Viewers e)), [].
    set (e2 := if HasMovementUpdate e then _ else _).
    assert (e2 = mkEntity (EPosition e) (ERotation e) (OnGround e) false false
                          (RuntimeId e) (RidingId e) (Viewers e)) as ->.
    { subst e2. destruct e as [? ? ? [] ? ? ? ?]; simpl in Hd; subst; reflexivity. }
    rewrite lookup_insert_eq, Hd. split_and!; try done.
    intros _. split; [done|]. destruct e; simpl in Hd; subst; reflexivity.
Qed.

End WithEntities.
End PlayersFacts.

(** ** Facts about [Player.SyncMove] and repeated ticks *)
Module PlayerMovesFacts.
Import Players PlayerMoves.

Section WithEntities.
Context (BroadcastUpdatedEntityData : Entity -> Entity * list Sent).
Context (Mod : float64 -> float64 -> float64) (f360 : float64).

(** X29: A move synced from the client reaches every viewer at the next tick:
    with no entity data pending, the tick sends each viewer of the player
    one move packet and nothing else, carrying the position as given, the
    pitch and yaw reduced by [math.Mod] and the head yaw as given, and it
    leaves the movement flag that [SyncMove] raised cleared. *)
Theorem SyncMove_then_Tick p st e x y z pitch yaw headYaw onGround :
  st !! EntityPtr p = Some e ->
  HasEntityDataUpdate e = false ->
  exists st1 st2 e2,
    SyncMove Mod f360 p x y z pitch yaw headYaw onGround st = Some st1 /\
    Tick BroadcastUpdatedEntityData p st1
    = Some (p, st2,
            map (fun viewer =>
                   SendMovePlayer viewer (RuntimeId e) (mkVector x y z)
                     (mkRotation (Mod pitch f360) (Mod yaw f360) headYaw) 0
                     onGround (RidingId e))
                (Viewers e)) /\
    st2 !! EntityPtr p = Some e2 /\
    HasMovementUpdate e2 = false /\
    EPosition e2 = mkVector x y z /\
    forall a, a <> EntityPtr p -> st2 !! a = st !! a.
Proof.
  intros He Hd. unfold SyncMove, Tick. rewrite He.
  eexists _, _, _. split; [done|].
  rewrite lookup_insert_eq. cbn [HasEntityDataUpdate HasMovementUpdate]. rewrite Hd.
  cbn. split; [done|]. rewrite lookup_insert_eq. split_and!; try done.
  intros a Ha. by rewrite !lookup_insert_ne.
Qed.

(** X30: Ticking is idempotent on the state, but not silent: a tick that follows
    a tick finds nothing to clear and leaves the store as it is, yet sends
    every viewer the player's movement once more, although nothing has
    moved. *)
Theorem Tick_again_only_rebroadcasts p st p' st' sent :
  Tick BroadcastUpdatedEntityData p st = Some (p', st', sent) ->
  exists e',
    st' !! EntityPtr p = Some e' /\
    Tick BroadcastUpdatedEntityData p st' = Some (p, st', BroadcastMovement e').
Proof.
  unfold Tick at 1. destruct (st !! EntityPtr p) as [e|] eqn:He; [|done].
  set (e1s := if HasEntityDataUpdate e then _ else _).
  destruct e1s as [e1 sent1] eqn:H1.
  set (e2 := if HasMovementUpdate e1 then _ else _).
  intros [= <- <- <-]. exists e2.
  assert (HasEntityDataUpdate e1 = false) as Hd1.
  { subst e1s. destruct (HasEntityDataUpdate e) eqn:Hd.
    - destruct (BroadcastUpdatedEntityData e). by injection H1 as <- _.
    - by injection H1 as <- _. }
  assert (HasEntityDataUpdate e2 = false /\ HasMovementUpdate e2 = false) as [Hd2 Hm2].
  { subst e2. by destruct (HasMovementUpdate e1) eqn:Hm. }
  rewrite lookup_insert_eq. split; [done|].
  unfold Tick. rewrite lookup_insert_eq, Hd2, Hm2.
  by rewrite insert_insert_eq.
Qed.

End WithEntities.
End PlayerMovesFacts.

(** ** The theorems at work on concrete inputs *)
Module BatchExamples.
Import Cipher CipherFacts Batch BatchSpec BatchFacts.
Import Fixtures.

Local Open Scope Z_scope.

(** The byte loops on buffers around the block size. *)
Example cfb_roundtrip_lengths :
  Forall (fun n =>
            let d := map Z.of_nat (seq 3 n) in
            (encryptBytes (mixBlock key) iv0 d
               ≫= fun '(c, _) => decryptBytes (mixBlock key) iv0 c) ≫= (fun r => Some r.1)
            = Some d)
         [1; 15; 16; 17; 40]%nat.
Proof. repeat constructor. Qed.

(** C4 (as stated, refuted): the sending end encrypts the 17-byte buffer and
    the receiving end, with the same key and IV, decrypts the result.  What
    [decrypt] leaves is not the plaintext: it is 25 bytes long, the
    plaintext followed by the eight checksum bytes that [encrypt] appended
    before its loop. *)
Lemma decrypt_leaves_checksum_suffix :
  exists c bs' br',
    encrypt libs seventeen (NewMinecraftPacketBatch (Some peer) true) = Ok c bs'
    /\ decrypt (setRaw c (NewMinecraftPacketBatch (Some peer) true)) = Ok tt br'
    /\ raw br' <> seventeen
    /\ length seventeen = 17%nat /\ length (raw br') = 25%nat
    /\ take 17 (raw br') = seventeen.
Proof.
  eexists _, _, _. split; [by vm_compute|]. split; [by vm_compute|].
  split; [|by vm_compute]. vm_compute. discriminate.
Qed.

(** [encrypt_decrypt_roundtrip] for the two ends of [peer] and a 17-byte
    buffer. *)
Lemma encrypt_decrypt_roundtrip_peer :
  (forall p, exists c,
      encryptBytes (EncryptCipher encData) (EncryptIV encData) p
        = Some (c, rolled (EncryptIV encData) c) /\
      decryptBytes (DecryptCipher encData) (DecryptIV encData) c
        = Some (p, rolled (DecryptIV encData) c) /\
      length c = length p /\
      forall i x y, p !! i = Some x -> c !! i = Some y ->
        y = Z.lxor x (keyByte (EncryptCipher encData) (ivAt (EncryptIV encData) c i)) /\
        x = Z.lxor y (keyByte (DecryptCipher encData) (ivAt (DecryptIV encData) c i))) /\
  exists c bs' br',
    encrypt libs seventeen (NewMinecraftPacketBatch (Some peer) true) = Ok c bs' /\
    decrypt (setRaw c (NewMinecraftPacketBatch (Some peer) true)) = Ok tt br' /\
    raw br' = seventeen ++ (ComputeSendChecksum libs encData seventeen).1 /\
    length c = (length seventeen
                + length (ComputeSendChecksum libs encData seventeen).1)%nat /\
    EncryptIV <$> (session bs' ≫= Data) = Some (rolled (EncryptIV encData) c) /\
    DecryptIV <$> (session br' ≫= Data) = Some (rolled (DecryptIV encData) c).
Proof.
  apply (encrypt_decrypt_roundtrip libs
           (NewMinecraftPacketBatch (Some peer) true)
           (NewMinecraftPacketBatch (Some peer) true)
           peer peer encData encData seventeen);
    [reflexivity | reflexivity | reflexivity | reflexivity
    | reflexivity | reflexivity | reflexivity | simpl; lia].
Defined.

(** C1 (as stated, refuted): the frame that the sending end produces for
    [[hello]] is decoded to [[hello]]; with bit 0 of its last byte -- the last
    byte of the encrypted checksum suffix -- flipped, the frame differs, yet
    [Decode] yields the same packet and logs nothing: no checksum failure, no
    drop. *)
Lemma flipped_suffix_accepted :
  let flipped := flipAt (length sentFrame - 1) 0 sentFrame in
  flipped <> sentFrame /\
  report (Decode libs 10 (receiving sentFrame)) = Some ([hello], []) /\
  report (Decode libs 10 (receiving flipped)) = Some ([hello], []).
Proof.
  split_and!; [by vm_compute | by vm_compute | by vm_compute].
Qed.

(** [Decode_accepts_suffix_flip] on that frame. *)
Lemma Decode_accepts_suffix_flip_peer :
  (exists iv'', decryptBytes (DecryptCipher encData) (DecryptIV encData)
                  (cipherInit ++ [flipBit 0 cipherLast])
                = Some (plainInit ++ [flipBit 0 plainLast], iv''))
  /\ yield (Decode libs 10 (receivingOn peer (McpeFlag :: cipherInit ++ [flipBit 0 cipherLast])))
     = yield (Decode libs 10 (receivingOn peer (McpeFlag :: cipherInit ++ [cipherLast]))).
Proof.
  apply (Decode_accepts_suffix_flip libs 10 peer encData
           cipherInit cipherLast 0 plainInit plainLast ivEnd);
    [intros m rest; reflexivity | reflexivity
    | vm_compute; reflexivity | vm_compute; reflexivity].
Defined.








End BatchExamples.

Module ManagerExamples.
Import Manager ManagerFacts Fixtures.

(** C3 (as stated, refuted): two players that are not signed in to XBOX Live
    both carry the empty XUID.  After adding both, the two are live, but the
    XUID index has room for one of them only, so the indices are not
    coherent. *)
Lemma shared_xuid_breaks_coherence :
  ~ coherent (live [Add dave; Add erin]) (run [Add dave; Add erin] NewSessionManager).
Proof.
  intros (Hex & _ & _).
  destruct (Hex dave) as (_ & _ & Hxuid & _).
  assert (dave ∈ live [Add dave; Add erin]) as Hlive.
  { vm_compute. apply list_elem_of_further, list_elem_of_here. }
  apply Hxuid in Hlive. vm_compute in Hlive. discriminate.
Qed.

Lemma keysApart_carol_alice : keysApart carol alice.
Proof. unfold keysApart. simpl. split_and!; discriminate. Defined.

(** [disciplined_coherent] on a run that adds two players with distinct keys
    and removes the first. *)
Lemma disciplined_coherent_run :
  coherent (live [Add alice; Add carol; Remove (Some alice)])
           (run [Add alice; Add carol; Remove (Some alice)] NewSessionManager).
Proof.
  apply (disciplined_coherent [Add alice; Add carol; Remove (Some alice)]).
  cbn. split_and!; try done.
  - apply Forall_cons_2; [exact keysApart_carol_alice | apply Forall_nil_2].
  - left. rewrite decide_True by discriminate.
    apply list_elem_of_further, list_elem_of_here.
Defined.

End ManagerExamples.

Module LoginExamples.
Import Manager Login LoginSpec LoginFacts Fixtures.

Local Open Scope string_scope.

(** C5 (as stated, refuted): Alice is connected; a login packet named Alice
    with a protocol number above the latest one is dropped by the duplicate
    check, which comes first: the handler makes no call at all, so nobody is
    kicked. *)
Lemma duplicate_name_wrong_protocol_not_kicked :
  Protocol (loginOf "Alice" (latest + 1) []) <> latest /\
  exists o,
    LoginHandler crypto latest 0 serverWithAlice
                 (IsLoginPacket (loginOf "Alice" (latest + 1) [])) newcomer = Some o
    /\ calls o = [] /\ ~ kicked o.
Proof.
  split; [by vm_compute|]. eexists. split; [by vm_compute|]. split; [done|].
  intros (reason & hide & srv & Hin). simpl in Hin. by apply elem_of_nil in Hin.
Qed.

(** [protocol_mismatch_kicked] for a newcomer with a protocol number above
    the latest one. *)
Lemma protocol_mismatch_kicked_newcomer :
  LoginHandler crypto latest 0 emptyServer
               (IsLoginPacket (loginOf "Eve" (latest + 1) [])) newcomer
  = Some (mkOutcome false [Kick "Outdated server." false true]
                    (ServerSessionManager emptyServer)).
Proof.
  apply (protocol_mismatch_kicked crypto latest 0 emptyServer
           (loginOf "Eve" (latest + 1) []) newcomer);
    [reflexivity | by vm_compute].
Defined.

(** [duplicate_login_rejected] for a second Alice. *)
Lemma duplicate_login_rejected_alice :
  exists o,
    LoginHandler crypto latest 0 serverWithAlice
                 (IsLoginPacket (loginOf "Alice" latest [])) newcomer = Some o
    /\ handled o = false
    /\ calls o = []
    /\ managerAfter o = ServerSessionManager serverWithAlice
    /\ GetSessionCount (managerAfter o) = GetSessionCount (ServerSessionManager serverWithAlice)
    /\ GetSessionByName (Username (loginOf "Alice" latest [])) (managerAfter o)
       = GetSessionByName (Username (loginOf "Alice" latest []))
                          (ServerSessionManager serverWithAlice).
Proof.
  apply (duplicate_login_rejected crypto latest 0 serverWithAlice
           (loginOf "Alice" latest []) newcomer).
  exists alice. by vm_compute.
Defined.

(** [invalid_chain_not_kicked] for a login with an empty chain. *)
Lemma invalid_chain_not_kicked_eve :
  exists o,
    LoginHandler crypto latest 0 emptyServer
                 (IsLoginPacket (loginOf "Eve" latest [])) newcomer = Some o
    /\ handled o = true
    /\ calls o = [LogDebug (Username (loginOf "Eve" latest []))
                           "has joined with invalid login data."]
    /\ ~ kicked o
    /\ managerAfter o = ServerSessionManager emptyServer.
Proof.
  apply (invalid_chain_not_kicked crypto latest 0 emptyServer
           (loginOf "Eve" latest []) newcomer false None);
    [reflexivity | reflexivity | reflexivity].
Defined.

(** A token signed with the Mojang key but presented under a key of the
    sender's own choosing. *)
Definition smuggled : Chain := token "SelfKey" "MojangRootKey" "ClientKey".

(** C7 (as stated, refuted): the chain holds a token that verifies under the
    Mojang root key, yet the verifier checks it under the key its x5u names,
    the signature does not verify under that key, and the call returns
    authenticated=false. *)
Lemma mojang_signed_token_not_authenticated :
  (exists t, t ∈ [smuggled] /\ signedByMojang crypto t) /\
  VerifyLoginRequest crypto [smuggled] = Returned false false None.
Proof.
  split; [|by vm_compute].
  exists smuggled. split; [apply list_elem_of_here | by vm_compute].
Qed.

(** [authenticated_iff_checked_under_Mojang] on a chain rooted in the Mojang
    key. *)
Lemma authenticated_mojang_rooted :
  let chains := [token "MojangRootKey" "MojangRootKey" "ClientKey"] in
  (true = true <->
   exists t, checked crypto 0 "" chains t (MojangPublicKey crypto)
             /\ signedByMojang crypto t)
  /\ ((forall t, t ∈ chains -> ~ signedByMojang crypto t) -> true = false)
  /\ (true = true ->
      (exists t, checked crypto 0 "" chains t (MojangPublicKey crypto)) -> true = true).
Proof.
  apply (authenticated_iff_checked_under_Mojang crypto
           [token "MojangRootKey" "MojangRootKey" "ClientKey"] true true
           (Some (bytesOf "ClientKey"))).
  by vm_compute.
Defined.

(** [empty_chain_rejected] with the toy keys: the empty key does not parse. *)
Lemma empty_chain_rejected_toy :
  VerifyLoginRequest crypto [] = Returned false false None.
Proof. apply (empty_chain_rejected crypto). reflexivity. Defined.

End LoginExamples.

Module PlayersExamples.
Import Players PlayersFacts Fixtures.

(** C8 (as stated, refuted): Steve's entity has both dirty flags set.  After
    [Tick] on (a copy of) Steve, what the caller reads through its own Steve
    has changed: the flags of the shared entity are cleared. *)
Lemma Tick_seen_by_caller :
  exists st' sent,
    Tick broadcastData steve oneEntity = Some (steve, st', sent)
    /\ (HasMovementUpdate <$> (view steve oneEntity).2) = Some true
    /\ (HasMovementUpdate <$> (view steve st').2) = Some false
    /\ view steve st' <> view steve oneEntity.
Proof.
  eexists _, _. split; [by vm_compute|]. split; [by vm_compute|].
  split; [by vm_compute|]. vm_compute. discriminate.
Qed.

(** [Tick_clears_shared_flags] on Steve. *)
Lemma Tick_clears_shared_flags_steve :
  exists st' sent,
    Tick broadcastData steve oneEntity = Some (steve, st', sent)
    /\ (forall a, a <> EntityPtr steve -> st' !! a = oneEntity !! a)
    /\ exists e e1 e' sent1,
         oneEntity !! EntityPtr steve = Some e
         /\ (e1, sent1) = (if HasEntityDataUpdate e then broadcastData e else (e, []))
         /\ e' = mkEntity (EPosition e1) (ERotation e1) (OnGround e1) false false
                          (RuntimeId e1) (RidingId e1) (Viewers e1)
         /\ st' !! EntityPtr steve = Some e'
         /\ HasEntityDataUpdate e' = false
         /\ HasMovementUpdate e' = false
         /\ sent = sent1 ++ BroadcastMovement e'
         /\ sent = sent1 ++
                   map (fun viewer =>
                          SendMovePlayer viewer (RuntimeId e1) (EPosition e1)
                            (ERotation e1) 0 (OnGround e1) (RidingId e1))
                       (Viewers e1)
         /\ (HasEntityDataUpdate e = false ->
             sent1 = [] /\ e' = setHasMovementUpdate false e)
         /\ (HasEntityDataUpdate e = true -> sent1 = (broadcastData e).2).
Proof.
  destruct (Tick broadcastData steve oneEntity) as [[[p' st'] sent]|] eqn:Ht;
    [|by vm_compute in Ht].
  pose proof (Tick_clears_shared_flags broadcastData steve oneEntity p' st' sent Ht)
    as (-> & Hrest).
  by exists st', sent.
Defined.

End PlayersExamples.

(** ** The further theorems at work on concrete inputs *)
Module CipherMoreExamples.
Import Cipher CipherFacts CipherMore Batch Fixtures MoreFixtures.

(** [rolling_iv_is_ciphertext_tail] on the 17-byte buffer: the IV left is
    the last sixteen bytes of the ciphertext. *)
Lemma rolling_iv_is_ciphertext_tail_seventeen :
  seventeenSent.2 = drop (length seventeenSent.1) (iv0 ++ seventeenSent.1)
  /\ seventeenSent.2 = seventeenSent.2
  /\ length seventeenSent.2 = BlockSize (mixBlock key)
  /\ (BlockSize (mixBlock key) <= length seventeenSent.1 ->
      seventeenSent.2
      = drop (length seventeenSent.1 - BlockSize (mixBlock key)) seventeenSent.1).
Proof.
  apply (rolling_iv_is_ciphertext_tail (mixBlock key) iv0 seventeen
           seventeenSent.1 seventeenSent.2 seventeen seventeenSent.2);
    [reflexivity | vm_compute; reflexivity | vm_compute; reflexivity].
Defined.

(** [decrypt_resynchronises] for two receivers with different IVs and
    different bytes before the window. *)
Lemma decrypt_resynchronises_two_receivers :
  exists p1 p2 q iv',
    decryptBytes (mixBlock key) iv0 ([1; 2; 3]%Z ++ window ++ seventeen)
      = Some (p1 ++ q, iv') /\
    decryptBytes (mixBlock key) iv1 ([9]%Z ++ window ++ seventeen)
      = Some (p2 ++ q, iv') /\
    length p1 = length ([1; 2; 3]%Z ++ window) /\
    length p2 = length ([9]%Z ++ window) /\
    length q = length seventeen /\
    decryptBytes (mixBlock key) window seventeen = Some (q, iv').
Proof.
  apply (decrypt_resynchronises (mixBlock key) iv0 iv1 [1; 2; 3]%Z [9]%Z
           window seventeen);
    [simpl; lia | reflexivity | reflexivity | reflexivity].
Defined.

End CipherMoreExamples.

Module BatchMoreExamples.
Import Cipher Batch BatchSpec BatchMoreSpec BatchMore Fixtures MoreFixtures.

Lemma libs_readsFirstByte : readsFirstByte libs.
Proof. intros m rest. reflexivity. Defined.

Lemma getUvarint_advances n : forall shift acc s v s',
  getUvarint n shift acc s = Some (v, s') ->
  Buffer s' = Buffer s /\ Offset s <= Offset s' /\ (0 < n -> Offset s < Offset s').
Proof.
  induction n as [|n IH]; intros shift acc s v s'; simpl.
  - intros [= _ <-]. split_and!; [done|done|lia].
  - unfold getByte. destruct (Buffer s !! Offset s) as [b|]; [|done].
    case_decide.
    + intros [= _ <-]. simpl. split_and!; [done|lia|lia].
    + intros Hrec. apply IH in Hrec as (Hbuf & Hle & _). simpl in *.
      split_and!; [done|lia|lia].
Defined.

Lemma libs_readerAdvances : readerAdvances libs.
Proof.
  split.
  - intros s rec s'. simpl. unfold getLengthPrefixedBytes.
    destruct (getUvarint 5 0 0 s) as [[n s1]|] eqn:Hn; [|done].
    apply getUvarint_advances in Hn as (Hbuf & _ & Hlt).
    case_decide; [|done]. intros [= _ <-]. simpl.
    split; [done|]. specialize (Hlt ltac:(lia)). lia.
  - intros s. simpl. unfold feof. intros Hf.
    apply bool_decide_eq_false in Hf. lia.
Defined.

(** [fetchPackets_keeps_registered] on records of the four kinds: the two
    with a registered id become packets, the unknown id is logged. *)
Lemma fetchPackets_keeps_registered_mixed :
  exists b',
    fetchPackets mixedRecords (NewMinecraftPacketBatch (Some peer) false) = Ok tt b'
    /\ packets b'
       = packets (NewMinecraftPacketBatch (Some peer) false)
         ++ omap (recordPacket (IsPacketRegistered peer)) mixedRecords
    /\ logged b'
       = logged (NewMinecraftPacketBatch (Some peer) false)
         ++ omap (recordUnknown (IsPacketRegistered peer)) mixedRecords
    /\ stream b' = stream (NewMinecraftPacketBatch (Some peer) false)
    /\ raw b' = raw (NewMinecraftPacketBatch (Some peer) false)
    /\ session b' = session (NewMinecraftPacketBatch (Some peer) false).
Proof.
  apply (fetchPackets_keeps_registered mixedRecords
           (NewMinecraftPacketBatch (Some peer) false) peer).
  reflexivity.
Defined.

(** [Decode_nil_session_no_packets] on a well-formed frame: the packet in
    it is lost. *)
Lemma Decode_nil_session_no_packets_frame :
  packets (decoded (nilReceiving plainFrame)) = packets (nilReceiving plainFrame)
  /\ session (decoded (nilReceiving plainFrame)) = None.
Proof.
  apply (Decode_nil_session_no_packets libs 10 (nilReceiving plainFrame)
           (decoded (nilReceiving plainFrame)));
    [reflexivity | vm_compute; reflexivity].
Defined.

(** [Decode_changes_only_recv_iv] on the encrypted frame. *)
Lemma Decode_changes_only_recv_iv_frame :
  sameButRecvIV (session (receiving sentFrame)) (session (decoded (receiving sentFrame)))
  /\ (needsEncryption (receiving sentFrame) = false ->
      session (decoded (receiving sentFrame)) = session (receiving sentFrame))
  /\ needsEncryption (decoded (receiving sentFrame)) = needsEncryption (receiving sentFrame).
Proof.
  apply (Decode_changes_only_recv_iv libs 10 (receiving sentFrame)
           (decoded (receiving sentFrame))).
  vm_compute; reflexivity.
Defined.

(** [hello] starts with an id that both ends have registered. *)
Lemma hello_known s : IsPacketRegistered s = registered -> Forall (knownTo libs s) [hello].
Proof.
  intros Hreg. apply Forall_cons_2; [|apply Forall_nil_2].
  exists 1%Z, [72; 105]%Z. rewrite Hreg. split; reflexivity.
Defined.

(** [Encode_Decode_encrypted] between the two ends of [peer]. *)
Lemma Encode_Decode_encrypted_peer :
  exists bs' br',
    Encode libs (sendingOn peer true [hello]) = Ok tt bs'
    /\ Decode libs 10 (receivingOn peer (Buffer (stream bs'))) = Ok tt br'
    /\ packets br' = map (received libs) [hello]
    /\ logged br' = []
    /\ is_Some (recvIV br') /\ recvIV br' = sendIV bs'.
Proof.
  apply (Encode_Decode_encrypted libs 10 [hello] peer peer encData encData);
    [exact libs_readsFirstByte | reflexivity | reflexivity | reflexivity
    | reflexivity | reflexivity | simpl; lia
    | vm_compute; reflexivity | vm_compute; reflexivity
    | apply hello_known; reflexivity].
Defined.

(** [Encode_Decode_plain] between two ends without encryption data. *)
Lemma Encode_Decode_plain_peer :
  exists bs' br',
    Encode libs (sendingOn plainPeer false [hello]) = Ok tt bs'
    /\ session bs' = Some plainPeer
    /\ Decode libs 10 (plainReceivingOn plainPeer (Buffer (stream bs'))) = Ok tt br'
    /\ packets br' = map (received libs) [hello]
    /\ logged br' = []
    /\ session br' = Some plainPeer.
Proof.
  apply (Encode_Decode_plain libs 10 [hello] plainPeer plainPeer);
    [exact libs_readsFirstByte | vm_compute; reflexivity | vm_compute; reflexivity
    | apply hello_known; reflexivity].
Defined.

(** [Decode_returns] for the bounds-checked reader. *)
Lemma Decode_returns_frame :
  exists n, forall fuel, n <= fuel ->
    exists b', Decode libs fuel (receiving sentFrame) = Ok tt b'.
Proof.
  apply (Decode_returns libs (receiving sentFrame)). exact libs_readerAdvances.
Defined.

End BatchMoreExamples.

Module ManagerMoreExamples.
Import Manager ManagerFacts ManagerMore Fixtures MoreFixtures.

(** [Remove_undoes_Add] for Carol joining and leaving while Alice is on. *)
Lemma Remove_undoes_Add_carol :
  RemoveMinecraftSession (Some carol)
    (AddMinecraftSession carol (AddMinecraftSession alice NewSessionManager))
  = AddMinecraftSession alice NewSessionManager.
Proof.
  apply (Remove_undoes_Add carol (AddMinecraftSession alice NewSessionManager));
    [reflexivity | by vm_compute | by vm_compute | by vm_compute | by vm_compute].
Defined.

(** [Remove_misses_renamed] for a session whose player goes by another
    name. *)
Lemma Remove_misses_renamed_frank :
  let m' := RemoveMinecraftSession (Some frank)
              (AddMinecraftSession frank NewSessionManager) in
  GetSessionByName (GetName frank) m' = Some frank
  /\ HasSession (GetName frank) m' = true
  /\ GetSessionByUUID (GetUUID frank) m' = None
  /\ GetSessionByXUID (GetXUID frank) m' = None
  /\ GetSessionByRakNetSession (GetSession frank) m' = None
  /\ 0 < GetSessionCount m'.
Proof.
  apply (Remove_misses_renamed frank NewSessionManager). discriminate.
Defined.

End ManagerMoreExamples.

Module LoginMoreExamples.
Import Manager Login LoginSpec LoginMoreSpec LoginMore Fixtures MoreFixtures.

Local Open Scope string_scope.

(** [success_means_all_pass] on a self-signed chain. *)
Lemma success_means_all_pass_selfSigned :
  (true = true <->
   passes crypto 0 "" [selfSigned] = true /\
   exists key,
     ParsePKIXPublicKey crypto (base64_decode crypto (finalKey "" [selfSigned]))
     = ParsedECDSA key)
  /\ (true = true ->
      exists key, Some (bytesOf "ClientKey") = Some key /\
        ParsePKIXPublicKey crypto (base64_decode crypto (finalKey "" [selfSigned]))
        = ParsedECDSA key)
  /\ (true = false -> Some (bytesOf "ClientKey") = None).
Proof.
  apply (success_means_all_pass crypto [selfSigned] true false
           (Some (bytesOf "ClientKey"))).
  by vm_compute.
Defined.

(** [success_within_time_limits] for the token of that chain. *)
Lemma success_within_time_limits_selfSigned :
  timesInOrder (Payload selfSigned) (now crypto 0)
  /\ (ExpirationTime (Payload selfSigned) = 0%Z -> (IssuedAt (Payload selfSigned) <= 0)%Z).
Proof.
  apply (success_within_time_limits crypto [selfSigned] false
           (Some (bytesOf "ClientKey")) 0 selfSigned);
    [by vm_compute | reflexivity].
Defined.

(** [authenticated_survives_failure] for a Mojang token that is not valid
    yet. *)
Lemma authenticated_survives_failure_tooEarly :
  VerifyLoginRequest crypto [tooEarly] = Returned false true None.
Proof.
  apply (authenticated_survives_failure crypto tooEarly []);
    [reflexivity | discriminate | by vm_compute | reflexivity].
Defined.

(** [foreign_key_panics] for a newcomer whose token advertises a key of
    another algorithm. *)
Lemma foreign_key_panics_newcomer :
  VerifyLoginRequest crypto (Chains (loginOf "Eve" latest [foreign])) = AssertionPanic
  /\ LoginHandler crypto latest 0 emptyServer
       (IsLoginPacket (loginOf "Eve" latest [foreign])) newcomer = None.
Proof.
  apply (foreign_key_panics crypto latest 0 emptyServer
           (loginOf "Eve" latest [foreign]) newcomer foreign []);
    [reflexivity | discriminate | reflexivity | reflexivity | reflexivity].
Defined.

(** [xbox_required_kicked] for a self-signed chain on a server that requires
    XBOX Live. *)
Lemma xbox_required_kicked_selfSigned :
  LoginHandler crypto latest 0 xboxServer
    (IsLoginPacket (loginOf "Eve" latest [selfSigned])) newcomer
  = Some (mkOutcome true
            [LogDebug (Username (loginOf "Eve" latest [selfSigned]))
                      "has tried to join while not being logged into XBOX Live.";
             Kick "XBOX Live account required." false false]
            (ServerSessionManager xboxServer)).
Proof.
  apply (xbox_required_kicked crypto latest 0 xboxServer
           (loginOf "Eve" latest [selfSigned]) newcomer (Some (bytesOf "ClientKey")));
    [reflexivity | reflexivity | by vm_compute | reflexivity].
Defined.

(** [login_accepted] for the same chain on a server that does not require
    XBOX Live, where Alice is connected already. *)
Lemma login_accepted_eve :
  exists o,
    LoginHandler crypto latest 0 serverWithAlice
      (IsLoginPacket (loginOf "Eve" latest [selfSigned])) newcomer = Some o
    /\ handled o = true
    /\ ~ kicked o
    /\ @SetEncryptionData crypto (Some (bytesOf "ClientKey")) ∈ calls o
    /\ SetXBOXLiveAuthenticated false ∈ calls o
    /\ (exists before : list (Call crypto),
          calls o = (before ++
            (if UseEncryption (ServerConfig serverWithAlice)
             then [SendServerHandshake; EnableEncryption]
             else [SendPlayStatus 0%Z;
                   SendResourcePackInfo (ForceResourcePacks (ServerConfig serverWithAlice))]))%list)
    /\ managerAfter o
       = AddMinecraftSession (loggedIn newcomer (loginOf "Eve" latest [selfSigned]))
                             (ServerSessionManager serverWithAlice)
    /\ GetSessionByName (Username (loginOf "Eve" latest [selfSigned])) (managerAfter o)
       = Some (loggedIn newcomer (loginOf "Eve" latest [selfSigned]))
    /\ GetSessionCount (managerAfter o)
       = S (GetSessionCount (ServerSessionManager serverWithAlice))
    /\ LoginHandler crypto latest 0
         (mkServer (ServerConfig serverWithAlice) (managerAfter o))
         (IsLoginPacket (loginOf "Eve" latest [selfSigned]))
         (mkSessionRef 10 "&{10.0.0.10 19132}")
       = Some (mkOutcome false [] (managerAfter o)).
Proof.
  apply (login_accepted crypto latest 0 serverWithAlice
           (loginOf "Eve" latest [selfSigned]) newcomer false
           (Some (bytesOf "ClientKey")) (mkSessionRef 10 "&{10.0.0.10 19132}"));
    [by vm_compute | reflexivity | by vm_compute | right; reflexivity].
Defined.

(** [handler_adds_only_accepted] for a login packet with an outdated
    protocol: kicked, and not added. *)
Lemma handler_adds_only_accepted_outdated :
  let o := @mkOutcome crypto false [Kick "Outdated server." false true]
                      (ServerSessionManager emptyServer) in
  (kicked o -> managerAfter o = ServerSessionManager emptyServer)
  /\ (handled o = false -> managerAfter o = ServerSessionManager emptyServer)
  /\ (managerAfter o = ServerSessionManager emptyServer
      \/ exists lp authenticated key,
           IsLoginPacket (loginOf "Eve" (latest + 1) []) = IsLoginPacket lp
           /\ Protocol lp = latest
           /\ VerifyLoginRequest crypto (Chains lp) = Returned true authenticated key
           /\ managerAfter o
              = AddMinecraftSession (loggedIn newcomer lp)
                                    (ServerSessionManager emptyServer)).
Proof.
  apply (handler_adds_only_accepted crypto latest 0 emptyServer
           (IsLoginPacket (loginOf "Eve" (latest + 1) [])) newcomer).
  by vm_compute.
Defined.

End LoginMoreExamples.

Module HandlersExamples.
Import Manager ManagerFacts GoStrings Handlers HandlersFacts Fixtures MoreFixtures.

Local Open Scope string_scope.

(** [command_is_shortest_registered_prefix] for a command of two words:
    one further word is joined on, the rest is the argument. *)
Lemma command_is_shortest_registered_prefix_time :
  CommandRequestHandler lobby (CommandRequestPacket "/time set day")
  = (true, [Execute (candidate "time" ["set"; "day"] 1) (drop 1 ["set"; "day"])]).
Proof.
  apply (command_is_shortest_registered_prefix lobby "/time set day" 1);
    [simpl; lia | reflexivity |].
  intros j Hj. assert (j = 0)%nat as -> by lia. reflexivity.
Defined.

(** [unknown_command_reported] for a request none of whose prefixes is a
    command. *)
Lemma unknown_command_reported_fly :
  CommandRequestHandler lobby (CommandRequestPacket "/fly me")
  = (false, [SendMessage "Command could not be found."]).
Proof.
  apply (unknown_command_reported lobby "/fly me").
  intros [|[|j]] Hj; [reflexivity | reflexivity | simpl in Hj; lia].
Defined.

(** [pack_request_stops_at_first_missing] for a request whose second pack is
    not loaded. *)
Lemma pack_request_stops_at_first_missing_second :
  exists n,
    (ResourcePackClientResponseHandler constants lobby
       (ResourcePackClientResponsePacket (StatusSendPacks constants)
          ["pack-a"; "pack-x"; "pack-b"])).2
      = map SendResourcePackDataInfo (take n ["pack-a"; "pack-x"; "pack-b"]) /\
    Forall (fun u => IsPackLoaded lobby u = true) (take n ["pack-a"; "pack-x"; "pack-b"]) /\
    (if (ResourcePackClientResponseHandler constants lobby
           (ResourcePackClientResponsePacket (StatusSendPacks constants)
              ["pack-a"; "pack-x"; "pack-b"])).1
     then n = length ["pack-a"; "pack-x"; "pack-b"]
     else exists u, ["pack-a"; "pack-x"; "pack-b"] !! n = Some u
                    /\ IsPackLoaded lobby u = false).
Proof.
  apply (pack_request_stops_at_first_missing constants lobby
           ["pack-a"; "pack-x"; "pack-b"]).
  discriminate.
Defined.

Lemma carol_apart_from_alice : keysApart carol alice.
Proof. unfold keysApart. simpl. split_and!; discriminate. Defined.

Lemma lobby_coherent :
  coherent (live [Add alice; Add carol]) (Sessions lobby).
Proof.
  apply (run_coherent [Add alice; Add carol] [] NewSessionManager coherent_empty).
  cbn. split_and!; try done.
  apply Forall_cons_2; [exact carol_apart_from_alice | apply Forall_nil_2].
Defined.

(** [chat_reaches_each_live_session_once] with Alice and Carol online. *)
Lemma chat_reaches_each_live_session_once_lobby :
  exists receivers,
    NoDup receivers /\
    (forall s, s ∈ receivers <-> s ∈ live [Add alice; Add carol]) /\
    TextHandler constants lobby (TextPacket (TextChat constants) "hi all" "chat-1") chatter
    = (true,
       (map (fun s => SendText s
               (mkText ("<" ++ GetDisplayName chatter ++ "> " ++ "hi all")
                       "chat-1" (Handlers.GetXUID chatter) (TextChat constants)))
            receivers
        ++ [LogChat ("<" ++ GetDisplayName chatter ++ "> " ++ "hi all")])%list).
Proof.
  apply (chat_reaches_each_live_session_once constants lobby
           (live [Add alice; Add carol]) "hi all" "chat-1" chatter).
  exact lobby_coherent.
Defined.

End HandlersExamples.

Module ItemsExamples.
Import Items ItemsFacts Fixtures MoreFixtures.

Local Open Scope string_scope.

(** What [NewType] makes of an id of two words, and of one that ends in an
    underscore. *)
Example NewType_iron_sword :
  GetName <$> NewType title "minecraft:iron_sword" = Some "Iron Sword"
  /\ GetName <$> NewType title "minecraft:iron_" = Some "Iron"
  /\ NewType title "emerald" = None.
Proof. by vm_compute. Qed.

(** [NewType_name_ignores_prefix] for an id under another ten-byte prefix. *)
Lemma NewType_name_ignores_prefix_iron_sword :
  exists t u,
    NewType title ("minecraft:" ++ "iron_sword") = Some t /\
    NewType title ("moddedmod:" ++ "iron_sword") = Some u /\
    GetId t = "minecraft:" ++ "iron_sword" /\ GetId u = "moddedmod:" ++ "iron_sword" /\
    GetName t = GetName u /\
    forall s, GetName t <> s ++ " ".
Proof.
  apply (NewType_name_ignores_prefix title "minecraft:" "moddedmod:" "iron_sword");
    reflexivity.
Defined.

(** [GetAuxValue_packs_data_and_count] for 64 emeralds with data 5. *)
Lemma GetAuxValue_packs_data_and_count_emerald :
  GetAuxValue emerald sixtyFour 5 = (5 * 256 + Count sixtyFour)%Z.
Proof.
  apply (GetAuxValue_packs_data_and_count emerald sixtyFour 5); simpl; lia.
Defined.

(** [GetAuxValue_negative_from_bit_7] for emeralds with data 128: the aux
    value is negative. *)
Lemma GetAuxValue_negative_from_bit_7_emerald :
  (GetAuxValue emerald sixtyFour 128 < 0)%Z.
Proof.
  apply (GetAuxValue_negative_from_bit_7 emerald sixtyFour 128). by vm_compute.
Defined.

End ItemsExamples.

Module PluginsExamples.
Import Plugins PluginsFacts.

Local Open Scope string_scope.

(** A manifest for API 0.9 passes, one for API 1.0 does not, and a name
    that is taken is turned away before anything else is looked at. *)
Example ValidateManifest_verdicts :
  ValidateManifest (mkPluginManager ∅)
    (mkManifest "Essentials" "Basics" "1.2" "0.9") "plugins/e.so" = None
  /\ ValidateManifest (mkPluginManager ∅)
       (mkManifest "Essentials" "Basics" "1.2" "1.0") "plugins/e.so"
     = Some "Plugin manifest at plugins/e.so has an incompatible greater API version. Got: 1.~, Expected: 0.~"
  /\ ValidateManifest (mkPluginManager {[ "Essentials" := 1%nat ]})
       (mkManifest "Essentials" "" "" "") "plugins/e.so"
     = Some "Found duplicated plugin at plugins/e.so".
Proof. by vm_compute. Qed.

End PluginsExamples.

Module PlayerMovesExamples.
Import Players PlayerMoves PlayerMovesFacts Fixtures MoreFixtures.

Local Open Scope Z_scope.

(** [SyncMove_then_Tick] for Alex, who has nothing pending, moving to
    (3, 8, 4) with a yaw of 370. *)
Lemma SyncMove_then_Tick_alex :
  exists st1 st2 e2,
    SyncMove modBits 360 alex 3 8 4 10 370 20 false twoEntities = Some st1 /\
    Tick broadcastData alex st1
    = Some (alex, st2,
            map (fun viewer =>
                   SendMovePlayer viewer (RuntimeId alexEntity) (mkVector 3 8 4)
                     (mkRotation (modBits 10 360) (modBits 370 360) 20) 0
                     false (RidingId alexEntity))
                (Viewers alexEntity)) /\
    st2 !! EntityPtr alex = Some e2 /\
    HasMovementUpdate e2 = false /\
    EPosition e2 = mkVector 3 8 4 /\
    forall a, a <> EntityPtr alex -> st2 !! a = twoEntities !! a.
Proof.
  apply (SyncMove_then_Tick broadcastData modBits 360 alex twoEntities alexEntity
           3 8 4 10 370 20 false);
    [by vm_compute | reflexivity].
Defined.

(** [Tick_again_only_rebroadcasts] for Steve. *)
Lemma Tick_again_only_rebroadcasts_steve :
  exists e',
    ticked.1.2 !! EntityPtr steve = Some e' /\
    Tick broadcastData steve ticked.1.2 = Some (steve, ticked.1.2, BroadcastMovement e').
Proof.
  apply (Tick_again_only_rebroadcasts broadcastData steve oneEntity
           ticked.1.1 ticked.1.2 ticked.2).
  by vm_compute.
Defined.

End PlayerMovesExamples.

